(** * doctai: response parsing, script ordering and execution sequencing

    A shallow embedding of the decision logic of
    [doctai/orchestrator.py] ([DocumentationTester]) and of the executor it
    drives, [doc_tester/executor.py] ([ScriptExecutor]).

    Modelling conventions.
    - A Python [str] is a [string]; the character classes the code relies
      on ([\w] of [re], the white space removed by [str.strip], the letters
      changed by [str.lower]) are given on the ASCII range, the other
      characters being neither word characters nor white space and left
      unchanged by [lower].
    - A Python [dict] is an association list in insertion order: assigning
      to an existing key keeps its position, assigning to a new key appends.
    - What the program obtains from its environment (the documentation
      fetcher, the model provider, the file system, the child process, the
      random generator) is an input of the model. *)

From Stdlib Require Import Strings.String Strings.Ascii Lists.List.
From Stdlib Require Import Arith.PeanoNat ZArith.BinInt Bool.Bool micromega.Lia.
From Stdlib Require Import Init.Decimal Numbers.DecimalString Numbers.DecimalNat.
Import ListNotations.

Open Scope string_scope.
Open Scope list_scope.

(* ================================================================== *)
(** ** Python strings *)

Module PyStr.

Definition in_range (lo hi c : ascii) : bool :=
  ((lo <=? c) && (c <=? hi))%char.

Definition is_upper (c : ascii) : bool := in_range "A" "Z" c.
Definition is_lower (c : ascii) : bool := in_range "a" "z" c.
Definition is_digit (c : ascii) : bool := in_range "0" "9" c.

(** [\w]: letters, digits and the underscore. *)
Definition is_word (c : ascii) : bool :=
  is_upper c || is_lower c || is_digit c || (c =? "_")%char.

(** The characters [str.strip()] removes: TAB, LF, VT, FF, CR, the four
    separators FS GS RS US, and the space. *)
Definition is_space (c : ascii) : bool :=
  in_range "009" "013" c || in_range "028" "031" c || (c =? " ")%char.

Definition lower_char (c : ascii) : ascii :=
  if is_upper c then ascii_of_nat (nat_of_ascii c + 32) else c.

(** [s.lower()] *)
Fixpoint lower (s : string) : string :=
  match s with
  | EmptyString => EmptyString
  | String c s' => String (lower_char c) (lower s')
  end.

(** [s.lstrip(chars)], [s.rstrip(chars)] and [s.strip(chars)], the set of
    characters to remove given as a predicate. *)
Fixpoint lstrip_by (p : ascii -> bool) (s : string) : string :=
  match s with
  | EmptyString => EmptyString
  | String c s' => if p c then lstrip_by p s' else s
  end.

Fixpoint rstrip_by (p : ascii -> bool) (s : string) : string :=
  match s with
  | EmptyString => EmptyString
  | String c s' =>
      match rstrip_by p s' with
      | EmptyString => if p c then EmptyString else String c EmptyString
      | r => String c r
      end
  end.

Definition strip_by (p : ascii -> bool) (s : string) : string :=
  rstrip_by p (lstrip_by p s).

(** [s.strip()] *)
Definition strip (s : string) : string := strip_by is_space s.

(** [s.split(sep)] for a one-character separator: never the empty list. *)
Fixpoint split (sep : ascii) (s : string) : list string :=
  match s with
  | EmptyString => [EmptyString]
  | String c s' =>
      if (c =? sep)%char then EmptyString :: split sep s'
      else match split sep s' with
           | [] => [String c EmptyString]
           | l :: ls => String c l :: ls
           end
  end.

(** [s.startswith(p)] *)
Definition startswith (p s : string) : bool := prefix p s.

(** [needle in hay] *)
Fixpoint contains (needle hay : string) : bool :=
  prefix needle hay ||
  match hay with
  | EmptyString => false
  | String _ hay' => contains needle hay'
  end.

(** [s[:n]] *)
Definition take (n : nat) (s : string) : string := substring 0 n s.

(** [s[n:]] for [0 <= n] *)
Fixpoint drop (n : nat) (s : string) : string :=
  match n, s with
  | O, _ => s
  | S n', String _ s' => drop n' s'
  | S _, EmptyString => EmptyString
  end.

(** [s[-n:]] for [0 < n] *)
Definition last_chars (n : nat) (s : string) : string :=
  drop (String.length s - n) s.

(** [str(n)] for a natural number: decimal, no leading zero. *)
Definition str (n : nat) : string :=
  NilEmpty.string_of_uint (Nat.to_uint n).

(** [s in l] for a list of strings *)
Definition in_list (s : string) (l : list string) : bool :=
  existsb (String.eqb s) l.

Definition newline : ascii := "010"%char.
Definition nl : string := String newline EmptyString.

(** Every character of [s] satisfies [p]. *)
Fixpoint all_chars (p : ascii -> bool) (s : string) : bool :=
  match s with
  | EmptyString => true
  | String c s' => p c && all_chars p s'
  end.

(** [s.endswith(suffix)] *)
Fixpoint endswith (suffix s : string) : bool :=
  (s =? suffix)%string ||
  match s with
  | EmptyString => false
  | String _ s' => endswith suffix s'
  end.

(** [s.split(sep, 1)] when [sep] occurs in [s]: the text before the first
    [sep] and the text after it; [None] when [sep] does not occur. *)
Fixpoint split_first (sep : ascii) (s : string) : option (string * string) :=
  match s with
  | EmptyString => None
  | String c s' =>
      if (c =? sep)%char then Some (EmptyString, s')
      else match split_first sep s' with
           | Some (before, after) => Some (String c before, after)
           | None => None
           end
  end.

(** [s[:-1]] *)
Fixpoint drop_last (s : string) : string :=
  match s with
  | EmptyString => EmptyString
  | String c EmptyString => EmptyString
  | String c s' => String c (drop_last s')
  end.

(** [s[1:-1]] *)
Definition inner (s : string) : string := drop_last (drop 1 s).

(** The pieces of [s] between the characters that satisfy [p]. *)
Fixpoint split_by (p : ascii -> bool) (s : string) : list string :=
  match s with
  | EmptyString => [EmptyString]
  | String c s' =>
      if p c then EmptyString :: split_by p s'
      else match split_by p s' with
           | [] => [String c EmptyString]
           | l :: ls => String c l :: ls
           end
  end.

(** [s.split()]: the pieces between runs of white space, none empty. *)
Definition split_ws (s : string) : list string :=
  filter (fun x => negb (x =? "")%string) (split_by is_space s).

End PyStr.

(* ================================================================== *)
(** ** Python dictionaries (insertion ordered) *)

Module PyDict.
Section Dict.
Context {V : Type}.

Definition dict := list (string * V).

(** [d[k] = v] *)
Fixpoint set (k : string) (v : V) (d : dict) : dict :=
  match d with
  | [] => [(k, v)]
  | (k', v') :: d' =>
      if (k' =? k)%string then (k, v) :: d' else (k', v') :: set k v d'
  end.

(** [d1.update(d2)] *)
Definition update (d1 d2 : dict) : dict :=
  fold_left (fun d kv => set (fst kv) (snd kv) d) d2 d1.

(** [list(d.keys())] *)
Definition keys (d : dict) : list string := map fst d.

(** [d.get(k)] *)
Fixpoint get (k : string) (d : dict) : option V :=
  match d with
  | [] => None
  | (k', v') :: d' => if (k' =? k)%string then Some v' else get k d'
  end.

End Dict.
Arguments dict V : clear implicits.
End PyDict.

(* ================================================================== *)
(** ** The response parser ([doctai/orchestrator.py]) *)

Module Parser.
Import PyStr.

(** *** [re.findall(r'```(\w+)\n(.*?)```', response, re.DOTALL)] *)

Definition fence : string := "```".

(** The longest run of word characters at the head of [s], and the rest.
    [\w+] is greedy; giving a character back never helps here, since the
    next pattern item is a line feed and the character given back is a
    word character. *)
Fixpoint span_word (s : string) : string * string :=
  match s with
  | String c s' =>
      if is_word c then let (w, r) := span_word s' in (String c w, r)
      else (EmptyString, s)
  | EmptyString => (EmptyString, EmptyString)
  end.

(** [(.*?)```] under DOTALL: the text up to the first closing fence, and
    what follows that fence. *)
Fixpoint until_fence (s : string) : option (string * string) :=
  if prefix fence s then Some (EmptyString, drop 3 s)
  else match s with
       | EmptyString => None
       | String c s' =>
           match until_fence s' with
           | Some (body, rest) => Some (String c body, rest)
           | None => None
           end
       end.

(** One attempt to match the whole pattern at the head of [s]:
    the two groups and the text after the match. *)
Definition match_here (s : string) : option (string * string * string) :=
  if prefix fence s then
    let (language, r) := span_word (drop 3 s) in
    match language, r with
    | String _ _, String c r' =>
        if (c =? newline)%char then
          match until_fence r' with
          | Some (body, rest) => Some (language, body, rest)
          | None => None
          end
        else None
    | _, _ => None
    end
  else None.

(** The scan of [findall]: try at the current position; after a match go on
    behind it, otherwise one character further. *)
Fixpoint findall_from (fuel : nat) (s : string) : list (string * string) :=
  match fuel with
  | O => []
  | S fuel' =>
      match match_here s with
      | Some (language, body, rest) => (language, body) :: findall_from fuel' rest
      | None =>
          match s with
          | EmptyString => []
          | String _ s' => findall_from fuel' s'
          end
      end
  end.

Definition findall (response : string) : list (string * string) :=
  findall_from (S (String.length response)) response.

(** *** The heuristics *)

(** The [for line in actual_lines] loop, with its two early returns. *)
Fixpoint runner_loop (actual_lines : list string) : bool :=
  match actual_lines with
  | [] => false
  | line :: rest =>
      if contains "chmod" line && contains ".sh" line then true
      else if startswith "./" line && contains ".sh" line then true
      else runner_loop rest
  end.

(** [[l.strip() for l in lines if l.strip() and not l.strip().startswith('#')]] *)
Definition actual_lines_of (content : string) : list string :=
  let lines := split newline (strip content) in
  map strip
    (filter (fun l => negb (strip l =? "")%string && negb (startswith "#" (strip l)))
            lines).

Definition _is_runner_script (content : string) : bool :=
  let actual_lines := actual_lines_of content in
  if Nat.leb (List.length actual_lines) 2 then runner_loop actual_lines
  else false.

Definition cleanup_indicators : list string :=
  ["cleanup"; "clean up"; "remove"; "rm -rf"; "delete"; "tear down"; "teardown"].

(** The [for indicator in cleanup_indicators] loop. *)
Fixpoint cleanup_loop (content_lower : string) (indicators : list string) : bool :=
  match indicators with
  | [] => false
  | indicator :: rest =>
      if contains indicator (take 200 content_lower) then
        if (contains "echo" content_lower && contains indicator content_lower)
           || (contains ("# " ++ indicator) content_lower
               || contains ("#" ++ indicator) content_lower)
        then true
        else cleanup_loop content_lower rest
      else cleanup_loop content_lower rest
  end.

Definition _is_cleanup_script (content : string) : bool :=
  let content_lower := lower content in
  cleanup_loop content_lower cleanup_indicators.

(** *** [_extract_scripts_from_response] *)

Record script_data := { content : string; type : string }.

Definition non_executable : list string :=
  ["json"; "yaml"; "yml"; "toml"; "xml"; "html"; "css"; "markdown"; "md"; "txt"].

(** The two [if]/[elif] of "Normalize script types". *)
Definition normalize (script_type : string) : string :=
  if in_list script_type ["sh"; "shell"; "bash"] then "bash"
  else if in_list script_type ["py"; "python3"] then "python"
  else script_type.

(** [f"script_{i}_{script_type}"] *)
Definition script_name (i : nat) (script_type : string) : string :=
  "script_" ++ str i ++ "_" ++ script_type.

(** The body of [for i, (language, content) in enumerate(matches, 1)],
    on the pair of dictionaries [scripts], [cleanup_scripts]. *)
Fixpoint extract_loop (matches : list (string * string)) (i : nat)
         (scripts cleanup_scripts : PyDict.dict script_data)
  : PyDict.dict script_data * PyDict.dict script_data :=
  match matches with
  | [] => (scripts, cleanup_scripts)
  | (language, content) :: rest =>
      let script_type := lower language in
      if in_list script_type non_executable then
        extract_loop rest (S i) scripts cleanup_scripts
      else
        let script_type := normalize script_type in
        let name := script_name i script_type in
        let data := {| content := strip content; type := script_type |} in
        if _is_runner_script content then
          extract_loop rest (S i) scripts cleanup_scripts
        else if _is_cleanup_script content then
          extract_loop rest (S i) scripts (PyDict.set name data cleanup_scripts)
        else
          extract_loop rest (S i) (PyDict.set name data scripts) cleanup_scripts
  end.

(** The function from the list of matches on. *)
Definition extract_from_matches (matches : list (string * string))
  : PyDict.dict script_data :=
  let (scripts, cleanup_scripts) := extract_loop matches 1 [] [] in
  PyDict.update scripts cleanup_scripts.

Definition _extract_scripts_from_response (response : string)
  : PyDict.dict script_data :=
  extract_from_matches (findall response).

(** *** The spec's vocabulary: candidates and decisions *)

Inductive ScriptDecision :=
| RejectedNonExecutable
| RejectedRunner
| Cleanup
| Normal.

Record ScriptCandidate := {
  ordinal : nat;
  declaredLanguage : string;
  rawContent : string
}.

Definition normalizedType (c : ScriptCandidate) : string :=
  normalize (lower (declaredLanguage c)).

(** Candidates are the matches, numbered from [start]. *)
Fixpoint enumerate (start : nat) (matches : list (string * string))
  : list ScriptCandidate :=
  match matches with
  | [] => []
  | (language, body) :: rest =>
      {| ordinal := start; declaredLanguage := language; rawContent := body |}
        :: enumerate (S start) rest
  end.

Definition extractCandidates (response : string) : list ScriptCandidate :=
  enumerate 1 (findall response).

(** The decision the loop body takes, first match first. *)
Definition classify (c : ScriptCandidate) : ScriptDecision :=
  if in_list (lower (declaredLanguage c)) non_executable then RejectedNonExecutable
  else if _is_runner_script (rawContent c) then RejectedRunner
  else if _is_cleanup_script (rawContent c) then Cleanup
  else Normal.

Definition is_normal (c : ScriptCandidate) : bool :=
  match classify c with Normal => true | _ => false end.

Definition is_cleanup (c : ScriptCandidate) : bool :=
  match classify c with Cleanup => true | _ => false end.

(** The dictionary entry of an accepted candidate. *)
Definition entry (c : ScriptCandidate) : string * script_data :=
  (script_name (ordinal c) (normalizedType c),
   {| content := strip (rawContent c); type := normalizedType c |}).

(** The candidate made of the [n]-th match (counting from 0). *)
Definition candidate (n : nat) (language body : string) : ScriptCandidate :=
  {| ordinal := S n; declaredLanguage := language; rawContent := body |}.

(** [buildScriptSet] as the specification words it: the normal candidates
    in order of appearance, then the cleanup candidates in order of
    appearance. *)
Definition buildScriptSet (candidates : list ScriptCandidate)
  : PyDict.dict script_data :=
  map entry (filter is_normal candidates)
  ++ map entry (filter is_cleanup candidates).

(** The specification's test on one substantive line of a runner script. *)
Definition invokes_script (line : string) : Prop :=
  (contains "chmod" line = true /\ contains ".sh" line = true)
  \/ (startswith "./" line = true /\ contains ".sh" line = true).

(** The substantive lines of a content, as the specification words them:
    its lines, trimmed, without the blank ones and without the comment
    lines (those starting with [#]). *)
Definition substantive_lines (content : string) : list string :=
  filter (fun l => negb (l =? "")%string && negb (startswith "#" l))
         (map strip (split newline content)).

(** The specification's rule 2: at most two substantive lines, one of
    which invokes a script file. *)
Definition runner_shape (content : string) : Prop :=
  List.length (substantive_lines content) <= 2
  /\ exists line, In line (substantive_lines content) /\ invokes_script line.

(** The specification's rule 3, with its output statement and its comment
    read as the occurrences of text they are in the code: an indicator in
    the first 200 characters of the lower-cased content, together with the
    letters [echo] somewhere in the lower-cased content, or with the text
    [# indicator] or [#indicator] somewhere in it. *)
Definition cleanup_shape (content : string) : Prop :=
  exists indicator,
    In indicator cleanup_indicators
    /\ contains indicator (take 200 (lower content)) = true
    /\ (contains "echo" (lower content) = true
        \/ contains ("# " ++ indicator) (lower content) = true
        \/ contains ("#" ++ indicator) (lower content) = true).

(** [a] stands before [b] in the list [l]. *)
Definition before {A : Type} (a b : A) (l : list A) : Prop :=
  exists l1 l2 l3, l = l1 ++ a :: l2 ++ b :: l3.

End Parser.

(* ================================================================== *)
(** ** The script executor ([doc_tester/executor.py]) *)

Module Executor.
Import PyStr.

(** A [pathlib.Path]: the directory and the file name. *)
Record path := { parent : string; name : string }.

(** The attributes [__init__] sets and nothing changes afterwards. *)
Record ScriptExecutor := {
  work_dir : string;
  verbose : bool;
  source_context : option string;
  save_generated_scripts : bool
}.

(** What happens inside the [try] of [execute_script]. *)
Inductive TryOutcome :=
| WriteError (e : string)
    (** [open]/[write] raised: the path is not tracked *)
| RunError (e : string)
    (** [os.chmod] or [subprocess.run] raised an [Exception] other than a
        timeout before the process has ended, e.g. the interpreter cannot
        be spawned *)
| DecodeError (returncode : Z) (e : string)
    (** the process exited with [returncode], and [subprocess.run], which
        reads the captured output as text, raised on bytes it cannot
        decode *)
| Timeout
    (** [subprocess.TimeoutExpired] *)
| Completed (returncode : Z) (out err : string).
    (** [subprocess.run] returned *)

(** The environment of one executor: the current directory, the indices
    the random generator draws, and what the n-th call of
    [execute_script] meets in its [try]. [Path.cwd()] and printing are
    taken not to fail. *)
Record Env := {
  cwd : string;
  draw : nat -> nat;
  attempt : nat -> TryOutcome
}.

(** The mutable part: [self.generated_script_paths], the number of random
    draws made, and the log of the calls of [execute_script]
    (script index and content). *)
Record State := {
  generated_script_paths : list path;
  drawn : nat;
  calls : list (nat * string)
}.

Definition initial_state : State :=
  {| generated_script_paths := []; drawn := 0; calls := [] |}.

Definition Result : Type := bool * string * string.

Definition success_of (r : Result) : bool := fst (fst r).
Definition stdout_of (r : Result) : string := snd (fst r).
Definition stderr_of (r : Result) : string := snd r.

(** [string.ascii_lowercase + string.digits] *)
Definition suffix_alphabet : string := "abcdefghijklmnopqrstuvwxyz0123456789".

(** [''.join(random.choices(population, k=k))], the draws being
    [draw from], ..., [draw (from + k - 1)], each reduced to an index of
    the population. *)
Definition choices (population : string) (k : nat) (draw : nat -> nat) (from : nat)
  : string :=
  string_of_list_ascii
    (map (fun j => nth (draw j mod String.length population)
                       (list_ascii_of_string population) "a"%char)
         (seq from k)).

(** The extension chosen by [_generate_script_filename] and [execute_script]. *)
Definition extension_of (script_type : string) : string :=
  if in_list (lower script_type) ["bash"; "sh"] then ".sh"
  else if (lower script_type =? "python")%string then ".py"
  else "." ++ script_type.

(** The class [[\w\-.]] *)
Definition filename_safe (c : ascii) : bool :=
  is_word c || (c =? "-")%char || (c =? ".")%char.

Fixpoint map_chars (f : ascii -> ascii) (s : string) : string :=
  match s with
  | EmptyString => EmptyString
  | String c s' => String (f c) (map_chars f s')
  end.

(** [re.sub(r'[^\w\-.]', '_', s)] *)
Definition re_sub_unsafe (s : string) : string :=
  map_chars (fun c => if filename_safe c then c else "_"%char) s.

(** The three lines under "Sanitize source context for filename". *)
Definition sanitize (source_context : string) : string :=
  let sanitized := re_sub_unsafe source_context in
  let sanitized := strip_by (fun c => (c =? "_")%char) sanitized in
  if (50 <? String.length sanitized)%nat then last_chars 50 sanitized else sanitized.

(** [if self.source_context:] holds for a string that is not empty. *)
Definition truthy (o : option string) : option string :=
  match o with
  | Some EmptyString => None
  | other => other
  end.

Definition _generate_script_filename (self : ScriptExecutor) (e : Env) (from : nat)
           (script_type : string) (script_index : nat) : string :=
  let extension := extension_of script_type in
  let random_suffix := choices suffix_alphabet 6 (draw e) from in
  match truthy (source_context self) with
  | Some ctx => "_gen-" ++ sanitize ctx ++ "-" ++ random_suffix ++ extension
  | None => "_gen-script" ++ str script_index ++ "-" ++ random_suffix ++ extension
  end.

Definition timeout_message (timeout : nat) : string :=
  "Script execution timed out after " ++ str timeout ++ " seconds".

Definition failure_message (e : string) : string :=
  "Failed to execute script: " ++ e.

(** [execute_script]; [env] (extra environment variables) only reaches the
    child process and is left out. *)
Definition execute_script (self : ScriptExecutor) (e : Env)
           (script_content script_type : string) (timeout script_index : nat)
           (st : State) : Result * State :=
  let extension := extension_of script_type in
  let script_path :=
    if save_generated_scripts self then
      {| parent := cwd e;
         name := _generate_script_filename self e (drawn st) script_type script_index |}
    else
      {| parent := work_dir self; name := "test_script" ++ extension |} in
  let drawn' := if save_generated_scripts self then drawn st + 6 else drawn st in
  let calls' := calls st ++ [(script_index, script_content)] in
  let tracked :=
    if save_generated_scripts self
    then generated_script_paths st ++ [script_path]
    else generated_script_paths st in
  match attempt e (List.length (calls st)) with
  | WriteError msg =>
      ((false, "", failure_message msg),
       {| generated_script_paths := generated_script_paths st;
          drawn := drawn'; calls := calls' |})
  | RunError msg | DecodeError _ msg =>
      ((false, "", failure_message msg),
       {| generated_script_paths := tracked; drawn := drawn'; calls := calls' |})
  | Timeout =>
      ((false, "", timeout_message timeout),
       {| generated_script_paths := tracked; drawn := drawn'; calls := calls' |})
  | Completed returncode out err =>
      ((Z.eqb returncode 0, out, err),
       {| generated_script_paths := tracked; drawn := drawn'; calls := calls' |})
  end.

(** The [for idx, (script_name, script_info) in enumerate(scripts.items())]
    loop of [execute_multiple_scripts], with its [break]. The default
    timeout of [execute_script] is 600. *)
Fixpoint execute_loop (self : ScriptExecutor) (e : Env) (stop_on_failure : bool)
         (items : list (string * Parser.script_data)) (idx : nat)
         (results : PyDict.dict Result) (st : State)
  : PyDict.dict Result * State :=
  match items with
  | [] => (results, st)
  | (script_name, script_info) :: rest =>
      let '(r, st') :=
        execute_script self e (Parser.content script_info)
                       (Parser.type script_info) 600 idx st in
      let results' := PyDict.set script_name r results in
      if negb (success_of r) && stop_on_failure then (results', st')
      else execute_loop self e stop_on_failure rest (S idx) results' st'
  end.

Definition execute_multiple_scripts (self : ScriptExecutor) (e : Env)
           (scripts : PyDict.dict Parser.script_data) (stop_on_failure : bool)
           (st : State) : PyDict.dict Result * State :=
  execute_loop self e stop_on_failure scripts 0 [] st.

(** What [execute_script] returns, by what its [try] meets. *)
Definition result_of (timeout : nat) (o : TryOutcome) : Result :=
  match o with
  | WriteError msg | RunError msg | DecodeError _ msg =>
      (false, "", failure_message msg)
  | Timeout => (false, "", timeout_message timeout)
  | Completed returncode out err => (Z.eqb returncode 0, out, err)
  end.

(** The sanitization as the specification words it: the characters outside
    word characters, hyphen and dot are removed, and the last 50 characters
    of what remains are kept. *)
Fixpoint filter_chars (p : ascii -> bool) (s : string) : string :=
  match s with
  | EmptyString => EmptyString
  | String c s' => if p c then String c (filter_chars p s') else filter_chars p s'
  end.

Definition sanitize_by_stripping (source_context : string) : string :=
  let kept := filter_chars filename_safe source_context in
  if (50 <? String.length kept)%nat then last_chars 50 kept else kept.

End Executor.

(* ================================================================== *)
(** ** The orchestrator ([doctai/orchestrator.py], [test_documentation]) *)

Module Orchestrator.
Import PyStr.

(** One element of [results["details"]]. *)
Record Detail := {
  script : string;
  passed : bool;
  stdout : string;
  stderr : string
}.

(** The [results] dictionary; [error] is [None] while the key is absent. *)
Record Results := {
  success : bool;
  documentation_sources : list string;
  documentation_count : nat;
  scripts_generated : nat;
  scripts_executed : nat;
  scripts_passed : nat;
  scripts_failed : nat;
  scripts : PyDict.dict Parser.script_data;
  details : list Detail;
  error : option string
}.

(** The collaborators. A raised exception is [inl] of its message.
    - [fetch_multiple]: the documentation fetcher;
    - [send_message docs custom_instructions]: the provider's answer to the
      one prompt [_generate_test_scripts] builds from the documentation and
      the custom instructions (the wording of the prompt plays no part in
      what follows and is not modelled);
    - [make_work_dir]: [ScriptExecutor.__init__] creating or allocating
      the working directory;
    - [exec_env]: what the executor meets. *)
Record World := {
  fetch_multiple : list string -> string + list (string * string);
  send_message : list (string * string) -> option string -> string + string;
  make_work_dir : option string -> string + string;
  exec_env : Executor.Env
}.

Definition initial_results (sources : list string) : Results :=
  {| success := false;
     documentation_sources := sources;
     documentation_count := 0;
     scripts_generated := 0;
     scripts_executed := 0;
     scripts_passed := 0;
     scripts_failed := 0;
     scripts := [];
     details := [];
     error := None |}.

Definition with_error (msg : string) (r : Results) : Results :=
  {| success := success r;
     documentation_sources := documentation_sources r;
     documentation_count := documentation_count r;
     scripts_generated := scripts_generated r;
     scripts_executed := scripts_executed r;
     scripts_passed := scripts_passed r;
     scripts_failed := scripts_failed r;
     scripts := scripts r;
     details := details r;
     error := Some msg |}.

Definition with_documentation_count (n : nat) (r : Results) : Results :=
  {| success := success r;
     documentation_sources := documentation_sources r;
     documentation_count := n;
     scripts_generated := scripts_generated r;
     scripts_executed := scripts_executed r;
     scripts_passed := scripts_passed r;
     scripts_failed := scripts_failed r;
     scripts := scripts r;
     details := details r;
     error := error r |}.

Definition with_scripts (s : PyDict.dict Parser.script_data) (r : Results) : Results :=
  {| success := success r;
     documentation_sources := documentation_sources r;
     documentation_count := documentation_count r;
     scripts_generated := List.length s;
     scripts_executed := scripts_executed r;
     scripts_passed := scripts_passed r;
     scripts_failed := scripts_failed r;
     scripts := s;
     details := details r;
     error := error r |}.

Definition with_scripts_executed (n : nat) (r : Results) : Results :=
  {| success := success r;
     documentation_sources := documentation_sources r;
     documentation_count := documentation_count r;
     scripts_generated := scripts_generated r;
     scripts_executed := n;
     scripts_passed := scripts_passed r;
     scripts_failed := scripts_failed r;
     scripts := scripts r;
     details := details r;
     error := error r |}.

Definition with_success (b : bool) (r : Results) : Results :=
  {| success := b;
     documentation_sources := documentation_sources r;
     documentation_count := documentation_count r;
     scripts_generated := scripts_generated r;
     scripts_executed := scripts_executed r;
     scripts_passed := scripts_passed r;
     scripts_failed := scripts_failed r;
     scripts := scripts r;
     details := details r;
     error := error r |}.

(** The dictionary appended to [results["details"]]. *)
Definition detail_of (script_name : string) (result : Executor.Result) : Detail :=
  let '(ok, out, err) := result in
  {| script := script_name; passed := ok;
     stdout := take 1000 out; stderr := take 1000 err |}.

(** Both captured outputs of a detail are within the limit. *)
Definition short_detail (d : Detail) : Prop :=
  String.length (stdout d) <= 1000 /\ String.length (stderr d) <= 1000.

(** One round of [for script_name, (success, stdout, stderr) in
    execution_results.items()]. *)
Definition record_outcome (r : Results) (item : string * Executor.Result) : Results :=
  let '(script_name, (ok, out, err)) := item in
  {| success := success r;
     documentation_sources := documentation_sources r;
     documentation_count := documentation_count r;
     scripts_generated := scripts_generated r;
     scripts_executed := scripts_executed r;
     scripts_passed := if ok then scripts_passed r + 1 else scripts_passed r;
     scripts_failed := if ok then scripts_failed r else scripts_failed r + 1;
     scripts := scripts r;
     details := details r ++ [detail_of script_name (ok, out, err)];
     error := error r |}.

(** [_generate_test_scripts]: one message to the provider, then the parser;
    [max_iterations] is not used. *)
Definition _generate_test_scripts (w : World) (docs : list (string * string))
           (max_iterations : nat) (custom_instructions : option string)
  : string + PyDict.dict Parser.script_data :=
  match send_message w docs custom_instructions with
  | inl e => inl e
  | inr ai_response => inr (Parser._extract_scripts_from_response ai_response)
  end.

Definition test_documentation (w : World) (work_dir : option string) (verbose : bool)
           (sources : list string) (max_iterations : nat) (stop_on_failure : bool)
           (custom_instructions : option string) : Results :=
  let results := initial_results sources in
  (* Step 1 *)
  match fetch_multiple w sources with
  | inl e => with_error ("Failed to fetch documentation: " ++ e) results
  | inr docs =>
      let results := with_documentation_count (List.length docs) results in
      (* Step 2 *)
      match _generate_test_scripts w docs max_iterations custom_instructions with
      | inl e => with_error ("Failed to generate test scripts: " ++ e) results
      | inr scripts =>
          let results := with_scripts scripts results in
          match scripts with
          | [] => with_error "No test scripts were generated" results
          | _ :: _ =>
              (* Step 3 *)
              let source_context := hd_error sources in
              match make_work_dir w work_dir with
              | inl e => with_error ("Failed to execute scripts: " ++ e) results
              | inr dir =>
                  let executor :=
                    {| Executor.work_dir := dir;
                       Executor.verbose := verbose;
                       Executor.source_context := source_context;
                       Executor.save_generated_scripts := true |} in
                  let (execution_results, _) :=
                    Executor.execute_multiple_scripts
                      executor (exec_env w) scripts stop_on_failure
                      Executor.initial_state in
                  let results :=
                    with_scripts_executed (List.length execution_results) results in
                  let results := fold_left record_outcome execution_results results in
                  with_success
                    ((0 <? scripts_executed results)%nat && (scripts_failed results =? 0)%nat)
                    results
              end
          end
      end
  end.

(** ["=" * n] and the like *)
Fixpoint repeat_char (c : ascii) (n : nat) : string :=
  match n with
  | O => EmptyString
  | S n' => String c (repeat_char c n')
  end.

(** The three strings [_format_docs_for_ai] appends for one document. *)
Definition doc_header (source : string) : string :=
  "=== Documentation from: " ++ source ++ " ===" ++ nl.

Definition doc_rule : string := nl ++ repeat_char "=" 80 ++ nl.

(** [_format_docs_for_ai]: ["\n".join(formatted)] *)
Definition _format_docs_for_ai (docs : list (string * string)) : string :=
  String.concat nl
    (flat_map (fun doc => [doc_header (fst doc); snd doc; doc_rule]) docs).

End Orchestrator.

(* ================================================================== *)
(** ** The documentation fetcher ([doc_tester/fetcher.py]) *)

Module Fetcher.
Import PyStr.

(** What [Path.exists], [is_file] and [is_dir] tell about a path. *)
Inductive PathKind := Missing | RegularFile | Directory | OtherKind.

(** One path yielded by [dir_path.rglob('*')]: [str(file_path)],
    [file_path.is_file()] and [file_path.suffix]. *)
Record Entry := {
  entry_path : string;
  entry_is_file : bool;
  entry_suffix : string
}.

(** The outside of the fetcher. A raised exception is [inl] of its message.
    - [is_url]: [_is_url], that is [urlparse] finding a scheme and a network
      location;
    - [http_get]: [requests.get] followed by [raise_for_status], giving
      [response.text];
    - [path_str]: [str(Path(path))];
    - [path_kind], [read_text], [rglob]: the file system, by path string. *)
Record Env := {
  is_url : string -> bool;
  http_get : string -> string + string;
  path_str : string -> string;
  path_kind : string -> PathKind;
  read_text : string -> string + string;
  rglob : string -> list Entry
}.

Definition doc_extensions : list string :=
  [".md"; ".txt"; ".rst"; ".adoc"; ".markdown"].

(** [_fetch_from_url] *)
Definition _fetch_from_url (e : Env) (url : string)
  : string + PyDict.dict string :=
  match http_get e url with
  | inr text => inr [(url, text)]
  | inl err => inl ("Failed to fetch documentation from URL " ++ url ++ ": " ++ err)%string
  end.

(** [_read_file], on [str(file_path)] *)
Definition _read_file (e : Env) (file_path : string)
  : string + PyDict.dict string :=
  match read_text e file_path with
  | inr content => inr [(file_path, content)]
  | inl err => inl ("Failed to read file " ++ file_path ++ ": " ++ err)%string
  end.

(** The loop of [_read_directory]: a file that cannot be read is skipped
    with a warning. *)
Fixpoint read_directory_loop (e : Env) (entries : list Entry)
         (docs : PyDict.dict string) : PyDict.dict string :=
  match entries with
  | [] => docs
  | file_path :: rest =>
      if entry_is_file file_path
         && in_list (lower (entry_suffix file_path)) doc_extensions
      then
        match _read_file e (entry_path file_path) with
        | inr d => read_directory_loop e rest (PyDict.update docs d)
        | inl _ => read_directory_loop e rest docs
        end
      else read_directory_loop e rest docs
  end.

(** [_read_directory], on [str(dir_path)] *)
Definition _read_directory (e : Env) (dir_path : string)
  : string + PyDict.dict string :=
  match read_directory_loop e (rglob e dir_path) [] with
  | [] => inl ("No documentation files found in directory: " ++ dir_path)%string
  | docs => inr docs
  end.

(** [_fetch_from_path] *)
Definition _fetch_from_path (e : Env) (path : string)
  : string + PyDict.dict string :=
  let path_obj := path_str e path in
  match path_kind e path_obj with
  | Missing => inl ("Path does not exist: " ++ path)%string
  | RegularFile => _read_file e path_obj
  | Directory => _read_directory e path_obj
  | OtherKind => inl ("Invalid path type: " ++ path)%string
  end.

(** [fetch] *)
Definition fetch (e : Env) (source : string) : string + PyDict.dict string :=
  if is_url e source then _fetch_from_url e source
  else _fetch_from_path e source.

(** The loop of [fetch_multiple]: the first exception ends it. *)
Fixpoint fetch_loop (e : Env) (sources : list string)
         (all_docs : PyDict.dict string) : string + PyDict.dict string :=
  match sources with
  | [] => inr all_docs
  | source :: rest =>
      match fetch e source with
      | inl err => inl err
      | inr docs => fetch_loop e rest (PyDict.update all_docs docs)
      end
  end.

(** [fetch_multiple] *)
Definition fetch_multiple (e : Env) (sources : list string)
  : string + PyDict.dict string :=
  fetch_loop e sources [].

(** An entry that [_read_directory] reads: a regular file with one of the
    documentation extensions, in any case, whose content can be read. *)
Definition readable_doc (e : Env) (entry : Entry) (content : string) : Prop :=
  entry_is_file entry = true
  /\ In (lower (entry_suffix entry)) doc_extensions
  /\ read_text e (entry_path entry) = inr content.

End Fetcher.

(* ================================================================== *)
(** ** The provider client's set-up ([doc_tester/ai_client.py]) *)

Module AIClient.
Import PyStr.

Inductive AIProvider := OPENAI | ANTHROPIC | GEMINI | CUSTOM.

(** [p.value] *)
Definition value (p : AIProvider) : string :=
  match p with
  | OPENAI => "openai"
  | ANTHROPIC => "anthropic"
  | GEMINI => "gemini"
  | CUSTOM => "custom"
  end.

(** The members in the order of their definition, as [for p in AIProvider]
    goes through them. *)
Definition members : list AIProvider := [OPENAI; ANTHROPIC; GEMINI; CUSTOM].

(** The loop of [_parse_provider], with its fall-back after the loop. *)
Fixpoint parse_loop (ps : list AIProvider) (provider_lower : string) : AIProvider :=
  match ps with
  | [] => CUSTOM
  | p :: rest =>
      if (value p =? provider_lower)%string then p
      else parse_loop rest provider_lower
  end.

Definition _parse_provider (provider : string) : AIProvider :=
  parse_loop members (lower provider).

(** The attributes [__init__] sets; [api_url] is [None] for Gemini, whose
    address is built at each request. *)
Record AIClient := {
  api_key : string;
  provider : AIProvider;
  timeout : nat;
  api_url : option string;
  model : string;
  conversation_history : list (string * string)
}.

(** A string argument that is given and not empty. *)
Definition given (o : option string) : option string :=
  match o with
  | Some EmptyString => None
  | other => other
  end.

(** [__init__]; a [ValueError] is [inl] of its message. *)
Definition init (key : string) (url : option string) (provider_name : string)
           (model_name : option string) (seconds : nat) : string + AIClient :=
  let p := _parse_provider provider_name in
  let chosen_url : string + option string :=
    match given url with
    | Some u => inr (Some u)
    | None =>
        match p with
        | OPENAI => inr (Some "https://api.openai.com/v1/chat/completions")
        | ANTHROPIC => inr (Some "https://api.anthropic.com/v1/messages")
        | GEMINI => inr None
        | CUSTOM => inl "api_url must be provided for custom provider"
        end
    end in
  match chosen_url with
  | inl err => inl err
  | inr u =>
      let chosen_model : string + string :=
        match given model_name with
        | Some m => inr m
        | None =>
            match p with
            | OPENAI => inr "gpt-4o"
            | ANTHROPIC => inr "claude-3-5-sonnet-20241022"
            | GEMINI => inr "gemini-1.5-pro-latest"
            | CUSTOM => inl "model must be provided for custom provider"
            end
        end in
      match chosen_model with
      | inl err => inl err
      | inr m =>
          inr {| api_key := key; provider := p; timeout := seconds;
                 api_url := u; model := m; conversation_history := [] |}
      end
  end.

End AIClient.

(* ================================================================== *)
(** ** The configuration loader ([doctai/config.py]) *)

Module Config.
Import PyStr.

(** The values a loaded configuration holds: what [json.loads] and
    [yaml.safe_load] build, floating-point numbers left out. *)
#[warnings="-register-all"]
Inductive Value :=
| VNone
| VBool (b : bool)
| VInt (z : Z)
| VStr (s : string)
| VList (items : list Value)
| VDict (fields : list (string * Value)).

Definition double_quote : string := String "034"%char EmptyString.
Definition single_quote : string := "'".

(** [if current_list_key:] holds for a key that is set and not empty. *)
Definition list_key (current_list_key : option string) : option string :=
  match current_list_key with
  | Some EmptyString => None
  | other => other
  end.

(** "Remove quotes if present" *)
Definition unquote (value : string) : string :=
  if startswith double_quote value && endswith double_quote value then inner value
  else if startswith single_quote value && endswith single_quote value then inner value
  else value.

(** One round of the loop of [_parse_simple_yaml] on the pair of [config]
    and [current_list_key]; [None] stands for the [AttributeError] that
    [append] raises on a value that is not a list. *)
Definition yaml_step (state : option (PyDict.dict Value * option string))
           (raw_line : string) : option (PyDict.dict Value * option string) :=
  match state with
  | None => None
  | Some (config, current_list_key) =>
      let line := strip raw_line in
      if (line =? "")%string || startswith "#" line then
        Some (config, current_list_key)
      else if startswith "- " line then
        match list_key current_list_key with
        | Some key =>
            let config :=
              match PyDict.get key config with
              | None => PyDict.set key (VList []) config
              | Some _ => config
              end in
            match PyDict.get key config with
            | Some (VList items) =>
                Some (PyDict.set key (VList (items ++ [VStr (strip (drop 2 line))]))
                                 config,
                      current_list_key)
            | _ => None
            end
        | None => Some (config, current_list_key)
        end
      else
        match split_first ":" line with
        | Some (key, value) =>
            let key := strip key in
            let value := strip value in
            if (value =? "")%string then
              Some (PyDict.set key (VList []) config, Some key)
            else
              Some (PyDict.set key (VStr (unquote value)) config, None)
        | None => Some (config, current_list_key)
        end
  end.

(** The loop over [content.split('\n')]. *)
Definition yaml_state (content : string)
  : option (PyDict.dict Value * option string) :=
  fold_left yaml_step (split newline content) (Some ([], None)).

(** [_parse_simple_yaml] *)
Definition _parse_simple_yaml (content : string) : option (PyDict.dict Value) :=
  match yaml_state content with
  | Some (config, _) => Some config
  | None => None
  end.

(** The two list comprehensions of [get_docs]. *)
Definition docs_of_string (value : string) : list string :=
  if contains "," value then
    map strip (filter (fun s => negb (strip s =? "")%string) (split "," value))
  else
    map strip (filter (fun s => negb (strip s =? "")%string) (split_ws value)).

(** The loop of [get_docs] over the key names. *)
Fixpoint get_docs_loop (config : PyDict.dict Value) (names : list string)
  : list Value :=
  match names with
  | [] => []
  | key :: rest =>
      match PyDict.get key config with
      | Some (VList items) => items
      | Some (VStr value) => map VStr (docs_of_string value)
      | _ => get_docs_loop config rest
      end
  end.

(** [get_docs] *)
Definition get_docs (config : PyDict.dict Value) : list Value :=
  match config with
  | [] => []
  | _ :: _ => get_docs_loop config ["docs"; "documentation"; "sources"; "files"]
  end.

(** The lines of a YAML list as the tests write them: one indented
    [- item] line per item, each behind a line feed. *)
Fixpoint yaml_items (items : list string) : string :=
  match items with
  | [] => EmptyString
  | x :: rest => nl ++ "  - " ++ x ++ yaml_items rest
  end.

(** The invariant of the loop: the key that list items go to holds a
    list. *)
Definition list_key_holds_list (st : PyDict.dict Value * option string) : Prop :=
  forall key, list_key (snd st) = Some key ->
              exists items, PyDict.get key (fst st) = Some (VList items).

(** A key or a list item as it stands in a simple file: not empty, trimmed,
    on one line. *)
Definition plain (s : string) : Prop :=
  s <> EmptyString /\ strip s = s
  /\ all_chars (fun c => negb (c =? newline)%char) s = true.

(** A key as it stands in a simple file: plain, without a colon, and
    starting neither a comment nor a list item. *)
Definition plain_key (key : string) : Prop :=
  plain key
  /\ all_chars (fun c => negb (c =? ":")%char) key = true
  /\ startswith "#" key = false
  /\ startswith "- " key = false.

End Config.

(* ================================================================== *)
(** ** Sample inputs *)

Module Examples.
Import PyStr Parser.

(** The double quote character. *)
Definition dq : string := String "034"%char EmptyString.

(** A fenced block as the model writes it. *)
Definition fenced (language body : string) : string :=
  "```" ++ language ++ nl ++ body ++ "```" ++ nl.

Definition echo_a : string := "echo a" ++ nl.
Definition echo_b : string := "echo b" ++ nl.

Definition cleanup_head : string := "# cleanup" ++ nl ++ "rm -rf /tmp/x".

(** [# cleanup], [rm -rf /tmp/x], [echo "done"] *)
Definition cleanup_body : string :=
  cleanup_head ++ nl ++ "echo " ++ dq ++ "done" ++ dq ++ nl.

Definition echo_done : string := "echo " ++ dq ++ "done" ++ dq.

(** The same three lines, the last one redirected into a file whose name
    makes the whole a runner script for [_is_runner_script]. *)
Definition cleanup_runner_body : string :=
  cleanup_head ++ nl ++ "echo " ++ dq ++ "done" ++ dq ++ " > chmod.sh" ++ nl.

Definition runner_body : string := "chmod +x run.sh" ++ nl ++ "./run.sh".

(** A Python block that removes a file: no comment, no output statement. *)
Definition remove_body : string :=
  "import os" ++ nl ++ "os.remove('echoes.txt')" ++ nl.

(** A download whose address has a fragment: no comment, no [echo]. *)
Definition fragment_body : string :=
  "curl -O https://example.com/guide.html#remove-old-versions" ++ nl.

(** the download, then a check *)
Definition response_fragment : string :=
  fenced "bash" fragment_body ++ fenced "bash" ("make check" ++ nl).

(** normal, cleanup, normal *)
Definition response_ordering : string :=
  "Setup:" ++ nl ++ fenced "bash" echo_a
  ++ "Cleanup:" ++ nl ++ fenced "bash" cleanup_body
  ++ "Check:" ++ nl ++ fenced "sh" echo_b.

(** an executable block, a configuration block, an executable block *)
Definition response_gap : string :=
  fenced "bash" echo_a ++ fenced "yaml" ("a: b" ++ nl) ++ fenced "PY" ("print(1)" ++ nl).

Definition response_bash_runner : string := fenced "bash" runner_body.

(** An executor as [test_documentation] creates it for the source
    [docs/README.md]. *)
Definition executor_readme : Executor.ScriptExecutor :=
  {| Executor.work_dir := "/tmp/doc_tester_w";
     Executor.verbose := false;
     Executor.source_context := Some "docs/README.md";
     Executor.save_generated_scripts := true |}.

(** The second script exits with status 1, the others with status 0. *)
Definition env_second_fails : Executor.Env :=
  {| Executor.cwd := "/work";
     Executor.draw := fun j => 7 * j;
     Executor.attempt := fun n =>
       match n with
       | 1 => Executor.Completed 1 "" "boom"
       | _ => Executor.Completed 0 "ok" ""
       end |}.

(** Every script runs into the timeout. *)
Definition env_timeout : Executor.Env :=
  {| Executor.cwd := "/work";
     Executor.draw := fun j => j;
     Executor.attempt := fun _ => Executor.Timeout |}.

(** The interpreter cannot be started. *)
Definition env_no_interpreter : Executor.Env :=
  {| Executor.cwd := "/work";
     Executor.draw := fun j => j;
     Executor.attempt := fun _ =>
       Executor.RunError "[Errno 2] No such file or directory: '/bin/bash'" |}.

(** The script ends with status 1, having written the words of the
    timeout report, and nothing else, to its standard error. *)
Definition env_prints_timeout : Executor.Env :=
  {| Executor.cwd := "/work";
     Executor.draw := fun j => j;
     Executor.attempt := fun _ =>
       Executor.Completed 1 "" "Script execution timed out after 600 seconds" |}.

(** The script ends with status 0, having written a byte that is not
    UTF-8 to its standard output. *)
Definition env_undecodable : Executor.Env :=
  {| Executor.cwd := "/work";
     Executor.draw := fun j => j;
     Executor.attempt := fun _ =>
       Executor.DecodeError
         0 "'utf-8' codec can't decode byte 0xff in position 0: invalid start byte" |}.

Definition three_scripts : PyDict.dict script_data :=
  [("script_1_bash", {| content := "echo a"; type := "bash" |});
   ("script_2_bash", {| content := "exit 1"; type := "bash" |});
   ("script_3_bash", {| content := "echo c"; type := "bash" |})].

(** Fetching and generation succeed, the working directory is created,
    and the executor meets [env]. *)
Definition world_of (response : string) (env : Executor.Env) : Orchestrator.World :=
  {| Orchestrator.fetch_multiple := fun sources =>
       inr (map (fun src => (src, "Run the installer.")) sources);
     Orchestrator.send_message := fun _ _ => inr response;
     Orchestrator.make_work_dir := fun _ => inr "/tmp/doc_tester_w";
     Orchestrator.exec_env := env |}.

Definition world_spawn_failure : Orchestrator.World :=
  world_of (fenced "bash" echo_a) env_no_interpreter.

(** Every script exits with status 0. *)
Definition env_all_pass : Executor.Env :=
  {| Executor.cwd := "/work";
     Executor.draw := fun j => j;
     Executor.attempt := fun _ => Executor.Completed 0 "ok" "" |}.

Definition world_all_pass : Orchestrator.World :=
  world_of response_ordering env_all_pass.

(** The documentation cannot be fetched. *)
Definition world_fetch_fails : Orchestrator.World :=
  {| Orchestrator.fetch_multiple := fun _ => inl "Path does not exist: docs/README.md";
     Orchestrator.send_message := fun _ _ => inr "";
     Orchestrator.make_work_dir := fun _ => inr "/tmp/doc_tester_w";
     Orchestrator.exec_env := env_all_pass |}.

(** A directory with a guide, an image, a text file that cannot be read
    and a sub-directory. *)
Definition env_docs_dir : Fetcher.Env :=
  {| Fetcher.is_url := fun source => prefix "https://" source;
     Fetcher.http_get := fun _ => inl "503 Server Error";
     Fetcher.path_str := fun path => path;
     Fetcher.path_kind := fun path =>
       if (path =? "docs")%string then Fetcher.Directory
       else if (path =? "README.md")%string then Fetcher.RegularFile
       else Fetcher.Missing;
     Fetcher.read_text := fun path =>
       if (path =? "docs/guide.MD")%string then inr "Run make."
       else if (path =? "README.md")%string then inr "Read me."
       else inl "Permission denied";
     Fetcher.rglob := fun _ =>
       [ {| Fetcher.entry_path := "docs/guide.MD";
            Fetcher.entry_is_file := true; Fetcher.entry_suffix := ".MD" |};
         {| Fetcher.entry_path := "docs/logo.png";
            Fetcher.entry_is_file := true; Fetcher.entry_suffix := ".png" |};
         {| Fetcher.entry_path := "docs/secret.txt";
            Fetcher.entry_is_file := true; Fetcher.entry_suffix := ".txt" |};
         {| Fetcher.entry_path := "docs/api.md";
            Fetcher.entry_is_file := false; Fetcher.entry_suffix := ".md" |} ] |}.

End Examples.

(* ================================================================== *)
(** * Properties *)

(** ** Strings *)

Section StringFacts.
Import PyStr.
Local Open Scope string_scope.

Lemma string_length_append (a b : string) :
  String.length (a ++ b) = String.length a + String.length b.
Proof. induction a; simpl; congruence. Qed.

Lemma lower_append (a b : string) : lower (a ++ b) = lower a ++ lower b.
Proof. induction a; simpl; congruence. Qed.

Lemma prefix_append (p s : string) : prefix p (p ++ s) = true.
Proof.
  induction p as [|c p IH]; simpl.
  - now destruct s.
  - destruct (ascii_dec c c) as [_|n]; [exact IH | now elim n].
Qed.

Lemma contains_here (n h : string) : prefix n h = true -> contains n h = true.
Proof. intros H. destruct h; cbn [contains]; rewrite H; reflexivity. Qed.

Lemma contains_later (n : string) (c : ascii) (h : string) :
  contains n h = true -> contains n (String c h) = true.
Proof. intros H. cbn [contains]. rewrite H. apply orb_true_r. Qed.

Lemma contains_append_r (n a b : string) :
  contains n b = true -> contains n (a ++ b) = true.
Proof.
  intros H. induction a as [|c a IH]; simpl; [exact H|].
  now apply contains_later.
Qed.

(** A decimal numeral followed by an underscore determines the numeral. *)
Lemma string_of_uint_sep_inj (d1 : uint) :
  forall (d2 : uint) (a b : string),
    NilEmpty.string_of_uint d1 ++ String "_" a
    = NilEmpty.string_of_uint d2 ++ String "_" b ->
    d1 = d2.
Proof.
  induction d1; destruct d2; simpl; intros a b H;
    try discriminate; try reflexivity;
    injection H as H; f_equal; eauto.
Qed.

Lemma str_sep_inj (i j : nat) (a b : string) :
  str i ++ String "_" a = str j ++ String "_" b -> i = j.
Proof.
  unfold str. intros H.
  apply Unsigned.to_uint_inj. eapply string_of_uint_sep_inj; eauto.
Qed.

End StringFacts.

(** ** Dictionaries *)

Section DictFacts.
Context {V : Type}.
Implicit Types (d : PyDict.dict V) (k : string) (v : V).

Lemma keys_app d1 d2 : PyDict.keys (d1 ++ d2) = PyDict.keys d1 ++ PyDict.keys d2.
Proof. apply map_app. Qed.

(** Assigning to a key that is not there appends. *)
Lemma set_fresh k v d :
  ~ In k (PyDict.keys d) -> PyDict.set k v d = d ++ [(k, v)].
Proof.
  induction d as [|[k' v'] d IH]; simpl; intros Hk; [reflexivity|].
  destruct (String.eqb_spec k' k) as [->|_].
  - exfalso. apply Hk. now left.
  - f_equal. apply IH. intros Hin. apply Hk. now right.
Qed.

(** Assigning to a key that is there keeps the keys as they are. *)
Lemma keys_set_present k v d :
  In k (PyDict.keys d) -> PyDict.keys (PyDict.set k v d) = PyDict.keys d.
Proof.
  induction d as [|[k' v'] d IH]; simpl; intros Hk; [contradiction|].
  destruct (String.eqb_spec k' k) as [->|Hne]; simpl; [reflexivity|].
  f_equal. apply IH. destruct Hk as [Hk|Hk]; [contradiction|exact Hk].
Qed.

Lemma get_set_same k v d : PyDict.get k (PyDict.set k v d) = Some v.
Proof.
  induction d as [|[k' v'] d IH]; simpl.
  - now rewrite String.eqb_refl.
  - destruct (String.eqb_spec k' k) as [->|Hne]; simpl.
    + now rewrite String.eqb_refl.
    + destruct (String.eqb_spec k' k); [contradiction | exact IH].
Qed.


(** Updating with a dictionary whose keys are all new appends it. *)
Lemma update_fresh d2 : forall d1,
  NoDup (PyDict.keys (d1 ++ d2)) -> PyDict.update d1 d2 = d1 ++ d2.
Proof.
  induction d2 as [|[k v] d2 IH]; intros d1 Hnd; unfold PyDict.update in *; simpl.
  - now rewrite app_nil_r.
  - rewrite set_fresh.
    + rewrite IH; rewrite <- app_assoc; [reflexivity | exact Hnd].
    + rewrite keys_app in Hnd. simpl in Hnd.
      apply NoDup_remove_2 in Hnd. intros Hin. apply Hnd.
      apply in_or_app. now left.
Qed.

End DictFacts.

(** ** The scan of the response *)

Section FindallFacts.
Import PyStr Parser.
Local Open Scope string_scope.

Lemma prefix_inv (p : string) : forall s,
  prefix p s = true -> exists r, s = p ++ r.
Proof.
  induction p as [|c p IH]; intros s H.
  - exists s. reflexivity.
  - destruct s as [|c' s]; simpl in H; [discriminate|].
    destruct (ascii_dec c c') as [<-|]; [|discriminate].
    destruct (IH _ H) as [r ->]. exists r. reflexivity.
Qed.

Lemma drop_append (p s : string) : drop (String.length p) (p ++ s) = s.
Proof. induction p; simpl; auto. Qed.

Lemma span_word_length (s : string) :
  String.length (snd (span_word s)) <= String.length s.
Proof.
  induction s as [|c s IH]; simpl; [lia|].
  destruct (is_word c); simpl; [|lia].
  destruct (span_word s); simpl in *; lia.
Qed.

Lemma drop_fence_length (s : string) :
  prefix fence s = true -> String.length (drop 3 s) + 3 = String.length s.
Proof.
  intros H. apply prefix_inv in H. destruct H as [r ->].
  unfold fence. simpl. lia.
Qed.

Lemma until_fence_length (s : string) : forall body rest,
  until_fence s = Some (body, rest) ->
  String.length rest + 3 <= String.length s.
Proof.
  induction s as [|c s IH]; intros body rest H.
  - simpl in H. discriminate.
  - cbn [until_fence] in H.
    destruct (prefix fence (String c s)) eqn:Hp.
    + apply drop_fence_length in Hp. injection H as _ <-. exact (Nat.eq_le_incl _ _ Hp).
    + destruct (until_fence s) as [[b r]|] eqn:Hu; [|discriminate].
      injection H as _ <-. specialize (IH _ _ eq_refl). simpl. lia.
Qed.

(** A match consumes at least the two fences. *)
Lemma match_here_shorter (s language body rest : string) :
  match_here s = Some (language, body, rest) ->
  String.length rest < String.length s.
Proof.
  unfold match_here. destruct (prefix fence s) eqn:Hp; [|discriminate].
  apply prefix_inv in Hp. destruct Hp as [t ->].
  replace (drop 3 (fence ++ t)) with t by reflexivity.
  pose proof (span_word_length t) as Hw.
  destruct (span_word t) as [w r]. simpl in Hw.
  destruct w; [discriminate|]. destruct r as [|c r]; [discriminate|].
  destruct (c =? newline)%char; [|discriminate].
  destruct (until_fence r) as [[b r']|] eqn:Hu; [|discriminate].
  intros H. injection H as _ _ <-.
  apply until_fence_length in Hu.
  rewrite string_length_append. simpl in *. lia.
Qed.

(** The fuel of [findall] is never exhausted: any larger fuel gives the
    same matches. *)
Lemma findall_from_enough (f1 : nat) : forall f2 s,
  String.length s < f1 -> String.length s < f2 ->
  findall_from f1 s = findall_from f2 s.
Proof.
  induction f1 as [|f1 IH]; intros f2 s H1 H2; [lia|].
  destruct f2 as [|f2]; [lia|]. cbn [findall_from].
  destruct (match_here s) as [[[l b] r]|] eqn:Hm.
  - apply match_here_shorter in Hm. f_equal. apply IH; lia.
  - destruct s as [|c s]; [reflexivity|]. simpl in *. apply IH; lia.
Qed.

(** The scan, as the equation it solves. *)
Lemma findall_unfold (s : string) :
  findall s =
  match match_here s with
  | Some (language, body, rest) => (language, body) :: findall rest
  | None => match s with
            | EmptyString => []
            | String _ s' => findall s'
            end
  end.
Proof.
  unfold findall at 1. cbn [findall_from].
  destruct (match_here s) as [[[l b] r]|] eqn:Hm.
  - apply match_here_shorter in Hm. f_equal.
    apply findall_from_enough; lia.
  - destruct s as [|c s]; [reflexivity|].
    apply findall_from_enough; simpl; lia.
Qed.

(** The scan on some shapes of response: a fourth backquote before the
    fence, a fence without language, a block that is never closed, and a
    closing fence that cannot open the next block. *)
Example findall_extra_backquote :
  findall ("````bash" ++ nl ++ "x" ++ nl ++ "```") = [("bash", "x" ++ nl)].
Proof. vm_compute. reflexivity. Qed.

Example findall_no_language :
  findall ("```" ++ nl ++ "x" ++ nl ++ "```" ++ nl) = [].
Proof. vm_compute. reflexivity. Qed.

Example findall_unclosed :
  findall ("```bash" ++ nl ++ "echo a" ++ nl) = [].
Proof. vm_compute. reflexivity. Qed.

Example findall_shared_fence :
  findall ("```a" ++ nl ++ "x```b" ++ nl ++ "y```") = [("a", "x")].
Proof. vm_compute. reflexivity. Qed.

End FindallFacts.

(** ** The loop of [_extract_scripts_from_response] *)

Section ExtractFacts.
Import PyStr Parser.

Lemma is_normal_eq (c : ScriptCandidate) :
  is_normal c =
  negb (in_list (lower (declaredLanguage c)) non_executable)
  && negb (_is_runner_script (rawContent c))
  && negb (_is_cleanup_script (rawContent c)).
Proof.
  unfold is_normal, classify.
  destruct (in_list _ _), (_is_runner_script _), (_is_cleanup_script _); reflexivity.
Qed.

Lemma is_cleanup_eq (c : ScriptCandidate) :
  is_cleanup c =
  negb (in_list (lower (declaredLanguage c)) non_executable)
  && negb (_is_runner_script (rawContent c))
  && _is_cleanup_script (rawContent c).
Proof.
  unfold is_cleanup, classify.
  destruct (in_list _ _), (_is_runner_script _), (_is_cleanup_script _); reflexivity.
Qed.

Lemma script_name_inj (i j : nat) (t u : string) :
  script_name i t = script_name j u -> i = j.
Proof.
  unfold script_name. intros H. simpl in H.
  injection H as H. eapply str_sep_inj. exact H.
Qed.

Lemma ordinal_enumerate (ms : list (string * string)) : forall start,
  map ordinal (enumerate start ms) = seq start (List.length ms).
Proof.
  induction ms as [|[l b] ms IH]; intros start; simpl; [reflexivity|].
  now rewrite IH.
Qed.

Lemma length_enumerate (ms : list (string * string)) : forall start,
  List.length (enumerate start ms) = List.length ms.
Proof. induction ms as [|[l b] ms IH]; intros; simpl; auto. Qed.

Lemma nth_error_enumerate (ms : list (string * string)) : forall start n c,
  nth_error (enumerate start ms) n = Some c ->
  ordinal c = start + n /\
  nth_error ms n = Some (declaredLanguage c, rawContent c).
Proof.
  induction ms as [|[l b] ms IH]; intros start n c H.
  - destruct n; discriminate.
  - destruct n as [|n]; simpl in *.
    + injection H as <-. simpl. split; [lia | reflexivity].
    + apply IH in H. destruct H as [-> H]. split; [lia | exact H].
Qed.

Lemma In_enumerate (ms : list (string * string)) : forall start c,
  In c (enumerate start ms) ->
  exists n, ordinal c = start + n /\
            nth_error ms n = Some (declaredLanguage c, rawContent c).
Proof.
  intros start c H. apply In_nth_error in H. destruct H as [n H].
  exists n. now apply nth_error_enumerate.
Qed.

(** Names of candidates with different ordinals differ. *)
Lemma NoDup_names (l : list ScriptCandidate) :
  NoDup (map ordinal l) -> NoDup (PyDict.keys (map entry l)).
Proof.
  unfold PyDict.keys. rewrite map_map.
  induction l as [|c l IH]; simpl; intros H; [constructor|].
  inversion H as [|x xs Hnotin Hnd]; subst.
  constructor; [|now apply IH].
  intros Hin. apply Hnotin. apply in_map_iff in Hin.
  destruct Hin as [c' [Heq Hin]]. apply script_name_inj in Heq.
  apply in_map_iff. exists c'. split; [exact Heq | exact Hin].
Qed.

(** Two disjoint selections from a list without repetition, one after the
    other, have no repetition. *)
Lemma NoDup_two_filters {A B : Type} (f : A -> B) (p q : A -> bool) (l : list A) :
  (forall x, p x = true -> q x = true -> False) ->
  NoDup (map f l) -> NoDup (map f (filter p l ++ filter q l)).
Proof.
  intros Hpq. induction l as [|a l IH]; simpl; intros H; [constructor|].
  inversion H as [|x xs Hnotin Hnd]; subst. specialize (IH Hnd).
  assert (Hsub : forall y, In y (map f (filter p l ++ filter q l)) -> In y (map f l)).
  { intros y Hy. apply in_map_iff in Hy. destruct Hy as [z [<- Hz]].
    apply in_map. apply in_app_or in Hz.
    destruct Hz as [Hz|Hz]; apply filter_In in Hz; tauto. }
  destruct (p a) eqn:Hp, (q a) eqn:Hq.
  - exfalso. eauto.
  - simpl. constructor; auto.
  - rewrite map_app in *. simpl.
    apply (NoDup_Add (Add_app (f a) (map f (filter p l)) (map f (filter q l)))).
    split; [exact IH | auto].
  - exact IH.
Qed.

End ExtractFacts.

(** ** What [_extract_scripts_from_response] returns *)

Section ExtractSpec.
Import PyStr Parser.

Lemma extract_loop_spec (ms : list (string * string)) :
  forall (i : nat) (s c : PyDict.dict script_data),
    NoDup (PyDict.keys (s ++ map entry (filter is_normal (enumerate i ms)))) ->
    NoDup (PyDict.keys (c ++ map entry (filter is_cleanup (enumerate i ms)))) ->
    extract_loop ms i s c =
    (s ++ map entry (filter is_normal (enumerate i ms)),
     c ++ map entry (filter is_cleanup (enumerate i ms))).
Proof.
  induction ms as [|[language body] ms IH]; intros i s c Hs Hc.
  - simpl. now rewrite !app_nil_r.
  - cbn [extract_loop enumerate filter] in *.
    rewrite is_normal_eq, is_cleanup_eq in *.
    cbn [declaredLanguage rawContent] in *.
    destruct (in_list (lower language) non_executable);
      [apply IH; assumption|].
    destruct (_is_runner_script body); [apply IH; assumption|].
    destruct (_is_cleanup_script body); cbn [negb andb map] in *.
    + rewrite set_fresh.
      * rewrite IH; [now rewrite <- app_assoc | assumption |].
        now rewrite <- app_assoc.
      * rewrite keys_app in Hc. apply NoDup_remove_2 in Hc.
        intros Hin. apply Hc. apply in_or_app. now left.
    + rewrite set_fresh.
      * rewrite IH; [now rewrite <- app_assoc | | assumption].
        now rewrite <- app_assoc.
      * rewrite keys_app in Hs. apply NoDup_remove_2 in Hs.
        intros Hin. apply Hs. apply in_or_app. now left.
Qed.

Lemma normal_cleanup_disjoint (c : ScriptCandidate) :
  is_normal c = true -> is_cleanup c = true -> False.
Proof. unfold is_normal, is_cleanup. destruct (classify c); discriminate. Qed.

Lemma NoDup_buildScriptSet (ms : list (string * string)) (start : nat) :
  NoDup (PyDict.keys (buildScriptSet (enumerate start ms))).
Proof.
  unfold buildScriptSet. rewrite <- map_app. apply NoDup_names.
  apply NoDup_two_filters; [exact normal_cleanup_disjoint|].
  rewrite ordinal_enumerate. apply seq_NoDup.
Qed.

(** The loop and the final [update] build the specification's set. *)
Lemma extract_from_matches_spec (ms : list (string * string)) :
  extract_from_matches ms = buildScriptSet (enumerate 1 ms).
Proof.
  pose proof (NoDup_buildScriptSet ms 1) as Hnd.
  unfold extract_from_matches, buildScriptSet in *.
  rewrite (extract_loop_spec ms 1 [] []); cbn [app].
  - now apply update_fresh.
  - rewrite keys_app in Hnd. now apply NoDup_app_remove_r in Hnd.
  - rewrite keys_app in Hnd. now apply NoDup_app_remove_l in Hnd.
Qed.

Lemma extract_spec (response : string) :
  _extract_scripts_from_response response
  = buildScriptSet (extractCandidates response).
Proof. apply extract_from_matches_spec. Qed.

(** An entry of the set comes from an accepted candidate. *)
Lemma In_buildScriptSet (cs : list ScriptCandidate) (kv : string * script_data) :
  In kv (buildScriptSet cs) ->
  exists c, In c cs /\ kv = entry c /\ (classify c = Normal \/ classify c = Cleanup).
Proof.
  unfold buildScriptSet. intros H. apply in_app_or in H.
  destruct H as [H|H]; apply in_map_iff in H; destruct H as [c [<- H]];
    apply filter_In in H; destruct H as [Hin Hp]; exists c;
    (split; [exact Hin | split; [reflexivity|]]).
  - left. unfold is_normal in Hp. destruct (classify c); try discriminate; reflexivity.
  - right. unfold is_cleanup in Hp. destruct (classify c); try discriminate; reflexivity.
Qed.

(** The candidate of a given match is the only one with its ordinal. *)
Lemma candidate_of_match (ms : list (string * string)) (n : nat)
      (language body : string) (c : ScriptCandidate) :
  nth_error ms n = Some (language, body) ->
  In c (enumerate 1 ms) -> ordinal c = S n ->
  c = candidate n language body.
Proof.
  intros Hn Hin Hord. apply In_enumerate in Hin.
  destruct Hin as [m [Hm Hnth]].
  assert (m = n) by lia. subst m. rewrite Hn in Hnth.
  injection Hnth as Hl Hb. destruct c as [o l b]; simpl in *.
  unfold candidate. congruence.
Qed.

(** A match that is neither normal nor cleanup leaves no entry under its
    ordinal. *)
Lemma rejected_absent (response : string) (n : nat) (language body : string) :
  nth_error (findall response) n = Some (language, body) ->
  classify (candidate n language body) <> Normal ->
  classify (candidate n language body) <> Cleanup ->
  forall script_type,
    ~ In (script_name (S n) script_type)
         (PyDict.keys (_extract_scripts_from_response response)).
Proof.
  intros Hn Hnot1 Hnot2 ty Hin. rewrite extract_spec in Hin.
  apply in_map_iff in Hin. destruct Hin as [kv [Hk Hin]].
  apply In_buildScriptSet in Hin. destruct Hin as [c [Hc [-> Hcl]]].
  simpl in Hk. apply script_name_inj in Hk.
  rewrite (candidate_of_match _ _ _ _ _ Hn Hc Hk) in Hcl. tauto.
Qed.

Lemma In_enumerate_nth (ms : list (string * string)) :
  forall start n language body,
    nth_error ms n = Some (language, body) ->
    In {| ordinal := start + n; declaredLanguage := language; rawContent := body |}
       (enumerate start ms).
Proof.
  induction ms as [|[l b] ms IH]; intros start n language body Hn;
    [destruct n; discriminate|].
  destruct n as [|n]; simpl in *.
  - injection Hn as -> ->. left. f_equal. lia.
  - right. replace (start + S n) with (S start + n) by lia. now apply IH.
Qed.

(** An accepted match has its entry in the set. *)
Lemma accepted_present (response : string) (n : nat) (language body : string) :
  nth_error (findall response) n = Some (language, body) ->
  classify (candidate n language body) = Normal
  \/ classify (candidate n language body) = Cleanup ->
  In (entry (candidate n language body)) (_extract_scripts_from_response response).
Proof.
  intros Hn Hcl. rewrite extract_spec. unfold buildScriptSet.
  pose proof (In_enumerate_nth _ 1 _ _ _ Hn) as Hin.
  change (In (candidate n language body) (extractCandidates response)) in Hin.
  apply in_or_app.
  destruct Hcl as [Hcl|Hcl]; [left|right]; apply in_map; apply filter_In;
    (split; [exact Hin|]).
  - unfold is_normal. now rewrite Hcl.
  - unfold is_cleanup. now rewrite Hcl.
Qed.

End ExtractSpec.

(** ** The two heuristics *)

Section HeuristicFacts.
Import PyStr Parser.
Local Open Scope string_scope.

Lemma in_list_iff (s : string) (l : list string) :
  in_list s l = true <-> In s l.
Proof.
  unfold in_list. rewrite existsb_exists. split.
  - intros [x [Hin Heq]]. apply String.eqb_eq in Heq. now subst.
  - intros Hin. exists s. split; [exact Hin | apply String.eqb_refl].
Qed.

Lemma in_list_false_iff (s : string) (l : list string) :
  in_list s l = false <-> ~ In s l.
Proof.
  split; intros H.
  - intros Hin. apply in_list_iff in Hin. congruence.
  - destruct (in_list s l) eqn:E; [|reflexivity].
    apply in_list_iff in E. contradiction.
Qed.

Lemma prefix_take (n : string) : forall k s,
  prefix n (take k s) = true -> prefix n s = true.
Proof.
  unfold take.
  induction n as [|a n IH]; intros k s H; [now destruct s|].
  destruct k as [|k], s as [|b s]; simpl in H; try discriminate.
  simpl. destruct (ascii_dec a b); [|discriminate]. eapply IH. exact H.
Qed.

Lemma contains_empty_hay (n : string) :
  contains n "" = true -> forall s, contains n s = true.
Proof.
  intros H s. apply contains_here. destruct n; [now destruct s|].
  simpl in H. discriminate.
Qed.

(** What occurs in a prefix of a string occurs in the string. *)
Lemma contains_take (n : string) : forall s k,
  contains n (take k s) = true -> contains n s = true.
Proof.
  induction s as [|c s IH]; intros k H.
  - destruct k; exact H.
  - destruct k as [|k].
    + now apply contains_empty_hay.
    + change (take (S k) (String c s)) with (String c (take k s)) in H.
      cbn [contains] in H. apply orb_true_iff in H. destruct H as [H|H].
      * apply contains_here.
        apply (prefix_take n (S k) (String c s)). exact H.
      * apply contains_later. eapply IH. exact H.
Qed.

Lemma runner_loop_iff (lines : list string) :
  runner_loop lines = true <-> exists line, In line lines /\ invokes_script line.
Proof.
  unfold invokes_script. induction lines as [|l ls IH]; simpl.
  - split; [discriminate | intros [x [[] _]]].
  - destruct (contains "chmod" l && contains ".sh" l) eqn:H1.
    { apply andb_true_iff in H1. split; [|reflexivity].
      intros _. exists l. tauto. }
    destruct (startswith "./" l && contains ".sh" l) eqn:H2.
    { apply andb_true_iff in H2. split; [|reflexivity].
      intros _. exists l. tauto. }
    rewrite IH. split.
    + intros [x [Hin Hx]]. exists x. tauto.
    + intros [x [[<-|Hin] Hx]]; [|exists x; tauto].
      exfalso. destruct Hx as [[Ha Hb]|[Ha Hb]].
      * rewrite Ha, Hb in H1. discriminate.
      * rewrite Ha, Hb in H2. discriminate.
Qed.

(** *** The lines [_is_runner_script] looks at *)

Lemma string_app_nil_r (s : string) : s ++ "" = s.
Proof. induction s; simpl; congruence. Qed.

Lemma string_app_assoc (a b c : string) : (a ++ b) ++ c = a ++ b ++ c.
Proof. induction a; simpl; congruence. Qed.

Lemma split_nonempty (sep : ascii) (s : string) : split sep s <> [].
Proof.
  destruct s as [|c s]; simpl; [discriminate|].
  destruct (c =? sep)%char; [discriminate|].
  destruct (split sep s); discriminate.
Qed.

(** A text without a line feed is one line. *)
Lemma split_one_line (p : string) :
  all_chars (fun c => negb (c =? newline)%char) p = true ->
  split newline p = [p].
Proof.
  induction p as [|c p IH]; simpl; intros H; [reflexivity|].
  apply andb_true_iff in H. destruct H as [Hc Hp].
  apply negb_true_iff in Hc. rewrite Hc, (IH Hp). reflexivity.
Qed.

(** The lines of a text that goes on after a line feed. *)
Lemma split_app_newline (p x : string) :
  all_chars (fun c => negb (c =? newline)%char) p = true ->
  split newline (p ++ String newline x) = p :: split newline x.
Proof.
  induction p as [|c p IH]; simpl; intros H; [reflexivity|].
  apply andb_true_iff in H. destruct H as [Hc Hp].
  apply negb_true_iff in Hc. rewrite Hc, (IH Hp). reflexivity.
Qed.

Lemma all_chars_snoc (q : ascii -> bool) (p : string) (c : ascii) :
  all_chars q p = true -> q c = true ->
  all_chars q (p ++ String c "") = true.
Proof.
  induction p as [|a p IH]; simpl; intros Hp Hc; [now rewrite Hc|].
  apply andb_true_iff in Hp. destruct Hp as [Ha Hp]. now rewrite Ha, IH.
Qed.

Lemma rstrip_snoc (q : ascii -> bool) (x : string) (c : ascii) :
  q c = true -> rstrip_by q (x ++ String c "") = rstrip_by q x.
Proof.
  intros Hc. induction x as [|a x IH]; simpl; [now rewrite Hc|].
  now rewrite IH.
Qed.

(** A trailing white space character does not change the trimmed line. *)
Lemma strip_snoc (x : string) (c : ascii) :
  is_space c = true -> strip (x ++ String c "") = strip x.
Proof.
  intros Hc. unfold strip, strip_by.
  induction x as [|a x IH]; simpl; [now rewrite Hc|].
  destruct (is_space a); [exact IH|].
  apply (rstrip_snoc is_space (String a x) c Hc).
Qed.

Lemma filter_map_comm {A B : Type} (f : A -> B) (p : B -> bool) (l : list A) :
  map f (filter (fun x => p (f x)) l) = filter p (map f l).
Proof.
  induction l as [|a l IH]; simpl; [reflexivity|].
  destruct (p (f a)); simpl; now rewrite IH.
Qed.

Lemma substantive_lines_cons_newline (p x : string) :
  all_chars (fun c => negb (c =? newline)%char) p = true ->
  substantive_lines (p ++ String newline x)
  = (substantive_lines p ++ substantive_lines x)%list.
Proof.
  intros Hp. unfold substantive_lines.
  rewrite (split_app_newline p x Hp), (split_one_line p Hp).
  cbn [map filter].
  destruct (negb (strip p =? "")%string && negb (startswith "#" (strip p)));
    reflexivity.
Qed.

(** Leading white space of the content does not change its substantive
    lines. *)
Lemma substantive_lines_lstrip (s : string) :
  substantive_lines (lstrip_by is_space s) = substantive_lines s.
Proof.
  induction s as [|c s IH]; [reflexivity|].
  cbn [lstrip_by]. destruct (is_space c) eqn:Hc; [|reflexivity].
  rewrite IH. unfold substantive_lines. cbn [split].
  destruct (c =? newline)%char; [reflexivity|].
  destruct (split newline s) as [|l ls] eqn:Hs; [now apply split_nonempty in Hs|].
  cbn [map]. f_equal. f_equal.
  unfold strip, strip_by. cbn [lstrip_by]. now rewrite Hc.
Qed.

(** Trailing white space of the content does not change its substantive
    lines, whatever stands before it on the first line. *)
Lemma substantive_lines_rstrip (s : string) :
  forall p : string,
    all_chars (fun c => negb (c =? newline)%char) p = true ->
    substantive_lines (p ++ rstrip_by is_space s) = substantive_lines (p ++ s).
Proof.
  induction s as [|c s IH]; intros p Hp; [reflexivity|].
  cbn [rstrip_by].
  assert (Hshift : forall x : string,
             p ++ String c x = (p ++ String c "") ++ x).
  { intros x. now rewrite string_app_assoc. }
  destruct (c =? newline)%char eqn:Hnl.
  - apply Ascii.eqb_eq in Hnl. subst c.
    rewrite (substantive_lines_cons_newline p s Hp).
    pose proof (IH "" eq_refl) as IH0. cbn [append] in IH0.
    destruct (rstrip_by is_space s) as [|c' r].
    + change (is_space newline) with true. cbv iota.
      rewrite <- IH0. unfold substantive_lines at 3. simpl.
      now rewrite app_nil_r, string_app_nil_r.
    + rewrite (substantive_lines_cons_newline p _ Hp). now rewrite IH0.
  - assert (Hp' : all_chars (fun c => negb (c =? newline)%char)
                            (p ++ String c "") = true).
    { apply all_chars_snoc; [exact Hp | now rewrite Hnl]. }
    pose proof (IH _ Hp') as IH1.
    destruct (rstrip_by is_space s) as [|c' r].
    + rewrite (Hshift s), <- IH1, !string_app_nil_r.
      destruct (is_space c) eqn:Hc; [|reflexivity].
      rewrite string_app_nil_r. unfold substantive_lines.
      rewrite (split_one_line _ Hp), (split_one_line _ Hp'). cbn [map].
      now rewrite (strip_snoc p c Hc).
    + rewrite (Hshift s), (Hshift (String c' r)). exact IH1.
Qed.

(** The lines [_is_runner_script] keeps are the substantive lines of the
    content: trimming the whole content first changes nothing. *)
Lemma actual_lines_substantive (content : string) :
  actual_lines_of content = substantive_lines content.
Proof.
  unfold actual_lines_of.
  rewrite (filter_map_comm strip
             (fun l => negb (l =? "")%string && negb (startswith "#" l))).
  change (substantive_lines (strip content) = substantive_lines content).
  unfold strip, strip_by.
  rewrite <- (substantive_lines_lstrip content).
  exact (substantive_lines_rstrip (lstrip_by is_space content) "" eq_refl).
Qed.

(** [_is_runner_script] decides the specification's rule 2. *)
Lemma is_runner_script_iff (content : string) :
  _is_runner_script content = true <-> runner_shape content.
Proof.
  unfold _is_runner_script, runner_shape.
  rewrite <- (actual_lines_substantive content).
  destruct (Nat.leb_spec (List.length (actual_lines_of content)) 2) as [Hle|Hgt].
  - rewrite runner_loop_iff. tauto.
  - split; [discriminate | intros [H _]; lia].
Qed.

Lemma cleanup_loop_iff (content_lower : string) (indicators : list string) :
  cleanup_loop content_lower indicators = true <->
  exists indicator,
    In indicator indicators
    /\ contains indicator (take 200 content_lower) = true
    /\ (contains "echo" content_lower = true
        \/ contains ("# " ++ indicator) content_lower = true
        \/ contains ("#" ++ indicator) content_lower = true).
Proof.
  induction indicators as [|i others IH]; cbn [cleanup_loop].
  - split; [discriminate | intros [x [[] _]]].
  - destruct (contains i (take 200 content_lower)) eqn:Hw.
    + pose proof (contains_take _ _ _ Hw) as Hin. rewrite Hin, andb_true_r.
      destruct (contains "echo" content_lower
                || (contains ("# " ++ i) content_lower
                    || contains ("#" ++ i) content_lower)) eqn:Hc.
      * split; [|reflexivity]. intros _. exists i.
        split; [now left|]. split; [exact Hw|].
        apply orb_true_iff in Hc. destruct Hc as [Hc|Hc]; [now left|].
        apply orb_true_iff in Hc. tauto.
      * apply orb_false_iff in Hc. destruct Hc as [He Hc].
        apply orb_false_iff in Hc. destruct Hc as [Hc1 Hc2].
        rewrite IH. split.
        -- intros [x [Hx Hr]]. exists x. split; [now right | exact Hr].
        -- intros [x [[<-|Hx] [Hx' Hr]]].
           ++ rewrite He, Hc1, Hc2 in Hr.
              destruct Hr as [Hr|[Hr|Hr]]; discriminate.
           ++ exists x. tauto.
    + rewrite IH. split.
      * intros [x [Hx Hr]]. exists x. split; [now right | exact Hr].
      * intros [x [[<-|Hx] [Hx' Hr]]].
        -- rewrite Hw in Hx'. discriminate.
        -- exists x. tauto.
Qed.

(** [_is_cleanup_script] decides the specification's rule 3. *)
Lemma is_cleanup_script_iff (content : string) :
  _is_cleanup_script content = true <-> cleanup_shape content.
Proof. apply cleanup_loop_iff. Qed.

(** A content that opens with the comment [# cleanup] is a cleanup
    script for [_is_cleanup_script]. *)
Lemma cleanup_comment_first (rest : string) :
  _is_cleanup_script ("# cleanup" ++ rest) = true.
Proof.
  apply is_cleanup_script_iff. exists "cleanup".
  split; [now left|].
  rewrite lower_append.
  replace (lower "# cleanup") with ("# " ++ "cleanup") by (vm_compute; reflexivity).
  split.
  - change (take 200 (("# " ++ "cleanup") ++ lower rest))
      with ("# " ++ "cleanup" ++ take 191 (lower rest)).
    apply (contains_append_r "cleanup" "# ").
    apply contains_here. apply prefix_append.
  - right. left. apply contains_here. apply prefix_append.
Qed.

End HeuristicFacts.

(** ** The claims about the response parser *)

Section ParserClaims.
Import PyStr Parser Examples.

(** C1. For every response the set the parser returns lists the
    candidates classified normal in their order of appearance, followed by
    the candidates classified cleanup in their order of appearance; when
    the three candidates of a response are normal, cleanup, normal, their
    ordinals are 1, 2, 3 and the set lists them in the order 1, 3, 2. *)
Theorem scriptset_order :
  (forall response : string,
      _extract_scripts_from_response response
      = map entry (filter is_normal (extractCandidates response))
        ++ map entry (filter is_cleanup (extractCandidates response)))
  /\ (forall (response : string) (c1 c2 c3 : ScriptCandidate),
         extractCandidates response = [c1; c2; c3] ->
         classify c1 = Normal -> classify c2 = Cleanup -> classify c3 = Normal ->
         map ordinal [c1; c2; c3] = [1; 2; 3]
         /\ _extract_scripts_from_response response
            = [entry c1; entry c3; entry c2]).
Proof.
  split.
  - intros response. apply extract_spec.
  - intros response c1 c2 c3 Hc H1 H2 H3. split.
    + rewrite <- Hc. unfold extractCandidates.
      rewrite ordinal_enumerate.
      assert (Hlen : List.length (findall response) = 3).
      { rewrite <- (length_enumerate _ 1).
        fold (extractCandidates response). now rewrite Hc. }
      now rewrite Hlen.
    + rewrite extract_spec, Hc. unfold buildScriptSet. cbn [filter].
      unfold is_normal, is_cleanup. rewrite H1, H2, H3. reflexivity.
Qed.

Lemma scriptset_order_witness :
  PyDict.keys (_extract_scripts_from_response response_ordering)
  = ["script_1_bash"; "script_3_bash"; "script_2_bash"].
Proof.
  destruct (proj2 scriptset_order response_ordering
              (candidate 0 "bash" echo_a)
              (candidate 1 "bash" cleanup_body)
              (candidate 2 "sh" echo_b)) as [_ Hs].
  - vm_compute. reflexivity.
  - vm_compute. reflexivity.
  - vm_compute. reflexivity.
  - vm_compute. reflexivity.
  - rewrite Hs. vm_compute. reflexivity.
Defined.

(** C2. A fenced block whose language token, lower-cased, is one of json,
    yaml, yml, toml, xml, html, css, markdown, md, txt is classified
    rejected-non-executable whatever its content, and the set the parser
    returns has no entry named after its ordinal. *)
Theorem non_executable_rejected :
  forall (response : string) (n : nat) (language body : string),
    nth_error (findall response) n = Some (language, body) ->
    In (lower language)
       ["json"; "yaml"; "yml"; "toml"; "xml"; "html"; "css"; "markdown"; "md"; "txt"] ->
    classify (candidate n language body) = RejectedNonExecutable
    /\ (forall script_type : string,
           ~ In (script_name (S n) script_type)
                (PyDict.keys (_extract_scripts_from_response response)))
    /\ (forall kv, In kv (_extract_scripts_from_response response) ->
                   kv <> entry (candidate n language body)).
Proof.
  intros response n language body Hn Hden.
  assert (Hcl : classify (candidate n language body) = RejectedNonExecutable).
  { unfold classify. cbn [candidate declaredLanguage].
    apply in_list_iff in Hden. unfold non_executable. now rewrite Hden. }
  assert (Habs : forall script_type : string,
             ~ In (script_name (S n) script_type)
                  (PyDict.keys (_extract_scripts_from_response response))).
  { apply (rejected_absent response n language body Hn); rewrite Hcl; discriminate. }
  split; [exact Hcl | split; [exact Habs|]].
  intros kv Hin ->. apply (Habs (normalizedType (candidate n language body))).
  apply in_map_iff. eexists. split; [|exact Hin]. reflexivity.
Qed.

Lemma non_executable_rejected_witness :
  classify (candidate 1 "yaml" ("a: b" ++ nl)%string) = RejectedNonExecutable
  /\ ~ In (script_name 2 "yaml")
          (PyDict.keys (_extract_scripts_from_response response_gap)).
Proof.
  destruct (non_executable_rejected response_gap 1 "yaml" ("a: b" ++ nl)%string)
    as [H1 [H2 _]].
  - vm_compute. reflexivity.
  - vm_compute. tauto.
  - split; [exact H1 | apply H2].
Defined.

(** C9. Every entry of the set is named script_<ordinal>_<normalizedType>
    after a match of the response, the ordinal being the 1-based position
    of that match among all the matches, rejected ones included; the names
    of one set are pairwise distinct; and the ordinals of a set may have
    gaps, as in a response whose second block is rejected. *)
Theorem script_names :
  (forall response : string,
      map ordinal (extractCandidates response)
      = seq 1 (List.length (findall response))
      /\ (forall (name : string) (data : script_data),
             In (name, data) (_extract_scripts_from_response response) ->
             exists (n : nat) (language body : string),
               nth_error (findall response) n = Some (language, body)
               /\ name = ("script_" ++ str (S n) ++ "_" ++ normalize (lower language))%string
               /\ type data = normalize (lower language)
               /\ content data = strip body)
      /\ NoDup (PyDict.keys (_extract_scripts_from_response response)))
  /\ PyDict.keys (_extract_scripts_from_response response_gap)
     = ["script_1_bash"; "script_3_python"].
Proof.
  split; [|vm_compute; reflexivity].
  intros response. split; [apply ordinal_enumerate|]. split.
  - intros name data Hin. rewrite extract_spec in Hin.
    apply In_buildScriptSet in Hin. destruct Hin as [c [Hc [Heq _]]].
    apply In_enumerate in Hc. destruct Hc as [n [Hord Hn]].
    exists n, (declaredLanguage c), (rawContent c).
    split; [exact Hn|]. unfold entry in Heq. injection Heq as -> ->.
    rewrite Hord. cbn [type content]. auto.
  - rewrite extract_spec. apply NoDup_buildScriptSet.
Qed.

Lemma script_names_witness :
  exists (n : nat) (language body : string),
    nth_error (findall response_gap) n = Some (language, body)
    /\ "script_3_python"%string
       = ("script_" ++ str (S n) ++ "_" ++ normalize (lower language))%string
    /\ "python"%string = normalize (lower language)
    /\ "print(1)"%string = strip body.
Proof.
  destruct (proj1 script_names response_gap) as [_ [H _]].
  apply (H "script_3_python"%string {| content := "print(1)"; type := "python" |}).
  vm_compute. tauto.
Defined.

End ParserClaims.

(** ** The claims about the two heuristics *)

Section HeuristicClaims.
Import PyStr Parser Examples.

(** C3 as stated does not hold: a block fenced as yaml whose content is
    [chmod +x run.sh] / [./run.sh] has the shape of a runner script, yet the
    denylist is consulted first and the block is classified
    rejected-non-executable. *)
Lemma runner_rule_after_denylist :
  ~ (classify (candidate 0 "yaml" runner_body) = RejectedRunner
     <-> runner_shape (rawContent (candidate 0 "yaml" runner_body))).
Proof.
  intros [_ H].
  assert (Hs : runner_shape (rawContent (candidate 0 "yaml" runner_body))).
  { apply is_runner_script_iff. vm_compute. reflexivity. }
  specialize (H Hs). vm_compute in H. discriminate.
Qed.

(** C3, amended. A candidate whose lower-cased language is not on the
    denylist is classified rejected-runner exactly when its content has the
    shape of a runner script: at most two lines remain once blank lines
    and lines starting with [#] are removed, and one of them contains both
    [chmod] and [.sh], or starts with [./] and contains [.sh]. A block of
    that shape leaves no entry in the set, whatever its language. The
    content [chmod +x run.sh] / [./run.sh] has that shape. *)
Theorem runner_rejected :
  (forall c : ScriptCandidate,
      ~ In (lower (declaredLanguage c)) non_executable ->
      (classify c = RejectedRunner <-> runner_shape (rawContent c)))
  /\ (forall (response : string) (n : nat) (language body : string),
         nth_error (findall response) n = Some (language, body) ->
         runner_shape body ->
         forall script_type : string,
           ~ In (script_name (S n) script_type)
                (PyDict.keys (_extract_scripts_from_response response)))
  /\ runner_shape ("chmod +x run.sh" ++ nl ++ "./run.sh")%string.
Proof.
  split; [|split].
  - intros c Hden. apply in_list_false_iff in Hden.
    rewrite <- is_runner_script_iff. unfold classify. rewrite Hden.
    destruct (_is_runner_script (rawContent c)).
    + tauto.
    + destruct (_is_cleanup_script (rawContent c)); split; discriminate.
  - intros response n language body Hn Hshape.
    apply is_runner_script_iff in Hshape.
    apply (rejected_absent response n language body Hn);
      unfold classify; cbn [candidate declaredLanguage rawContent];
      rewrite Hshape;
      destruct (in_list (lower language) non_executable); discriminate.
  - apply is_runner_script_iff. vm_compute. reflexivity.
Qed.

Lemma runner_rejected_witness :
  classify (candidate 0 "bash" runner_body) = RejectedRunner
  /\ ~ In (script_name 1 "bash")
          (PyDict.keys (_extract_scripts_from_response response_bash_runner)).
Proof.
  destruct runner_rejected as [H1 [H2 H3]]. split.
  - apply H1.
    + vm_compute. intuition discriminate.
    + exact H3.
  - apply (H2 response_bash_runner 0 "bash"%string runner_body).
    + vm_compute. reflexivity.
    + exact H3.
Defined.

(** C4 as stated does not hold. A content that opens with [# cleanup],
    [rm -rf /tmp/x] and contains [echo "done"] is not classified cleanup
    when the block is fenced as txt (the denylist comes first), nor, with
    a language that is not on the denylist, when its two substantive lines
    make it a runner script (that test comes first as well). And the
    classification requires neither an output statement nor a comment: a
    Python block that calls [os.remove('echoes.txt')] is classified
    cleanup for the letters [echo] of the file name, and a download from an
    address with the fragment [#remove-old-versions] is classified cleanup
    and moved behind the check that follows it. *)
Lemma cleanup_rule_after_rejections :
  ~ (forall (c : ScriptCandidate) (rest : string),
        _is_runner_script (rawContent c) = false ->
        rawContent c = ("# cleanup" ++ nl ++ "rm -rf /tmp/x" ++ rest)%string ->
        contains echo_done (rawContent c) = true ->
        classify c = Cleanup)
  /\ ~ (forall (c : ScriptCandidate) (rest : string),
           ~ In (lower (declaredLanguage c)) non_executable ->
           rawContent c = ("# cleanup" ++ nl ++ "rm -rf /tmp/x" ++ rest)%string ->
           contains echo_done (rawContent c) = true ->
           classify c = Cleanup)
  /\ (classify (candidate 1 "python" remove_body) = Cleanup
      /\ contains "#" remove_body = false
      /\ contains "echo " (lower remove_body) = false
      /\ contains "print" (lower remove_body) = false)
  /\ (classify (candidate 1 "bash" fragment_body) = Cleanup
      /\ contains "echo" (lower fragment_body) = false
      /\ forallb (fun line => negb (startswith "#" (strip line)))
                 (split newline fragment_body) = true
      /\ contains " #" fragment_body = false
      /\ PyDict.keys (_extract_scripts_from_response response_fragment)
         = ["script_2_bash"; "script_1_bash"]%string).
Proof.
  split; [|split; [|split]].
  - intros H.
    specialize (H (candidate 0 "txt" cleanup_body)
                  (nl ++ "echo " ++ dq ++ "done" ++ dq ++ nl)%string).
    assert (Hc : classify (candidate 0 "txt" cleanup_body) = Cleanup).
    { apply H; vm_compute; reflexivity. }
    vm_compute in Hc. discriminate.
  - intros H.
    specialize (H (candidate 0 "bash" cleanup_runner_body)
                  (nl ++ "echo " ++ dq ++ "done" ++ dq ++ " > chmod.sh" ++ nl)%string).
    assert (Hc : classify (candidate 0 "bash" cleanup_runner_body) = Cleanup).
    { apply H; [vm_compute; intuition discriminate | | ]; vm_compute; reflexivity. }
    vm_compute in Hc. discriminate.
  - repeat split; vm_compute; reflexivity.
  - repeat split; vm_compute; reflexivity.
Qed.

(** C4, amended. A candidate whose language is not on the denylist and
    whose content is not a runner script, when that content opens with the
    line [# cleanup] followed by [rm -rf /tmp/x] and contains
    [echo "done"], is classified cleanup; the entry of a cleanup candidate
    stands after the entry of every normal candidate of the response,
    whatever their ordinals; and a candidate is classified cleanup exactly
    when its language is not on the denylist, its content is not a runner
    script, and some indicator phrase occurs in the first 200 characters of
    the lower-cased content while the lower-cased content holds the letters
    [echo], or the text [# indicator], or the text [#indicator], anywhere:
    occurrences of text, which need not be an output statement or a
    comment. This is exactly what [_is_cleanup_script] tests. *)
Theorem cleanup_classified :
  (forall (c : ScriptCandidate) (rest : string),
      ~ In (lower (declaredLanguage c)) non_executable ->
      _is_runner_script (rawContent c) = false ->
      rawContent c = ("# cleanup" ++ nl ++ "rm -rf /tmp/x" ++ rest)%string ->
      contains echo_done (rawContent c) = true ->
      classify c = Cleanup)
  /\ (forall (response : string) (c_normal c_cleanup : ScriptCandidate),
         In c_normal (extractCandidates response) ->
         In c_cleanup (extractCandidates response) ->
         classify c_normal = Normal -> classify c_cleanup = Cleanup ->
         before (entry c_normal) (entry c_cleanup)
                (_extract_scripts_from_response response))
  /\ (forall c : ScriptCandidate,
         classify c = Cleanup <->
         ~ In (lower (declaredLanguage c)) non_executable
         /\ _is_runner_script (rawContent c) = false
         /\ cleanup_shape (rawContent c))
  /\ (forall content : string,
         _is_cleanup_script content = true <-> cleanup_shape content).
Proof.
  split; [|split; [|split]].
  - intros c rest Hden Hrun Hc _. apply in_list_false_iff in Hden.
    unfold classify. rewrite Hden, Hrun, Hc.
    change ("# cleanup" ++ nl ++ "rm -rf /tmp/x" ++ rest)%string
      with ("# cleanup" ++ (nl ++ "rm -rf /tmp/x" ++ rest))%string.
    now rewrite cleanup_comment_first.
  - intros response cn cc Hn Hc Hcn Hcc. rewrite extract_spec.
    unfold buildScriptSet, before.
    assert (H1 : In (entry cn) (map entry (filter is_normal (extractCandidates response)))).
    { apply in_map. apply filter_In. split; [exact Hn|].
      unfold is_normal. now rewrite Hcn. }
    assert (H2 : In (entry cc) (map entry (filter is_cleanup (extractCandidates response)))).
    { apply in_map. apply filter_In. split; [exact Hc|].
      unfold is_cleanup. now rewrite Hcc. }
    apply in_split in H1. destruct H1 as [a [b ->]].
    apply in_split in H2. destruct H2 as [b' [d ->]].
    exists a, (b ++ b'), d. rewrite <- !app_assoc. simpl.
    rewrite <- ?app_assoc. reflexivity.
  - intros c. rewrite <- is_cleanup_script_iff, <- in_list_false_iff.
    unfold classify.
    destruct (in_list _ _); [split; [discriminate | intros [H _]; discriminate]|].
    destruct (_is_runner_script _);
      [split; [discriminate | intros [_ [H _]]; discriminate]|].
    destruct (_is_cleanup_script _);
      [tauto | split; [discriminate | intros [_ [_ H]]; discriminate]].
  - exact is_cleanup_script_iff.
Qed.

Lemma cleanup_classified_witness :
  classify (candidate 1 "bash" cleanup_body) = Cleanup
  /\ before (entry (candidate 2 "sh" echo_b)) (entry (candidate 1 "bash" cleanup_body))
            (_extract_scripts_from_response response_ordering).
Proof.
  destruct cleanup_classified as [H1 [H2 _]]. split.
  - apply (H1 (candidate 1 "bash" cleanup_body)
              (nl ++ "echo " ++ dq ++ "done" ++ dq ++ nl)%string).
    + vm_compute. intuition discriminate.
    + vm_compute. reflexivity.
    + vm_compute. reflexivity.
    + vm_compute. reflexivity.
  - apply H2.
    + vm_compute. tauto.
    + vm_compute. tauto.
    + vm_compute. reflexivity.
    + vm_compute. reflexivity.
Defined.

End HeuristicClaims.

(** ** The executor's loop *)

Section ExecutorFacts.
Import PyStr Executor.

Lemma execute_script_calls self e script_content script_type timeout idx st :
  calls (snd (execute_script self e script_content script_type timeout idx st))
  = calls st ++ [(idx, script_content)].
Proof. unfold execute_script. destruct (attempt e _); reflexivity. Qed.

Lemma execute_script_result self e script_content script_type timeout idx st :
  fst (execute_script self e script_content script_type timeout idx st)
  = result_of timeout (attempt e (List.length (calls st))).
Proof. unfold execute_script. destruct (attempt e _); reflexivity. Qed.

Lemma keys_combine {V : Type} (ks : list string) : forall rs : list V,
  List.length rs <= List.length ks ->
  PyDict.keys (combine ks rs) = firstn (List.length rs) ks.
Proof.
  induction ks as [|k ks IH]; intros [|r rs] H; simpl in *;
    try reflexivity; try lia.
  f_equal. apply IH. lia.
Qed.

Lemma nth_error_combine {A B : Type} (l : list A) : forall (l' : list B) n a b,
  nth_error (combine l l') n = Some (a, b) ->
  nth_error l n = Some a /\ nth_error l' n = Some b.
Proof.
  induction l as [|x l IH]; intros [|y l'] [|n] a b H; simpl in *;
    try discriminate.
  - injection H as -> ->. auto.
  - now apply IH.
Qed.

Lemma combine_nil_r {A B : Type} (l : list A) : combine l (@nil B) = [].
Proof. now destruct l. Qed.



(** The loop of [execute_multiple_scripts]: the results appended are those
    of a first segment of the scripts, run in order with the indices
    counted from [idx]; when failures stop the loop, every result but the
    last is a success; and the segment is shorter than the list only when
    the loop stopped on a failure. *)
Lemma execute_loop_spec self e stop
      (items : list (string * Parser.script_data)) :
  forall idx results st results' st',
    NoDup (PyDict.keys results ++ PyDict.keys items) ->
    execute_loop self e stop items idx results st = (results', st') ->
    exists rs : list Result,
      List.length rs <= List.length items
      /\ results' = results ++ combine (PyDict.keys items) rs
      /\ calls st'
         = calls st
           ++ combine (seq idx (List.length rs))
                      (map (fun kv => Parser.content (snd kv)) items)
      /\ (stop = true ->
          forall j r, S j < List.length rs -> nth_error rs j = Some r ->
                      success_of r = true)
      /\ (List.length rs < List.length items ->
          stop = true /\ exists r, nth_error rs (List.length rs - 1) = Some r
                                   /\ rs <> [] /\ success_of r = false)
      /\ (forall j r, nth_error rs j = Some r ->
                      r = result_of 600 (attempt e (List.length (calls st) + j)))
      /\ (items <> [] -> rs <> []).
Proof.
  induction items as [|[name info] items IH]; intros idx results st results' st' Hnd H.
  - simpl in H. injection H as <- <-. exists []. simpl.
    rewrite !app_nil_r. repeat split; try lia; try reflexivity.
    + intros [|j] r H; discriminate.
    + intros H. now elim H.
  - cbn [execute_loop] in H.
    destruct (execute_script self e (Parser.content info) (Parser.type info) 600 idx st)
      as [r st1] eqn:E.
    assert (Hcalls : calls st1 = calls st ++ [(idx, Parser.content info)]).
    { pose proof (execute_script_calls self e (Parser.content info)
                    (Parser.type info) 600 idx st) as Hc.
      now rewrite E in Hc. }
    assert (Hr0 : r = result_of 600 (attempt e (List.length (calls st)))).
    { pose proof (execute_script_result self e (Parser.content info)
                    (Parser.type info) 600 idx st) as Hc.
      now rewrite E in Hc. }
    assert (Hfresh : ~ In name (PyDict.keys results)).
    { simpl in Hnd. apply NoDup_remove_2 in Hnd. intros Hin. apply Hnd.
      apply in_or_app. now left. }
    rewrite (set_fresh _ _ _ Hfresh) in H.
    destruct (negb (success_of r) && stop) eqn:Hstop.
    + injection H as <- <-. apply andb_true_iff in Hstop.
      destruct Hstop as [Hr Hs]. apply negb_true_iff in Hr.
      exists [r]. simpl. rewrite combine_nil_r.
      split; [lia|]. split; [reflexivity|].
      split; [now rewrite Hcalls|]. split; [|split; [|split]].
      * intros _ j r0 Hj. lia.
      * intros _. split; [exact Hs|]. exists r.
        split; [reflexivity|]. split; [discriminate | exact Hr].
      * intros [|[|j]] r0 Hn; simpl in Hn; try discriminate.
        injection Hn as <-. now rewrite Nat.add_0_r.
      * discriminate.
    + apply IH in H.
      * destruct H as [rs [Hlen [Hres [Hc [Hall [Hlast [Hatt _]]]]]]].
        exists (r :: rs). simpl. split; [lia|].
        split; [|split; [|split; [|split; [|split]]]].
        -- rewrite Hres, <- app_assoc. reflexivity.
        -- rewrite Hc, Hcalls, <- app_assoc. reflexivity.
        -- intros Hs j r0 Hj Hn. destruct j as [|j]; simpl in Hn.
           ++ injection Hn as <-. rewrite Hs, andb_true_r in Hstop.
              now apply negb_false_iff in Hstop.
           ++ apply (Hall Hs j r0); [lia | exact Hn].
        -- intros Hlt. destruct Hlast as [Hs [r0 [Hn [Hne Hf]]]]; [lia|].
           split; [exact Hs|]. exists r0. repeat split; auto; [|discriminate].
           rewrite Nat.sub_0_r. destruct rs as [|r1 rs]; [contradiction|].
           simpl in *. now rewrite Nat.sub_0_r in Hn.
        -- intros [|j] r0 Hn; simpl in Hn.
           ++ injection Hn as <-. now rewrite Nat.add_0_r.
           ++ apply Hatt in Hn. rewrite Hn, Hcalls, length_app. simpl.
              do 2 f_equal. lia.
        -- discriminate.
      * rewrite keys_app. simpl. rewrite <- app_assoc. exact Hnd.
Qed.

End ExecutorFacts.

(** ** File names *)

Section FilenameFacts.
Import PyStr Executor.
Local Open Scope string_scope.

Lemma length_drop (n : nat) : forall s,
  String.length (drop n s) = String.length s - n.
Proof.
  induction n as [|n IH]; intros [|c s]; simpl; try reflexivity.
  apply IH.
Qed.

Lemma length_take (n : nat) : forall s, String.length (take n s) <= n.
Proof.
  unfold take. induction n as [|n IH]; intros [|c s]; simpl; try lia.
  specialize (IH s). lia.
Qed.

Lemma all_chars_drop (p : ascii -> bool) (n : nat) : forall s,
  all_chars p s = true -> all_chars p (drop n s) = true.
Proof.
  induction n as [|n IH]; intros [|c s] H; simpl; try assumption.
  simpl in H. apply andb_true_iff in H. apply IH. tauto.
Qed.

Lemma all_chars_lstrip (q p : ascii -> bool) (s : string) :
  all_chars p s = true -> all_chars p (lstrip_by q s) = true.
Proof.
  induction s as [|c s IH]; simpl; intros H; [reflexivity|].
  destruct (q c); [|exact H].
  apply andb_true_iff in H. apply IH. tauto.
Qed.

Lemma all_chars_rstrip (q p : ascii -> bool) (s : string) :
  all_chars p s = true -> all_chars p (rstrip_by q s) = true.
Proof.
  induction s as [|c s IH]; simpl; intros H; [reflexivity|].
  apply andb_true_iff in H. destruct H as [Hc Hs]. specialize (IH Hs).
  destruct (rstrip_by q s) as [|c' r].
  - destruct (q c); simpl; [reflexivity | now rewrite Hc].
  - cbn [all_chars] in *. now rewrite Hc.
Qed.

Lemma all_chars_re_sub (s : string) :
  all_chars filename_safe (re_sub_unsafe s) = true.
Proof.
  unfold re_sub_unsafe. induction s as [|c s IH]; simpl; [reflexivity|].
  rewrite IH, andb_true_r.
  destruct (filename_safe c) eqn:Hc; [exact Hc | reflexivity].
Qed.

Lemma length_re_sub (s : string) :
  String.length (re_sub_unsafe s) = String.length s.
Proof. unfold re_sub_unsafe. induction s; simpl; congruence. Qed.

Lemma get_re_sub (s : string) : forall i c,
  String.get i s = Some c ->
  String.get i (re_sub_unsafe s) = Some (if filename_safe c then c else "_"%char).
Proof.
  unfold re_sub_unsafe.
  induction s as [|a s IH]; intros [|i] c H; simpl in *; try discriminate.
  - now injection H as ->.
  - now apply IH.
Qed.

(** The sanitized source holds only characters of [[\w\-.]]. *)
Lemma sanitize_safe (ctx : string) : all_chars filename_safe (sanitize ctx) = true.
Proof.
  unfold sanitize, strip_by.
  assert (H : all_chars filename_safe
                (rstrip_by (fun c => (c =? "_")%char)
                   (lstrip_by (fun c => (c =? "_")%char) (re_sub_unsafe ctx))) = true).
  { apply all_chars_rstrip, all_chars_lstrip, all_chars_re_sub. }
  destruct (50 <? _)%nat; [|exact H].
  unfold last_chars. now apply all_chars_drop.
Qed.

Lemma sanitize_length (ctx : string) : String.length (sanitize ctx) <= 50.
Proof.
  unfold sanitize.
  destruct (Nat.ltb_spec 50
              (String.length (strip_by (fun c => (c =? "_")%char) (re_sub_unsafe ctx))))
    as [Hlt|Hge]; [|exact Hge].
  unfold last_chars. rewrite length_drop. lia.
Qed.

Lemma length_string_of_list_ascii (l : list ascii) :
  String.length (string_of_list_ascii l) = List.length l.
Proof. induction l; simpl; congruence. Qed.

Lemma choices_length population k draw from :
  String.length (choices population k draw from) = k.
Proof.
  unfold choices.
  now rewrite length_string_of_list_ascii, length_map, length_seq.
Qed.

Lemma all_chars_of_list (p : ascii -> bool) (l : list ascii) :
  (forall c, In c l -> p c = true) ->
  all_chars p (string_of_list_ascii l) = true.
Proof.
  induction l as [|c l IH]; simpl; intros H; [reflexivity|].
  rewrite (H c) by now left. apply IH. intros c' Hc'. apply H. now right.
Qed.

(** The random suffix is made of lower-case letters and digits. *)
Lemma choices_suffix_chars k draw from :
  all_chars (fun c => is_lower c || is_digit c)
            (choices suffix_alphabet k draw from) = true.
Proof.
  unfold choices. apply all_chars_of_list. intros c Hc.
  apply in_map_iff in Hc. destruct Hc as [j [<- _]].
  set (L := list_ascii_of_string suffix_alphabet).
  assert (HL : forallb (fun c => is_lower c || is_digit c) L = true)
    by (vm_compute; reflexivity).
  rewrite forallb_forall in HL.
  destruct (nth_in_or_default (draw j mod String.length suffix_alphabet) L "a"%char)
    as [Hin| ->]; [now apply HL | reflexivity].
Qed.

Lemma extension_dot (script_type : string) :
  exists ext, extension_of script_type = "." ++ ext.
Proof.
  unfold extension_of.
  destruct (in_list _ _); [now exists "sh"|].
  destruct (_ =? _)%string; [now exists "py" | now exists script_type].
Qed.

(** What [execute_script] adds to [generated_script_paths]. *)
Lemma execute_script_paths self e script_content script_type timeout idx st p :
  In p (generated_script_paths
          (snd (execute_script self e script_content script_type timeout idx st))) ->
  In p (generated_script_paths st)
  \/ (save_generated_scripts self = true
      /\ parent p = cwd e
      /\ name p = _generate_script_filename self e (drawn st) script_type idx).
Proof.
  unfold execute_script.
  destruct (attempt e _); cbn [snd generated_script_paths]; auto;
    destruct (save_generated_scripts self); auto;
    intros H; apply in_app_or in H;
    (destruct H as [H|[<-|[]]]; [now left | right; auto]).
Qed.

Lemma execute_loop_paths self e stop (items : list (string * Parser.script_data)) :
  forall idx results st results' st' p,
    execute_loop self e stop items idx results st = (results', st') ->
    In p (generated_script_paths st') ->
    In p (generated_script_paths st)
    \/ (save_generated_scripts self = true
        /\ parent p = cwd e
        /\ exists from script_type script_index,
             name p = _generate_script_filename self e from script_type script_index).
Proof.
  induction items as [|[nm info] items IH]; intros idx results st results' st' p H Hp.
  - simpl in H. injection H as _ <-. now left.
  - cbn [execute_loop] in H.
    pose proof (execute_script_paths self e (Parser.content info)
                  (Parser.type info) 600 idx st p) as Hstep.
    destruct (execute_script self e (Parser.content info) (Parser.type info) 600 idx st)
      as [r st1]. cbn [snd] in Hstep.
    assert (Hst1 : In p (generated_script_paths st1) ->
                   In p (generated_script_paths st)
                   \/ (save_generated_scripts self = true
                       /\ parent p = cwd e
                       /\ exists from script_type script_index,
                            name p = _generate_script_filename self e from
                                       script_type script_index)).
    { intros Hin. destruct (Hstep Hin) as [Hl|[Hs [Hpar Hn]]]; [now left|].
      right. split; [exact Hs|]. split; [exact Hpar|]. eauto. }
    destruct (negb (success_of r) && stop).
    + injection H as _ <-. auto.
    + destruct (IH _ _ _ _ _ p H Hp) as [Hin|Hnew]; auto.
Qed.

End FilenameFacts.

(** ** The claims about the executor *)

Section ExecutorClaims.
Import PyStr Executor Examples.



(** C7 as stated does not hold. The report of a timeout is not always
    distinguishable from that of an exit with non-zero status: a script
    that writes the words of the timeout report to its standard error and
    ends with status 1 gets the very result of a script that ran into the
    timeout of 600 seconds. Nor does a script succeed whenever its process
    ends with status zero: when the captured output cannot be decoded,
    [subprocess.run] raises, and the script is reported as failed. *)
Lemma timeout_report_not_unique :
  fst (execute_script executor_readme env_timeout
         "sleep 700" "bash" 600 0 initial_state)
  = fst (execute_script executor_readme env_prints_timeout
           "printf 'Script execution timed out after 600 seconds' >&2; exit 1"
           "bash" 600 0 initial_state)
  /\ attempt env_undecodable 0
     = DecodeError
         0 "'utf-8' codec can't decode byte 0xff in position 0: invalid start byte"
  /\ fst (execute_script executor_readme env_undecodable
            "printf '\377'" "bash" 600 0 initial_state)
     = (false, ""%string,
        "Failed to execute script: 'utf-8' codec can't decode byte 0xff in position 0: invalid start byte"%string).
Proof. repeat split; vm_compute; reflexivity. Qed.

(** C7, amended. When the run of a script times out, [execute_script]
    returns success false, an empty stdout and the stderr message
    "Script execution timed out after <timeout> seconds". When
    [subprocess.run] returns, the result is success exactly for exit status
    zero, with the captured stdout and stderr. When the output of a process
    that has ended cannot be decoded, the result is a failure with the
    message "Failed to execute script: <reason>", whatever the exit status.
    So a script succeeds exactly when [subprocess.run] returns with exit
    status zero. The report of a timeout is that of a returned process
    exactly when that process ended with a non-zero status, an empty stdout
    and that very message as its stderr; it always differs from the report
    of a failure to write, start or decode. *)
Theorem timeout_reported :
  (forall (self : ScriptExecutor) (e : Env) (script_content script_type : string)
          (timeout idx : nat) (st : State),
      let outcome := attempt e (List.length (calls st)) in
      let r := fst (execute_script self e script_content script_type timeout idx st) in
      r = result_of timeout outcome
      /\ (outcome = Timeout ->
          r = (false, ""%string,
               ("Script execution timed out after " ++ str timeout ++ " seconds")%string))
      /\ (forall returncode out err,
             outcome = Completed returncode out err ->
             r = (Z.eqb returncode 0, out, err))
      /\ (forall returncode msg,
             outcome = DecodeError returncode msg ->
             r = (false, ""%string, ("Failed to execute script: " ++ msg)%string))
      /\ (success_of r = true <-> exists out err, outcome = Completed 0%Z out err))
  /\ (forall (timeout : nat) (returncode : Z) (out err : string),
         result_of timeout Timeout = result_of timeout (Completed returncode out err)
         <-> returncode <> 0%Z /\ out = ""%string /\ err = timeout_message timeout)
  /\ (forall (timeout : nat) (returncode : Z) (msg : string),
         result_of timeout Timeout <> result_of timeout (RunError msg)
         /\ result_of timeout Timeout <> result_of timeout (WriteError msg)
         /\ result_of timeout Timeout <> result_of timeout (DecodeError returncode msg)).
Proof.
  split; [|split].
  - intros self e script_content script_type timeout idx st outcome r.
    subst r. rewrite execute_script_result. fold outcome.
    split; [reflexivity|]. split; [|split; [|split]].
    + intros ->. reflexivity.
    + intros returncode out err ->. reflexivity.
    + intros returncode msg ->. reflexivity.
    + destruct outcome as [msg|msg|code msg| |rc out err];
        cbn [result_of success_of fst];
        try (split; [discriminate | intros [o [er H]]; discriminate]).
      split.
      * intros H. apply Z.eqb_eq in H. subst rc. eauto.
      * intros [o [er H]]. injection H as -> _ _. reflexivity.
  - intros timeout rc out err. cbn [result_of]. split.
    + intros H. injection H as Hrc Hout Herr. symmetry in Hrc.
      apply Z.eqb_neq in Hrc. auto.
    + intros [Hrc [-> ->]]. apply Z.eqb_neq in Hrc. now rewrite Hrc.
  - intros timeout rc msg. cbn [result_of].
    unfold timeout_message, failure_message. repeat split; intros H; discriminate.
Qed.

Lemma timeout_reported_witness :
  fst (execute_script executor_readme env_timeout "sleep 60" "bash" 1 0 initial_state)
  = (false, ""%string, "Script execution timed out after 1 seconds"%string)
  /\ result_of 1 Timeout <> result_of 1 (Completed 1 "" "boom").
Proof.
  destruct timeout_reported as [H1 [H2 _]]. split.
  - apply (proj1 (proj2 (H1 executor_readme env_timeout "sleep 60"%string
                            "bash"%string 1 0 initial_state))).
    reflexivity.
  - intros H. apply H2 in H. destruct H as [_ [_ H]]. vm_compute in H.
    discriminate.
Defined.

(** C8 as stated does not hold: for the source [docs/README.md] the saved
    script is named [_gen-docs_README.md-<suffix>.sh]: the slash is
    replaced by an underscore, where stripping it would give
    [docsREADME.md]. *)
Lemma sanitize_replaces :
  _generate_script_filename executor_readme env_second_fails 0 "bash" 0
  = "_gen-docs_README.md-ahov29.sh"%string
  /\ sanitize "docs/README.md" <> sanitize_by_stripping "docs/README.md".
Proof. split; [vm_compute; reflexivity | vm_compute; discriminate]. Qed.

(** C8, amended. The name [_generate_script_filename] gives is
    [_gen-<middle>-<suffix>.<ext>]: the suffix has six characters, each a
    lower-case letter or a digit; the middle is the sanitized source
    context when there is one, and [script<index>] otherwise. The
    sanitization replaces, position by position, each character outside
    word characters, hyphen and dot by an underscore, removes the leading
    and trailing underscores, and keeps the last 50 characters when more
    than 50 remain; its result has at most 50 characters, all of them word
    characters, hyphens or dots. Every path the executor has saved after
    [execute_multiple_scripts] lies in the current directory and bears
    such a name. *)
Theorem generated_filename_pattern :
  (forall (self : ScriptExecutor) (e : Env) (from : nat)
          (script_type : string) (script_index : nat),
      exists middle suffix ext : string,
        _generate_script_filename self e from script_type script_index
        = ("_gen-" ++ middle ++ "-" ++ suffix ++ "." ++ ext)%string
        /\ String.length suffix = 6
        /\ all_chars (fun c => is_lower c || is_digit c) suffix = true
        /\ middle = match truthy (source_context self) with
                    | Some ctx => sanitize ctx
                    | None => ("script" ++ str script_index)%string
                    end)
  /\ (forall ctx : string,
         let replaced := re_sub_unsafe ctx in
         let trimmed := strip_by (fun c => (c =? "_")%char) replaced in
         String.length replaced = String.length ctx
         /\ (forall i c, String.get i ctx = Some c ->
                         String.get i replaced
                         = Some (if filename_safe c then c else "_"%char))
         /\ sanitize ctx
            = (if (50 <? String.length trimmed)%nat
               then drop (String.length trimmed - 50) trimmed else trimmed)
         /\ String.length (sanitize ctx) <= 50
         /\ all_chars filename_safe (sanitize ctx) = true)
  /\ (forall (self : ScriptExecutor) (e : Env)
             (scripts : PyDict.dict Parser.script_data) (stop_on_failure : bool)
             (results : PyDict.dict Result) (st' : State) (p : path),
         execute_multiple_scripts self e scripts stop_on_failure initial_state
         = (results, st') ->
         In p (generated_script_paths st') ->
         parent p = cwd e
         /\ exists from script_type script_index,
              name p = _generate_script_filename self e from script_type script_index).
Proof.
  split; [|split].
  - intros self e from script_type script_index.
    unfold _generate_script_filename.
    destruct (extension_dot script_type) as [ext ->].
    destruct (truthy (source_context self)) as [ctx|];
      [exists (sanitize ctx) | exists ("script" ++ str script_index)%string];
      exists (choices suffix_alphabet 6 (draw e) from), ext;
      (split; [reflexivity|]);
      (split; [apply choices_length|]);
      (split; [apply choices_suffix_chars | reflexivity]).
  - intros ctx replaced trimmed. subst replaced trimmed.
    split; [apply length_re_sub|]. split; [apply get_re_sub|].
    split; [reflexivity|]. split; [apply sanitize_length | apply sanitize_safe].
  - intros self e scripts stop results st' p Hrun Hp.
    unfold execute_multiple_scripts in Hrun.
    destruct (execute_loop_paths _ _ _ _ _ _ _ _ _ p Hrun Hp) as [[]|[_ H]].
    exact H.
Qed.

Lemma generated_filename_pattern_witness :
  exists middle suffix ext : string,
    "_gen-docs_README.md-ahov29.sh"%string
    = ("_gen-" ++ middle ++ "-" ++ suffix ++ "." ++ ext)%string
    /\ String.length suffix = 6
    /\ all_chars (fun c => is_lower c || is_digit c) suffix = true
    /\ middle = sanitize "docs/README.md".
Proof.
  exact (proj1 generated_filename_pattern executor_readme env_second_fails 0
               "bash"%string 0).
Defined.

End ExecutorClaims.

(** ** The orchestrator *)

Section OrchestratorFacts.
Import PyStr Orchestrator.

Lemma detail_of_short (script_name : string) (r : Executor.Result) :
  short_detail (detail_of script_name r).
Proof.
  destruct r as [[ok out] err]. split; simpl; apply length_take.
Qed.

(** The aggregation loop: what it leaves alone and what it counts. *)
Lemma fold_record_outcome (xs : list (string * Executor.Result)) :
  forall r : Results,
    let r' := fold_left record_outcome xs r in
    success r' = success r
    /\ scripts_executed r' = scripts_executed r
    /\ error r' = error r
    /\ scripts_passed r'
       = scripts_passed r
         + List.length (filter (fun x => Executor.success_of (snd x)) xs)
    /\ scripts_failed r'
       = scripts_failed r
         + List.length (filter (fun x => negb (Executor.success_of (snd x))) xs)
    /\ details r' = details r ++ map (fun x => detail_of (fst x) (snd x)) xs.
Proof.
  induction xs as [|[nm [[ok out] err]] xs IH]; intros r r'; subst r'.
  - simpl. rewrite !Nat.add_0_r, app_nil_r. repeat split.
  - change (fold_left record_outcome ((nm, (ok, out, err)) :: xs) r)
      with (fold_left record_outcome xs (record_outcome r (nm, (ok, out, err)))).
    set (r1 := record_outcome r (nm, (ok, out, err))).
    destruct (IH r1) as [H1 [H2 [H3 [H4 [H5 H6]]]]].
    rewrite H1, H2, H3, H4, H5, H6. subst r1.
    cbn [record_outcome success scripts_executed error scripts_passed
         scripts_failed details filter map fst snd Executor.success_of].
    rewrite <- app_assoc. repeat split; destruct ok; simpl; lia.
Qed.

Lemma filter_length_pos {A : Type} (p : A -> bool) (l : list A) (x : A) :
  In x l -> p x = true -> 0 < List.length (filter p l).
Proof.
  intros Hin Hp. assert (H : In x (filter p l)) by (apply filter_In; auto).
  destruct (filter p l); [contradiction | simpl; lia].
Qed.

Lemma filter_partition_length {A : Type} (p : A -> bool) (l : list A) :
  List.length (filter p l) + List.length (filter (fun x => negb (p x)) l)
  = List.length l.
Proof. induction l as [|a l IH]; simpl; [reflexivity|]. destruct (p a); simpl; lia. Qed.

End OrchestratorFacts.

Section OrchestratorRun.
Import PyStr Orchestrator.

Variables (w : World) (work_dir : option string) (verbose : bool)
          (sources : list string) (max_iterations : nat)
          (stop_on_failure : bool) (custom_instructions : option string).

Let res : Results :=
  test_documentation w work_dir verbose sources max_iterations
                     stop_on_failure custom_instructions.

Lemma run_fetch_failed (e : string) :
  fetch_multiple w sources = inl e ->
  res = with_error ("Failed to fetch documentation: " ++ e) (initial_results sources).
Proof. intros H. unfold res, test_documentation. now rewrite H. Qed.

Lemma run_generation_failed (docs : list (string * string)) (e : string) :
  fetch_multiple w sources = inr docs ->
  send_message w docs custom_instructions = inl e ->
  res = with_error ("Failed to generate test scripts: " ++ e)
          (with_documentation_count (List.length docs) (initial_results sources)).
Proof.
  intros H1 H2. unfold res, test_documentation, _generate_test_scripts.
  now rewrite H1, H2.
Qed.

Lemma run_no_scripts (docs : list (string * string)) (response : string) :
  fetch_multiple w sources = inr docs ->
  send_message w docs custom_instructions = inr response ->
  Parser._extract_scripts_from_response response = [] ->
  res = with_error "No test scripts were generated"
          (with_scripts []
             (with_documentation_count (List.length docs) (initial_results sources))).
Proof.
  intros H1 H2 H3. unfold res, test_documentation, _generate_test_scripts.
  now rewrite H1, H2, H3.
Qed.

Lemma run_executor_failed (docs : list (string * string)) (response e : string) :
  fetch_multiple w sources = inr docs ->
  send_message w docs custom_instructions = inr response ->
  Parser._extract_scripts_from_response response <> [] ->
  make_work_dir w work_dir = inl e ->
  res = with_error ("Failed to execute scripts: " ++ e)
          (with_scripts (Parser._extract_scripts_from_response response)
             (with_documentation_count (List.length docs) (initial_results sources))).
Proof.
  intros H1 H2 H3 H4. unfold res, test_documentation, _generate_test_scripts.
  rewrite H1, H2.
  destruct (Parser._extract_scripts_from_response response); [contradiction|].
  now rewrite H4.
Qed.

(** The run in which every stage is reached. *)
Lemma run_executed (docs : list (string * string)) (response dir : string) :
  fetch_multiple w sources = inr docs ->
  send_message w docs custom_instructions = inr response ->
  Parser._extract_scripts_from_response response <> [] ->
  make_work_dir w work_dir = inr dir ->
  let executor :=
    {| Executor.work_dir := dir;
       Executor.verbose := verbose;
       Executor.source_context := hd_error sources;
       Executor.save_generated_scripts := true |} in
  let execution_results :=
    fst (Executor.execute_multiple_scripts
           executor (exec_env w)
           (Parser._extract_scripts_from_response response)
           stop_on_failure Executor.initial_state) in
  error res = None
  /\ scripts_executed res = List.length execution_results
  /\ scripts_passed res
     = List.length (filter (fun x => Executor.success_of (snd x)) execution_results)
  /\ scripts_failed res
     = List.length (filter (fun x => negb (Executor.success_of (snd x)))
                           execution_results)
  /\ details res = map (fun x => detail_of (fst x) (snd x)) execution_results
  /\ success res
     = ((0 <? scripts_executed res)%nat && (scripts_failed res =? 0)%nat).
Proof.
  intros H1 H2 H3 H4 executor execution_results.
  subst execution_results executor.
  unfold res, test_documentation, _generate_test_scripts.
  rewrite H1, H2.
  destruct (Parser._extract_scripts_from_response response) as [|p l];
    [contradiction|].
  rewrite H4.
  destruct (Executor.execute_multiple_scripts _ _ _ _ _) as [xs st'].
  cbn [fst].
  set (r0 := with_scripts_executed _ _).
  destruct (fold_record_outcome xs r0) as [G1 [G2 [G3 [G4 [G5 G6]]]]].
  unfold with_success.
  cbn [error scripts_executed scripts_passed scripts_failed details success].
  rewrite G2, G3, G4, G5, G6. subst r0. cbn. repeat split.
Qed.

End OrchestratorRun.

(** ** The claims about the orchestrator *)

Section OrchestratorClaims.
Import PyStr Orchestrator Examples.

(** C5 as stated does not hold for the failure to start a script: when
    the interpreter cannot be started, [execute_script] turns the exception
    into the failed outcome of that script, and the run ends without a
    top-level error. *)
Lemma spawn_failure_without_error :
  Executor.attempt (exec_env world_spawn_failure) 0
  = Executor.RunError "[Errno 2] No such file or directory: '/bin/bash'"
  /\ error (test_documentation world_spawn_failure None false
                               ["docs/README.md"%string] 3 false None) = None.
Proof. split; vm_compute; reflexivity. Qed.

(** C5, amended. The success field of the result is true exactly when
    [scripts_executed > 0] and [scripts_failed = 0]. When fetching fails,
    when generation fails, when the parser returns no script, or when the
    executor cannot be set up, the result carries a top-level error and
    success is false. When the executor is set up, the result carries no
    top-level error; a script whose process cannot be started is then a
    failed outcome with the reason in its stderr, and success is false. *)
Theorem result_success :
  forall (w : World) (work_dir : option string) (verbose : bool)
         (sources : list string) (max_iterations : nat)
         (stop_on_failure : bool) (custom_instructions : option string),
    let res := test_documentation w work_dir verbose sources max_iterations
                                  stop_on_failure custom_instructions in
    (success res = true <-> 0 < scripts_executed res /\ scripts_failed res = 0)
    /\ (forall e : string,
           fetch_multiple w sources = inl e ->
           error res = Some ("Failed to fetch documentation: " ++ e)%string
           /\ success res = false)
    /\ (forall (docs : list (string * string)) (e : string),
           fetch_multiple w sources = inr docs ->
           send_message w docs custom_instructions = inl e ->
           error res = Some ("Failed to generate test scripts: " ++ e)%string
           /\ success res = false)
    /\ (forall (docs : list (string * string)) (response : string),
           fetch_multiple w sources = inr docs ->
           send_message w docs custom_instructions = inr response ->
           Parser._extract_scripts_from_response response = [] ->
           error res = Some "No test scripts were generated"%string
           /\ success res = false)
    /\ (forall (docs : list (string * string)) (response e : string),
           fetch_multiple w sources = inr docs ->
           send_message w docs custom_instructions = inr response ->
           Parser._extract_scripts_from_response response <> [] ->
           make_work_dir w work_dir = inl e ->
           error res = Some ("Failed to execute scripts: " ++ e)%string
           /\ success res = false)
    /\ (forall (docs : list (string * string)) (response dir : string),
           fetch_multiple w sources = inr docs ->
           send_message w docs custom_instructions = inr response ->
           Parser._extract_scripts_from_response response <> [] ->
           make_work_dir w work_dir = inr dir ->
           error res = None
           /\ forall (j : nat) (msg : string),
               j < scripts_executed res ->
               Executor.attempt (exec_env w) j = Executor.RunError msg ->
               success res = false
               /\ exists d : Detail,
                   nth_error (details res) j = Some d
                   /\ passed d = false
                   /\ stdout d = ""%string
                   /\ stderr d = take 1000 ("Failed to execute script: " ++ msg)%string).
Proof.
  intros w work_dir verbose sources max_iterations stop_on_failure
         custom_instructions res.
  assert (Hfetch : forall e : string,
             fetch_multiple w sources = inl e ->
             error res = Some ("Failed to fetch documentation: " ++ e)%string
             /\ success res = false
             /\ scripts_executed res = 0).
  { intros e H. subst res. rewrite (run_fetch_failed _ _ _ _ _ _ _ _ H).
    repeat split. }
  assert (Hgen : forall (docs : list (string * string)) (e : string),
             fetch_multiple w sources = inr docs ->
             send_message w docs custom_instructions = inl e ->
             error res = Some ("Failed to generate test scripts: " ++ e)%string
             /\ success res = false
             /\ scripts_executed res = 0).
  { intros docs e H1 H2. subst res.
    rewrite (run_generation_failed _ _ _ _ _ _ _ _ _ H1 H2). repeat split. }
  assert (Hnone : forall (docs : list (string * string)) (response : string),
             fetch_multiple w sources = inr docs ->
             send_message w docs custom_instructions = inr response ->
             Parser._extract_scripts_from_response response = [] ->
             error res = Some "No test scripts were generated"%string
             /\ success res = false
             /\ scripts_executed res = 0).
  { intros docs response H1 H2 H3. subst res.
    rewrite (run_no_scripts _ _ _ _ _ _ _ _ _ H1 H2 H3). repeat split. }
  assert (Hexec : forall (docs : list (string * string)) (response e : string),
             fetch_multiple w sources = inr docs ->
             send_message w docs custom_instructions = inr response ->
             Parser._extract_scripts_from_response response <> [] ->
             make_work_dir w work_dir = inl e ->
             error res = Some ("Failed to execute scripts: " ++ e)%string
             /\ success res = false
             /\ scripts_executed res = 0).
  { intros docs response e H1 H2 H3 H4. subst res.
    rewrite (run_executor_failed _ _ _ _ _ _ _ _ _ _ H1 H2 H3 H4). repeat split. }
  split; [|split; [|split; [|split; [|split]]]].
  - (* the derived success field *)
    assert (Hfalse : success res = false -> scripts_executed res = 0 ->
                     (success res = true <->
                      0 < scripts_executed res /\ scripts_failed res = 0)).
    { intros -> ->. split; [discriminate | lia]. }
    destruct (fetch_multiple w sources) as [e|docs] eqn:H1.
    { destruct (Hfetch e eq_refl) as [_ [Hs He]]. auto. }
    destruct (send_message w docs custom_instructions) as [e|response] eqn:H2.
    { destruct (Hgen docs e eq_refl H2) as [_ [Hs He]]. auto. }
    assert (H3 : Parser._extract_scripts_from_response response = []
                 \/ Parser._extract_scripts_from_response response <> []).
    { destruct (Parser._extract_scripts_from_response response);
        [now left | right; discriminate]. }
    destruct H3 as [H3|H3].
    { destruct (Hnone docs response eq_refl H2 H3) as [_ [Hs He]]. auto. }
    destruct (make_work_dir w work_dir) as [e|dir] eqn:H4.
    { destruct (Hexec docs response e eq_refl H2 H3 eq_refl) as [_ [Hs He]]. auto. }
    destruct (run_executed w work_dir verbose sources max_iterations
                stop_on_failure custom_instructions docs response dir
                H1 H2 H3 H4) as [_ [_ [_ [_ [_ Hs]]]]].
    fold res in Hs. rewrite Hs, andb_true_iff, Nat.ltb_lt, Nat.eqb_eq. tauto.
  - intros e H. destruct (Hfetch e H) as [? [? _]]. auto.
  - intros docs e H1 H2. destruct (Hgen docs e H1 H2) as [? [? _]]. auto.
  - intros docs response H1 H2 H3.
    destruct (Hnone docs response H1 H2 H3) as [? [? _]]. auto.
  - intros docs response e H1 H2 H3 H4.
    destruct (Hexec docs response e H1 H2 H3 H4) as [? [? _]]. auto.
  - intros docs response dir H1 H2 H3 H4.
    destruct (run_executed w work_dir verbose sources max_iterations
                stop_on_failure custom_instructions docs response dir
                H1 H2 H3 H4) as [Herr [Hn [_ [Hf [Hd Hs]]]]].
    fold res in Herr, Hn, Hf, Hd, Hs.
    split; [exact Herr|]. intros j msg Hj Hmsg.
    set (executor := {| Executor.work_dir := dir;
                        Executor.verbose := verbose;
                        Executor.source_context := hd_error sources;
                        Executor.save_generated_scripts := true |}) in *.
    destruct (Executor.execute_multiple_scripts
                executor (exec_env w)
                (Parser._extract_scripts_from_response response)
                stop_on_failure Executor.initial_state) as [xs st'] eqn:Hrun.
    cbn [fst] in Hn, Hf, Hd.
    unfold Executor.execute_multiple_scripts in Hrun.
    apply execute_loop_spec in Hrun.
    2:{ simpl. rewrite extract_spec. apply NoDup_buildScriptSet. }
    destruct Hrun as [rs [_ [Hxs [_ [_ [_ [Hatt _]]]]]]].
    simpl in Hxs. rewrite Hn in Hj.
    destruct (nth_error xs j) as [[k r]|] eqn:Hx;
      [|apply nth_error_None in Hx; lia].
    assert (Hr : r = (false, ""%string, Executor.failure_message msg)).
    { rewrite Hxs in Hx. apply nth_error_combine in Hx. destruct Hx as [_ Hx].
      rewrite (Hatt j r Hx). simpl. now rewrite Hmsg. }
    subst r. split.
    + assert (Hpos : 0 < scripts_failed res).
      { rewrite Hf.
        apply (filter_length_pos _ xs (k, (false, ""%string, Executor.failure_message msg)));
          [eapply nth_error_In; exact Hx | reflexivity]. }
      rewrite Hs. destruct (scripts_failed res); [lia|].
      simpl. apply andb_false_r.
    + eexists. split; [rewrite Hd; apply map_nth_error; exact Hx|].
      repeat split.
Qed.

Lemma result_success_witness :
  let res := test_documentation world_spawn_failure None false
                                ["docs/README.md"%string] 3 false None in
  error res = None /\ success res = false.
Proof.
  cbv zeta.
  destruct (result_success world_spawn_failure None false
              ["docs/README.md"%string] 3 false None)
    as [_ [_ [_ [_ [_ H]]]]].
  destruct (H [("docs/README.md", "Run the installer.")]%string
              (fenced "bash" echo_a) "/tmp/doc_tester_w"%string)
    as [Herr Hspawn].
  - reflexivity.
  - reflexivity.
  - vm_compute. discriminate.
  - reflexivity.
  - split; [exact Herr|].
    destruct (Hspawn 0 "[Errno 2] No such file or directory: '/bin/bash'"%string)
      as [Hs _]; [vm_compute; lia | reflexivity | exact Hs].
Defined.

(** C10. In every result of the orchestrator, [scripts_passed] and
    [scripts_failed] add up to [scripts_executed], [scripts_executed] is
    the length of [details], and the stdout and stderr of every detail
    have at most 1000 characters. *)
Theorem result_counts :
  forall (w : World) (work_dir : option string) (verbose : bool)
         (sources : list string) (max_iterations : nat)
         (stop_on_failure : bool) (custom_instructions : option string),
    let res := test_documentation w work_dir verbose sources max_iterations
                                  stop_on_failure custom_instructions in
    scripts_passed res + scripts_failed res = scripts_executed res
    /\ scripts_executed res = List.length (details res)
    /\ Forall (fun d => String.length (stdout d) <= 1000
                        /\ String.length (stderr d) <= 1000)
              (details res).
Proof.
  intros w work_dir verbose sources max_iterations stop_on_failure
         custom_instructions res.
  destruct (fetch_multiple w sources) as [e|docs] eqn:H1.
  { subst res. rewrite (run_fetch_failed _ _ _ _ _ _ _ _ H1).
    repeat split. constructor. }
  destruct (send_message w docs custom_instructions) as [e|response] eqn:H2.
  { subst res. rewrite (run_generation_failed _ _ _ _ _ _ _ _ _ H1 H2).
    repeat split. constructor. }
  destruct (Parser._extract_scripts_from_response response) as [|kv l] eqn:H3.
  { subst res. rewrite (run_no_scripts _ _ _ _ _ _ _ _ _ H1 H2 H3).
    repeat split. constructor. }
  assert (H3' : Parser._extract_scripts_from_response response <> [])
    by (rewrite H3; discriminate).
  destruct (make_work_dir w work_dir) as [e|dir] eqn:H4.
  { subst res. rewrite (run_executor_failed _ _ _ _ _ _ _ _ _ _ H1 H2 H3' H4).
    repeat split. constructor. }
  destruct (run_executed w work_dir verbose sources max_iterations
              stop_on_failure custom_instructions docs response dir
              H1 H2 H3' H4) as [_ [Hn [Hp [Hf [Hd _]]]]].
  fold res in Hn, Hp, Hf, Hd.
  rewrite Hn, Hp, Hf, Hd, length_map, filter_partition_length.
  repeat split. apply Forall_forall. intros d Hin.
  apply in_map_iff in Hin. destruct Hin as [x [<- _]].
  apply detail_of_short.
Qed.

End OrchestratorClaims.

(* ================================================================== *)
(** * Further properties of the parser *)

Section ParserMore.
Import PyStr Parser Examples.
Local Open Scope string_scope.

Lemma contains_tail_false (n : string) (c : ascii) (s : string) :
  contains n (String c s) = false -> contains n s = false.
Proof.
  cbn [contains]. intros H. now apply orb_false_iff in H.
Qed.

Lemma contains_prefix_false (n s : string) :
  contains n s = false -> prefix n s = false.
Proof.
  intros H. destruct (prefix n s) eqn:Hp; [|reflexivity].
  apply contains_here in Hp. congruence.
Qed.

Lemma match_here_needs_fence (s : string) :
  prefix fence s = false -> match_here s = None.
Proof. unfold match_here. now intros ->. Qed.

Lemma findall_no_fence (s : string) :
  contains fence s = false -> findall s = [].
Proof.
  induction s as [|c s IH]; intros H; rewrite findall_unfold;
    rewrite (match_here_needs_fence _ (contains_prefix_false _ _ H));
    [reflexivity|].
  apply IH. eapply contains_tail_false. exact H.
Qed.

(** X1. A response in which no fence occurs, the empty response among
    them, has no candidate, and the parser returns the empty set. *)
Theorem no_fence_no_scripts :
  forall response : string,
    contains "```" response = false ->
    extractCandidates response = []
    /\ _extract_scripts_from_response response = [].
Proof.
  intros response H. apply findall_no_fence in H.
  unfold extractCandidates, _extract_scripts_from_response. rewrite H.
  split; reflexivity.
Qed.

Lemma no_fence_no_scripts_witness :
  _extract_scripts_from_response "" = []
  /\ _extract_scripts_from_response "Install it with `pip install x`." = [].
Proof.
  split.
  - apply (no_fence_no_scripts ""). reflexivity.
  - apply (no_fence_no_scripts "Install it with `pip install x`.").
    vm_compute. reflexivity.
Defined.

(** *** What a match is *)

Lemma prefix_append_l (p a b : string) :
  prefix p a = true -> prefix p (a ++ b) = true.
Proof.
  intros H. apply prefix_inv in H. destruct H as [r ->].
  rewrite string_app_assoc. apply prefix_append.
Qed.

Lemma until_fence_split (s : string) : forall body rest,
  until_fence s = Some (body, rest) -> s = body ++ fence ++ rest.
Proof.
  induction s as [|c s IH]; intros body rest H.
  - simpl in H. discriminate.
  - cbn [until_fence] in H.
    destruct (prefix fence (String c s)) eqn:Hp.
    + apply prefix_inv in Hp. destruct Hp as [r Hr]. rewrite Hr in H |- *.
      change (drop 3 (fence ++ r)) with r in H. now injection H as <- <-.
    + destruct (until_fence s) as [[b r]|] eqn:Hu; [|discriminate].
      injection H as <- <-. simpl. f_equal. now apply IH.
Qed.

(** The lazy group stops at the first fence: it holds none. *)
Lemma until_fence_no_fence (s : string) : forall body rest,
  until_fence s = Some (body, rest) -> contains fence body = false.
Proof.
  induction s as [|c s IH]; intros body rest H.
  - simpl in H. discriminate.
  - pose proof (until_fence_split _ _ _ H) as Hs.
    cbn [until_fence] in H.
    destruct (prefix fence (String c s)) eqn:Hp.
    + injection H as <- _. reflexivity.
    + destruct (until_fence s) as [[b r]|] eqn:Hu; [|discriminate].
      injection H as <- <-. cbn [contains].
      rewrite (IH _ _ eq_refl), orb_false_r.
      destruct (prefix fence (String c b)) eqn:Hpb; [|reflexivity].
      apply (prefix_append_l _ _ (fence ++ r)) in Hpb.
      rewrite <- Hs in Hpb. congruence.
Qed.

Lemma span_word_split (s : string) : forall w r,
  span_word s = (w, r) -> s = w ++ r /\ all_chars is_word w = true.
Proof.
  induction s as [|c s IH]; intros w r H; simpl in H.
  - injection H as <- <-. split; reflexivity.
  - destruct (is_word c) eqn:Hc.
    + destruct (span_word s) as [w' r'] eqn:Hs. injection H as <- <-.
      destruct (IH _ _ eq_refl) as [-> Hw]. split; [reflexivity|].
      simpl. now rewrite Hc.
    + injection H as <- <-. split; reflexivity.
Qed.

(** A match is a fence, a language made of word characters, a line feed,
    a body without fence, and a fence. *)
Lemma match_here_sound (s language body rest : string) :
  match_here s = Some (language, body, rest) ->
  s = fence ++ language ++ nl ++ body ++ fence ++ rest
  /\ language <> ""
  /\ all_chars is_word language = true
  /\ contains fence body = false.
Proof.
  unfold match_here. destruct (prefix fence s) eqn:Hp; [|discriminate].
  apply prefix_inv in Hp. destruct Hp as [t ->].
  replace (drop 3 (fence ++ t)) with t by reflexivity.
  destruct (span_word t) as [w r] eqn:Hw.
  apply span_word_split in Hw. destruct Hw as [-> Hw].
  destruct w as [|a w]; [discriminate|]. destruct r as [|c r]; [discriminate|].
  destruct (c =? newline)%char eqn:Hc; [|discriminate].
  apply Ascii.eqb_eq in Hc. subst c.
  destruct (until_fence r) as [[b r']|] eqn:Hu; [|discriminate].
  intros H. injection H as <- <- <-.
  rewrite (until_fence_split _ _ _ Hu).
  split; [reflexivity|]. split; [discriminate|]. split; [exact Hw|].
  eapply until_fence_no_fence. exact Hu.
Qed.

Lemma findall_from_sound (fuel : nat) : forall s language body,
  In (language, body) (findall_from fuel s) ->
  language <> ""
  /\ all_chars is_word language = true
  /\ contains fence body = false
  /\ contains (fence ++ language ++ nl ++ body ++ fence) s = true.
Proof.
  induction fuel as [|fuel IH]; intros s language body Hin; [contradiction|].
  cbn [findall_from] in Hin.
  destruct (match_here s) as [[[l b] rest]|] eqn:Hm.
  - apply match_here_sound in Hm. destruct Hm as [Hs [Hl [Hw Hb]]].
    destruct Hin as [Heq|Hin].
    + injection Heq as <- <-. repeat split; auto.
      apply contains_here. rewrite Hs.
      replace (fence ++ l ++ nl ++ b ++ fence ++ rest)
        with ((fence ++ l ++ nl ++ b ++ fence) ++ rest)
        by (now rewrite !string_app_assoc).
      apply prefix_append.
    + apply IH in Hin. destruct Hin as [H1 [H2 [H3 H4]]].
      repeat split; auto. rewrite Hs.
      replace (fence ++ l ++ nl ++ b ++ fence ++ rest)
        with ((fence ++ l ++ nl ++ b ++ fence) ++ rest)
        by (now rewrite !string_app_assoc).
      now apply contains_append_r.
  - destruct s as [|c s]; [contradiction|].
    apply IH in Hin. destruct Hin as [H1 [H2 [H3 H4]]].
    repeat split; auto. now apply contains_later.
Qed.

(** X2. Every candidate stands in the response as a fenced block: its
    language is a non-empty run of word characters, its content holds no
    fence, and fence, language, line feed, content, fence occur in the
    response one after the other. A fence without a language therefore
    opens no candidate. *)
Theorem candidates_are_fenced_blocks :
  forall (response : string) (c : ScriptCandidate),
    In c (extractCandidates response) ->
    declaredLanguage c <> ""
    /\ all_chars is_word (declaredLanguage c) = true
    /\ contains "```" (rawContent c) = false
    /\ contains ("```" ++ declaredLanguage c ++ nl ++ rawContent c ++ "```")
                response = true.
Proof.
  intros response c Hin. apply In_enumerate in Hin.
  destruct Hin as [n [_ Hn]]. apply nth_error_In in Hn.
  exact (findall_from_sound _ _ _ _ Hn).
Qed.

Lemma candidates_are_fenced_blocks_witness :
  contains ("```" ++ "PY" ++ nl ++ ("print(1)" ++ nl) ++ "```") response_gap = true.
Proof.
  apply (candidates_are_fenced_blocks response_gap
           (candidate 2 "PY" ("print(1)" ++ nl))).
  vm_compute. tauto.
Defined.

End ParserMore.

Section ParserRoundTrip.
Import PyStr Parser Examples.
Local Open Scope string_scope.

Lemma prefix_short (p : string) : forall a b,
  String.length p <= String.length a -> prefix p (a ++ b) = prefix p a.
Proof.
  induction p as [|c p IH]; intros a b H.
  - now destruct a, b.
  - destruct a as [|c' a]; simpl in H; [lia|].
    simpl. destruct (ascii_dec c c'); [|reflexivity]. apply IH. lia.
Qed.

(** The lazy group reaches the closing fence when no fence starts inside
    the body, the first two characters of the closing fence included. *)
Lemma until_fence_body (body : string) : forall rest,
  contains fence (body ++ "``") = false ->
  until_fence (body ++ fence ++ rest) = Some (body, rest).
Proof.
  induction body as [|c body IH]; intros rest H.
  - change ("" ++ fence ++ rest)
      with (String "`" (String "`" (String "`" rest))).
    cbn [until_fence].
    change (String "`" (String "`" (String "`" rest))) with (fence ++ rest).
    now rewrite prefix_append.
  - change ((String c body) ++ fence ++ rest)
      with (String c (body ++ fence ++ rest)).
    cbn [until_fence].
    assert (Hp : prefix fence (String c (body ++ fence ++ rest)) = false).
    { apply contains_prefix_false in H.
      replace (String c (body ++ fence ++ rest))
        with ((String c body ++ "``") ++ "`" ++ rest).
      - rewrite prefix_short; [exact H|].
        rewrite string_length_append. simpl. lia.
      - rewrite string_app_assoc. reflexivity. }
    rewrite Hp, (IH rest); [reflexivity|].
    eapply contains_tail_false. exact H.
Qed.

Lemma span_word_language (language : string) : forall rest,
  all_chars is_word language = true ->
  span_word (language ++ nl ++ rest) = (language, nl ++ rest).
Proof.
  induction language as [|c l IH]; intros rest H.
  - reflexivity.
  - simpl in H. apply andb_true_iff in H. destruct H as [Hc Hl].
    simpl. rewrite Hc. change (l ++ String newline rest) with (l ++ nl ++ rest).
    now rewrite (IH rest Hl).
Qed.

(** X3. Reading back a fenced block: a fence, a non-empty language of word
    characters, a line feed, a body in which no fence starts, and the
    closing fence are found by the scan as one match with that language and
    that body, and the scan goes on behind the closing fence. *)
Theorem findall_fenced_block :
  forall language body rest : string,
    language <> "" ->
    all_chars is_word language = true ->
    contains "```" (body ++ "``") = false ->
    findall ("```" ++ language ++ nl ++ body ++ "```" ++ rest)
    = (language, body) :: findall rest.
Proof.
  intros language body rest Hne Hw Hb. rewrite findall_unfold.
  assert (Hm : match_here (fence ++ language ++ nl ++ body ++ fence ++ rest)
               = Some (language, body, rest)).
  { unfold match_here. rewrite prefix_append.
    replace (drop 3 (fence ++ language ++ nl ++ body ++ fence ++ rest))
      with (language ++ nl ++ body ++ fence ++ rest) by reflexivity.
    rewrite (span_word_language language _ Hw).
    destruct language as [|a l]; [contradiction|].
    cbn [nl append]. rewrite Ascii.eqb_refl.
    now rewrite (until_fence_body body rest Hb). }
  change ("```" ++ language ++ nl ++ body ++ "```" ++ rest)
    with (fence ++ language ++ nl ++ body ++ fence ++ rest).
  now rewrite Hm.
Qed.

Lemma findall_fenced_block_witness :
  findall ("```" ++ "bash" ++ nl ++ echo_a ++ "```" ++ "") = [("bash", echo_a)].
Proof.
  rewrite (findall_fenced_block "bash" echo_a "").
  - reflexivity.
  - discriminate.
  - reflexivity.
  - vm_compute. reflexivity.
Defined.

End ParserRoundTrip.

Section EntryFacts.
Import PyStr Parser Examples.
Local Open Scope string_scope.

Lemma lower_char_idempotent (c : ascii) : lower_char (lower_char c) = lower_char c.
Proof. destruct c as [[] [] [] [] [] [] [] []]; reflexivity. Qed.

Lemma lower_idempotent (s : string) : lower (lower s) = lower s.
Proof.
  induction s as [|c s IH]; simpl; [reflexivity|].
  now rewrite lower_char_idempotent, IH.
Qed.

(** X4. The type of every entry of the set is lower-case, is none of the
    non-executable formats, and is none of the synonyms sh, shell, py,
    python3, which have been replaced by bash and python. *)
Theorem entry_types :
  forall (response name : string) (data : script_data),
    In (name, data) (_extract_scripts_from_response response) ->
    lower (type data) = type data
    /\ ~ In (type data) non_executable
    /\ ~ In (type data) ["sh"; "shell"; "py"; "python3"].
Proof.
  intros response name data Hin. rewrite extract_spec in Hin.
  apply In_buildScriptSet in Hin. destruct Hin as [c [_ [Heq Hcl]]].
  unfold entry in Heq. injection Heq as _ ->. cbn [type].
  unfold normalizedType.
  assert (Hden : in_list (lower (declaredLanguage c)) non_executable = false).
  { unfold classify in Hcl. destruct (in_list _ non_executable); [|reflexivity].
    destruct Hcl; discriminate. }
  pose proof (lower_idempotent (declaredLanguage c)) as Hlow.
  set (t := lower (declaredLanguage c)) in *.
  unfold normalize.
  destruct (in_list t ["sh"; "shell"; "bash"]) eqn:A.
  { split; [reflexivity|]. split; simpl; intuition discriminate. }
  destruct (in_list t ["py"; "python3"]) eqn:B.
  { split; [reflexivity|]. split; simpl; intuition discriminate. }
  split; [exact Hlow|]. split; [now apply in_list_false_iff|].
  apply in_list_false_iff in A. apply in_list_false_iff in B.
  simpl in *. intuition.
Qed.

Lemma entry_types_witness :
  lower "python" = "python"
  /\ ~ In "python" non_executable
  /\ ~ In "python" ["sh"; "shell"; "py"; "python3"].
Proof.
  apply (entry_types response_gap "script_3_python"
                     {| content := "print(1)"; type := "python" |}).
  vm_compute. tauto.
Defined.

(** *** Trimming *)

Lemma lstrip_by_head (p : ascii -> bool) (s : string) :
  lstrip_by p s = "" \/ exists c r, lstrip_by p s = String c r /\ p c = false.
Proof.
  induction s as [|c s IH]; simpl; [now left|].
  destruct (p c) eqn:Hc; [exact IH|]. right. eauto.
Qed.

Lemma rstrip_by_cons (p : ascii -> bool) (c : ascii) (s : string) :
  p c = false -> rstrip_by p (String c s) = String c (rstrip_by p s).
Proof.
  intros Hc. simpl. destruct (rstrip_by p s); [now rewrite Hc | reflexivity].
Qed.

Lemma rstrip_by_idempotent (p : ascii -> bool) (s : string) :
  rstrip_by p (rstrip_by p s) = rstrip_by p s.
Proof.
  induction s as [|c s IH]; [reflexivity|].
  cbn [rstrip_by]. destruct (rstrip_by p s) as [|c' r] eqn:Hr.
  - destruct (p c) eqn:Hc; [reflexivity|]. simpl. now rewrite Hc.
  - cbn [rstrip_by]. cbn [rstrip_by] in IH. now rewrite IH.
Qed.

(** A trimmed string has nothing left to trim, on either side. *)
Lemma strip_by_fixed (p : ascii -> bool) (s : string) :
  lstrip_by p (strip_by p s) = strip_by p s
  /\ rstrip_by p (strip_by p s) = strip_by p s.
Proof.
  unfold strip_by. split; [|apply rstrip_by_idempotent].
  destruct (lstrip_by_head p s) as [->|[c [r [-> Hc]]]]; [reflexivity|].
  rewrite (rstrip_by_cons p c r Hc). simpl. now rewrite Hc.
Qed.

(** X5. The content stored in every entry is trimmed: removing white
    space at its start or at its end changes nothing, so trimming it again
    gives the same content. *)
Theorem entry_content_trimmed :
  forall (response name : string) (data : script_data),
    In (name, data) (_extract_scripts_from_response response) ->
    lstrip_by is_space (content data) = content data
    /\ rstrip_by is_space (content data) = content data
    /\ strip (content data) = content data.
Proof.
  intros response name data Hin. rewrite extract_spec in Hin.
  apply In_buildScriptSet in Hin. destruct Hin as [c [_ [Heq _]]].
  unfold entry in Heq. injection Heq as _ ->. cbn [content].
  destruct (strip_by_fixed is_space (rawContent c)) as [Hl Hr].
  fold (strip (rawContent c)) in Hl, Hr. split; [exact Hl|]. split; [exact Hr|].
  unfold strip at 1, strip_by. fold (strip (rawContent c)). now rewrite Hl, Hr.
Qed.

Lemma entry_content_trimmed_witness : strip "print(1)" = "print(1)".
Proof.
  apply (entry_content_trimmed response_gap "script_3_python"
                               {| content := "print(1)"; type := "python" |}).
  vm_compute. tauto.
Defined.

(** X6. A comment line put in front of a content, a shebang for instance,
    does not change the verdict of [_is_runner_script]; nor does a blank
    line. *)
Theorem runner_verdict_ignores_comment_line :
  forall line content : string,
    all_chars (fun c => negb (c =? newline)%char) line = true ->
    strip line = "" \/ startswith "#" (strip line) = true ->
    _is_runner_script (line ++ nl ++ content) = _is_runner_script content.
Proof.
  intros line content Hline Hc.
  assert (Hs : substantive_lines (line ++ nl ++ content) = substantive_lines content).
  { change (line ++ nl ++ content) with (line ++ String newline content).
    rewrite (substantive_lines_cons_newline line content Hline).
    unfold substantive_lines at 1. rewrite (split_one_line line Hline).
    cbn [map filter]. destruct Hc as [->|Hc]; [reflexivity|].
    unfold startswith in *. rewrite Hc, andb_false_r. reflexivity. }
  unfold _is_runner_script. now rewrite !actual_lines_substantive, Hs.
Qed.

Lemma runner_verdict_ignores_comment_line_witness :
  _is_runner_script ("#!/bin/bash" ++ nl ++ runner_body) = true.
Proof.
  rewrite (runner_verdict_ignores_comment_line "#!/bin/bash" runner_body).
  - vm_compute. reflexivity.
  - reflexivity.
  - right. vm_compute. reflexivity.
Defined.

End EntryFacts.

(* ================================================================== *)
(** * Further properties of the executor *)

Section ExecutorMore.
Import PyStr Executor Examples.

(** X7. When [stop_on_failure] is off, or when no result is a failure,
    [execute_multiple_scripts] has run every script: the results carry the
    names of all the scripts in their order, and [execute_script] was
    called once per script, in order, with the indices 0, 1, 2, ... *)
Theorem all_scripts_run :
  forall (self : ScriptExecutor) (e : Env)
         (scripts : PyDict.dict Parser.script_data) (stop_on_failure : bool)
         (st : State) (results : PyDict.dict Result) (st' : State),
    NoDup (PyDict.keys scripts) ->
    execute_multiple_scripts self e scripts stop_on_failure st = (results, st') ->
    stop_on_failure = false
    \/ (forall name r, In (name, r) results -> success_of r = true) ->
    PyDict.keys results = PyDict.keys scripts
    /\ calls st'
       = calls st
         ++ combine (seq 0 (List.length scripts))
                    (map (fun kv => Parser.content (snd kv)) scripts).
Proof.
  intros self e scripts stop st results st' Hnd Hrun Hall.
  unfold execute_multiple_scripts in Hrun.
  apply execute_loop_spec in Hrun; [|exact Hnd].
  destruct Hrun as [rs [Hlen [Hres [Hcalls [_ [Hstop _]]]]]].
  simpl in Hres. subst results.
  assert (Hfull : List.length rs = List.length scripts).
  { destruct (Nat.eq_dec (List.length rs) (List.length scripts)) as [|Hne];
      [assumption|].
    destruct Hstop as [Hs [r [Hr [_ Hf]]]]; [lia|].
    destruct Hall as [Hall|Hall]; [congruence|].
    assert (Hk : exists k, nth_error (PyDict.keys scripts) (List.length rs - 1) = Some k).
    { destruct (nth_error (PyDict.keys scripts) (List.length rs - 1)) eqn:Hn; [eauto|].
      apply nth_error_None in Hn. unfold PyDict.keys in Hn.
      rewrite length_map in Hn.
      assert (List.length rs - 1 < List.length rs)
        by (apply nth_error_Some; rewrite Hr; discriminate).
      lia. }
    destruct Hk as [k Hk].
    assert (Hin : In (k, r) (combine (PyDict.keys scripts) rs)).
    { apply (nth_error_In _ (List.length rs - 1)).
      clear - Hk Hr. revert Hk Hr. generalize (List.length rs - 1) as n.
      generalize (PyDict.keys scripts) as ks. revert rs.
      induction rs as [|r0 rs IH]; intros ks n Hk Hr; [destruct n; discriminate|].
      destruct ks as [|k0 ks]; [destruct n; discriminate|].
      destruct n as [|n]; simpl in *.
      - now injection Hk as ->; injection Hr as ->.
      - now apply IH. }
    rewrite (Hall k r Hin) in Hf. discriminate. }
  split.
  - rewrite keys_combine.
    + rewrite Hfull. unfold PyDict.keys.
      rewrite <- (length_map fst scripts). apply firstn_all.
    + unfold PyDict.keys. rewrite length_map. lia.
  - now rewrite Hcalls, Hfull.
Qed.

Lemma all_scripts_run_witness :
  PyDict.keys (fst (execute_multiple_scripts executor_readme env_second_fails
                                             three_scripts false initial_state))
  = ["script_1_bash"; "script_2_bash"; "script_3_bash"]%string.
Proof.
  refine (proj1 (all_scripts_run executor_readme env_second_fails three_scripts
                   false initial_state
                   (fst (execute_multiple_scripts executor_readme env_second_fails
                                                  three_scripts false initial_state))
                   (snd (execute_multiple_scripts executor_readme env_second_fails
                                                  three_scripts false initial_state))
                   _ _ _)).
  - unfold three_scripts. simpl.
    repeat (apply NoDup_cons; [simpl; intuition discriminate|]). apply NoDup_nil.
  - vm_compute. reflexivity.
  - now left.
Defined.

(** X8. The result at position [j] belongs to the script at position [j]
    of the set and is the report of the [j]-th run started by this call,
    made with the default timeout of 600 seconds. *)
Theorem results_follow_runs :
  forall (self : ScriptExecutor) (e : Env)
         (scripts : PyDict.dict Parser.script_data) (stop_on_failure : bool)
         (st : State) (results : PyDict.dict Result) (st' : State)
         (j : nat) (name : string) (r : Result),
    NoDup (PyDict.keys scripts) ->
    execute_multiple_scripts self e scripts stop_on_failure st = (results, st') ->
    nth_error results j = Some (name, r) ->
    nth_error (PyDict.keys scripts) j = Some name
    /\ r = result_of 600 (attempt e (List.length (calls st) + j)).
Proof.
  intros self e scripts stop st results st' j name r Hnd Hrun Hj.
  unfold execute_multiple_scripts in Hrun.
  apply execute_loop_spec in Hrun; [|exact Hnd].
  destruct Hrun as [rs [_ [Hres [_ [_ [_ [Hatt _]]]]]]].
  simpl in Hres. subst results.
  apply nth_error_combine in Hj. destruct Hj as [Hk Hr].
  split; [exact Hk | now apply Hatt].
Qed.

Lemma results_follow_runs_witness :
  (false, ""%string, "boom"%string)
  = result_of 600 (attempt env_second_fails (0 + 1)).
Proof.
  refine (proj2 (results_follow_runs executor_readme env_second_fails three_scripts
                   true initial_state
                   (fst (execute_multiple_scripts executor_readme env_second_fails
                                                  three_scripts true initial_state))
                   (snd (execute_multiple_scripts executor_readme env_second_fails
                                                  three_scripts true initial_state))
                   1 "script_2_bash"%string (false, ""%string, "boom"%string)
                   _ _ _)).
  - unfold three_scripts. simpl.
    repeat (apply NoDup_cons; [simpl; intuition discriminate|]). apply NoDup_nil.
  - vm_compute. reflexivity.
  - vm_compute. reflexivity.
Defined.

End ExecutorMore.

Section FilenameMore.
Import PyStr Executor Examples.
Local Open Scope string_scope.

Lemma execute_script_unsaved self e script_content script_type timeout idx st :
  save_generated_scripts self = false ->
  generated_script_paths
    (snd (execute_script self e script_content script_type timeout idx st))
  = generated_script_paths st
  /\ drawn (snd (execute_script self e script_content script_type timeout idx st))
     = drawn st.
Proof.
  intros H. unfold execute_script. rewrite H.
  destruct (attempt e _); split; reflexivity.
Qed.

Lemma execute_loop_unsaved self e stop (items : list (string * Parser.script_data)) :
  save_generated_scripts self = false ->
  forall idx results st results' st',
    execute_loop self e stop items idx results st = (results', st') ->
    generated_script_paths st' = generated_script_paths st /\ drawn st' = drawn st.
Proof.
  intros Hsave.
  induction items as [|[nm info] items IH]; intros idx results st results' st' H.
  - simpl in H. injection H as _ <-. split; reflexivity.
  - cbn [execute_loop] in H.
    pose proof (execute_script_unsaved self e (Parser.content info)
                  (Parser.type info) 600 idx st Hsave) as [Hp Hd].
    destruct (execute_script self e (Parser.content info) (Parser.type info) 600 idx st)
      as [r st1]. cbn [snd] in Hp, Hd.
    destruct (negb (success_of r) && stop).
    + injection H as _ <-. split; assumption.
    + apply IH in H. destruct H as [H1 H2]. split; congruence.
Qed.

(** X9. With [save_generated_scripts] off, [execute_multiple_scripts]
    records no script path and draws no random suffix. *)
Theorem unsaved_scripts_leave_no_path :
  forall (self : ScriptExecutor) (e : Env)
         (scripts : PyDict.dict Parser.script_data) (stop_on_failure : bool)
         (st : State) (results : PyDict.dict Result) (st' : State),
    save_generated_scripts self = false ->
    execute_multiple_scripts self e scripts stop_on_failure st = (results, st') ->
    generated_script_paths st' = generated_script_paths st
    /\ drawn st' = drawn st.
Proof.
  intros self e scripts stop st results st' Hsave Hrun.
  exact (execute_loop_unsaved self e stop scripts Hsave _ _ _ _ _ Hrun).
Qed.

Lemma unsaved_scripts_leave_no_path_witness :
  generated_script_paths
    (snd (execute_multiple_scripts
            {| work_dir := "/tmp/w"; verbose := false;
               source_context := None; save_generated_scripts := false |}
            env_second_fails three_scripts false initial_state)) = [].
Proof.
  refine (proj1 (unsaved_scripts_leave_no_path
                   {| work_dir := "/tmp/w"; verbose := false;
                      source_context := None; save_generated_scripts := false |}
                   env_second_fails three_scripts false
                   initial_state
                   (fst (execute_multiple_scripts
                           {| work_dir := "/tmp/w"; verbose := false;
                              source_context := None;
                              save_generated_scripts := false |}
                           env_second_fails three_scripts false initial_state))
                   _ _ _)).
  - reflexivity.
  - vm_compute. reflexivity.
Defined.

(** *** Names that pass unchanged *)

Lemma re_sub_safe (s : string) :
  all_chars filename_safe s = true -> re_sub_unsafe s = s.
Proof.
  unfold re_sub_unsafe. induction s as [|c s IH]; simpl; intros H; [reflexivity|].
  apply andb_true_iff in H. destruct H as [Hc Hs]. now rewrite Hc, IH.
Qed.

Lemma lstrip_by_char_fixed (c : ascii) (s : string) :
  startswith (String c "") s = false ->
  lstrip_by (fun a => (a =? c)%char) s = s.
Proof.
  unfold startswith. destruct s as [|a s]; simpl; [reflexivity|].
  destruct (ascii_dec c a) as [->|Hne].
  - destruct s; discriminate.
  - intros _. destruct (Ascii.eqb_spec a c) as [->|_]; [now elim Hne | reflexivity].
Qed.

Lemma rstrip_by_char_fixed (c : ascii) (s : string) :
  endswith (String c "") s = false ->
  rstrip_by (fun a => (a =? c)%char) s = s.
Proof.
  induction s as [|a s IH]; [reflexivity|].
  cbn [endswith rstrip_by]. intros H. apply orb_false_iff in H.
  destruct H as [Heq Hend]. rewrite (IH Hend).
  destruct s as [|b s]; [|reflexivity].
  destruct (Ascii.eqb_spec a c) as [->|_]; [|reflexivity].
  now rewrite String.eqb_refl in Heq.
Qed.

(** X10. A source context of at most 50 characters, all of them word
    characters, hyphens or dots, that neither starts nor ends with an
    underscore, is the name part of the file as it stands. *)
Theorem sanitize_clean_name :
  forall ctx : string,
    all_chars filename_safe ctx = true ->
    startswith "_" ctx = false ->
    endswith "_" ctx = false ->
    String.length ctx <= 50 ->
    sanitize ctx = ctx.
Proof.
  intros ctx Hsafe Hs He Hlen. unfold sanitize, strip_by.
  rewrite (re_sub_safe ctx Hsafe).
  rewrite (lstrip_by_char_fixed "_" ctx Hs), (rstrip_by_char_fixed "_" ctx He).
  destruct (Nat.ltb_spec 50 (String.length ctx)); [lia | reflexivity].
Qed.

Lemma sanitize_clean_name_witness : sanitize "README.md" = "README.md".
Proof.
  apply sanitize_clean_name.
  - reflexivity.
  - reflexivity.
  - reflexivity.
  - simpl. lia.
Defined.

(** A decimal numeral followed by a hyphen determines the numeral. *)
Lemma string_of_uint_dash_inj (d1 : uint) :
  forall (d2 : uint) (a b : string),
    NilEmpty.string_of_uint d1 ++ String "-" a
    = NilEmpty.string_of_uint d2 ++ String "-" b ->
    d1 = d2.
Proof.
  induction d1; destruct d2; simpl; intros a b H;
    try discriminate; try reflexivity;
    injection H as H; f_equal; eauto.
Qed.

(** X11. Without a source context, the file names made for two different
    script indices differ, whatever the random suffixes and the script
    types are. *)
Theorem indexed_filenames_differ :
  forall (self : ScriptExecutor) (e1 e2 : Env) (from1 from2 : nat)
         (type1 type2 : string) (i j : nat),
    truthy (source_context self) = None ->
    i <> j ->
    _generate_script_filename self e1 from1 type1 i
    <> _generate_script_filename self e2 from2 type2 j.
Proof.
  intros self e1 e2 from1 from2 type1 type2 i j Hctx Hij.
  unfold _generate_script_filename. rewrite Hctx. intros H.
  simpl in H. injection H as H. apply Hij.
  apply Unsigned.to_uint_inj. unfold str in H.
  eapply string_of_uint_dash_inj. exact H.
Qed.

Lemma indexed_filenames_differ_witness :
  _generate_script_filename
    {| work_dir := "/tmp/w"; verbose := false;
       source_context := None; save_generated_scripts := true |}
    env_timeout 0 "bash" 1
  <> _generate_script_filename
       {| work_dir := "/tmp/w"; verbose := false;
          source_context := None; save_generated_scripts := true |}
       env_timeout 0 "bash" 12.
Proof.
  apply indexed_filenames_differ; [reflexivity | discriminate].
Defined.

End FilenameMore.

(* ================================================================== *)
(** * Further properties of the orchestrator *)

Section OrchestratorMore.
Import PyStr Orchestrator Examples.

Lemma length_combine_le {A B : Type} (l : list A) (l' : list B) :
  List.length l' <= List.length l -> List.length (combine l l') = List.length l'.
Proof. intros H. rewrite length_combine. lia. Qed.

Lemma nth_error_combine_snd {A B : Type} (l : list A) : forall (l' : list B) n b,
  List.length l' <= List.length l ->
  nth_error l' n = Some b -> exists a, nth_error (combine l l') n = Some (a, b).
Proof.
  induction l as [|x l IH]; intros [|y l'] n b Hlen Hn; simpl in *;
    try (destruct n; discriminate); try lia.
  destruct n as [|n]; simpl in *.
  - injection Hn as ->. eauto.
  - apply IH; [lia | exact Hn].
Qed.

(** A list in which every element but the last fails a test has at most
    one element that passes it. *)
Lemma filter_at_most_last {A : Type} (p : A -> bool) (l : list A) :
  (forall j x, S j < List.length l -> nth_error l j = Some x -> p x = false) ->
  List.length (filter p l) <= 1.
Proof.
  induction l as [|a l IH]; intros H; simpl; [lia|].
  destruct l as [|b l].
  - destruct (p a); simpl; lia.
  - rewrite (H 0 a); [|simpl; lia | reflexivity].
    apply IH. intros j x Hj Hx. apply (H (S j) x); [simpl in *; lia | exact Hx].
Qed.

Lemma fold_record_outcome_scripts (ys : list (string * Executor.Result)) :
  forall r : Results,
    scripts (fold_left record_outcome ys r) = scripts r
    /\ scripts_generated (fold_left record_outcome ys r) = scripts_generated r.
Proof.
  induction ys as [|[nm [[ok out] err]] ys IH]; intros r; [split; reflexivity|].
  change (fold_left record_outcome ((nm, (ok, out, err)) :: ys) r)
    with (fold_left record_outcome ys (record_outcome r (nm, (ok, out, err)))).
  destruct (IH (record_outcome r (nm, (ok, out, err)))) as [-> ->].
  split; reflexivity.
Qed.

(** The two kinds of run: one that ends on a top-level error before
    anything is executed, and one in which the executor is set up and runs
    a first segment of the generated scripts. *)
Lemma run_cases (w : World) (work_dir : option string) (verbose : bool)
      (sources : list string) (max_iterations : nat)
      (stop_on_failure : bool) (custom_instructions : option string) :
  let res := test_documentation w work_dir verbose sources max_iterations
                                stop_on_failure custom_instructions in
  (exists msg : string,
      error res = Some msg
      /\ ((exists e, msg = ("Failed to fetch documentation: " ++ e)%string)
          \/ (exists e, msg = ("Failed to generate test scripts: " ++ e)%string)
          \/ msg = "No test scripts were generated"%string
          \/ (exists e, msg = ("Failed to execute scripts: " ++ e)%string))
      /\ success res = false
      /\ scripts_executed res = 0
      /\ details res = []
      /\ scripts_generated res = List.length (scripts res))
  \/ (error res = None
      /\ scripts_generated res = List.length (scripts res)
      /\ scripts res <> []
      /\ exists rs : list Executor.Result,
          let xs := combine (PyDict.keys (scripts res)) rs in
          List.length rs <= List.length (scripts res)
          /\ rs <> []
          /\ scripts_executed res = List.length xs
          /\ scripts_passed res
             = List.length (filter (fun x => Executor.success_of (snd x)) xs)
          /\ scripts_failed res
             = List.length (filter (fun x => negb (Executor.success_of (snd x))) xs)
          /\ details res = map (fun x => detail_of (fst x) (snd x)) xs
          /\ success res
             = ((0 <? scripts_executed res)%nat && (scripts_failed res =? 0)%nat)
          /\ (stop_on_failure = true ->
              forall j r, S j < List.length rs -> nth_error rs j = Some r ->
                          Executor.success_of r = true)
          /\ (List.length rs < List.length (scripts res) ->
              stop_on_failure = true
              /\ exists r, nth_error rs (List.length rs - 1) = Some r
                           /\ Executor.success_of r = false)).
Proof.
  intros res.
  destruct (fetch_multiple w sources) as [e|docs] eqn:H1.
  { left. subst res. rewrite (run_fetch_failed _ _ _ _ _ _ _ _ H1).
    eexists. split; [reflexivity|]. split; [left; eauto|]. repeat split. }
  destruct (send_message w docs custom_instructions) as [e|response] eqn:H2.
  { left. subst res. rewrite (run_generation_failed _ _ _ _ _ _ _ _ _ H1 H2).
    eexists. split; [reflexivity|]. split; [right; left; eauto|]. repeat split. }
  destruct (Parser._extract_scripts_from_response response) as [|kv l] eqn:H3.
  { left. subst res. rewrite (run_no_scripts _ _ _ _ _ _ _ _ _ H1 H2 H3).
    eexists. split; [reflexivity|]. split; [right; right; left; reflexivity|].
    repeat split. }
  assert (H3' : Parser._extract_scripts_from_response response <> [])
    by (rewrite H3; discriminate).
  destruct (make_work_dir w work_dir) as [e|dir] eqn:H4.
  { left. subst res. rewrite (run_executor_failed _ _ _ _ _ _ _ _ _ _ H1 H2 H3' H4).
    eexists. split; [reflexivity|]. split; [right; right; right; eauto|].
    repeat split. }
  right.
  assert (Hscripts : scripts res = Parser._extract_scripts_from_response response
                     /\ scripts_generated res = List.length (scripts res)).
  { subst res. unfold test_documentation, _generate_test_scripts.
    rewrite H1, H2, H3, H4.
    destruct (Executor.execute_multiple_scripts _ _ _ _ _) as [xs st'].
    cbv beta iota zeta. unfold with_success. cbn [scripts scripts_generated].
    match goal with
    | |- context [fold_left record_outcome xs ?r] =>
        destruct (fold_record_outcome_scripts xs r) as [-> ->]
    end.
    split; reflexivity. }
  destruct (run_executed w work_dir verbose sources max_iterations
              stop_on_failure custom_instructions docs response dir
              H1 H2 H3' H4) as [Herr [Hn [Hp [Hf [Hd Hs]]]]].
  fold res in Herr, Hn, Hp, Hf, Hd, Hs.
  destruct Hscripts as [Hsc Hgen].
  split; [exact Herr|]. split; [exact Hgen|]. split; [now rewrite Hsc|].
  set (executor := {| Executor.work_dir := dir;
                      Executor.verbose := verbose;
                      Executor.source_context := hd_error sources;
                      Executor.save_generated_scripts := true |}) in *.
  destruct (Executor.execute_multiple_scripts
              executor (exec_env w)
              (Parser._extract_scripts_from_response response)
              stop_on_failure Executor.initial_state) as [xs st'] eqn:Hrun.
  cbn [fst] in Hn, Hp, Hf, Hd.
  unfold Executor.execute_multiple_scripts in Hrun.
  apply execute_loop_spec in Hrun.
  2:{ simpl. rewrite extract_spec. apply NoDup_buildScriptSet. }
  destruct Hrun as [rs [Hlen [Hxs [_ [Hall [Hlast [_ Hne]]]]]]].
  simpl in Hxs. rewrite <- Hsc in Hxs, Hlen, Hlast, Hne. subst xs.
  exists rs. cbv zeta.
  split; [exact Hlen|]. split; [apply Hne; now rewrite Hsc|].
  split; [exact Hn|]. split; [exact Hp|]. split; [exact Hf|].
  split; [exact Hd|]. split; [exact Hs|]. split; [exact Hall|].
  intros Hlt. destruct (Hlast Hlt) as [Hstop [r [Hr [_ Hfail]]]]. eauto.
Qed.

End OrchestratorMore.

Section OrchestratorExtras.
Import PyStr Orchestrator Examples.

Lemma In_combine_last {A B : Type} (l : list A) (l' : list B) (b : B) :
  List.length l' <= List.length l ->
  nth_error l' (List.length l' - 1) = Some b ->
  exists a, In (a, b) (combine l l').
Proof.
  intros Hlen Hn.
  destruct (nth_error_combine_snd l l' _ b Hlen Hn) as [a Ha].
  exists a. eapply nth_error_In. exact Ha.
Qed.

(** X12. A successful run has executed every generated script, and each
    of them passed: success implies no top-level error,
    [scripts_executed = scripts_generated = scripts_passed], and at least
    one script. *)
Theorem success_means_all_passed :
  forall (w : World) (work_dir : option string) (verbose : bool)
         (sources : list string) (max_iterations : nat)
         (stop_on_failure : bool) (custom_instructions : option string),
    let res := test_documentation w work_dir verbose sources max_iterations
                                  stop_on_failure custom_instructions in
    success res = true ->
    error res = None
    /\ 0 < scripts_generated res
    /\ scripts_executed res = scripts_generated res
    /\ scripts_passed res = scripts_generated res
    /\ Forall (fun d => passed d = true) (details res).
Proof.
  intros w work_dir verbose sources max_iterations stop_on_failure
         custom_instructions res Hsucc.
  pose proof (run_cases w work_dir verbose sources max_iterations stop_on_failure
                        custom_instructions) as Hcases.
  cbv zeta in Hcases. fold res in Hcases.
  destruct Hcases
    as [[msg [_ [_ [Hs _]]]]|[Herr [Hgen [Hne [rs Hrun]]]]]; [congruence|].
  cbv zeta in Hrun.
  destruct Hrun as [Hlen [Hrs [Hn [Hp [Hf [Hd [Hs [_ Hlast]]]]]]]].
  rewrite Hs in Hsucc. apply andb_true_iff in Hsucc.
  destruct Hsucc as [_ Hzero]. apply Nat.eqb_eq in Hzero.
  set (xs := combine (PyDict.keys (scripts res)) rs) in *.
  assert (Hkeys : List.length rs <= List.length (PyDict.keys (scripts res))).
  { unfold PyDict.keys. now rewrite length_map. }
  assert (Hnofail : forall x, In x xs -> Executor.success_of (snd x) = true).
  { intros x Hx. destruct (Executor.success_of (snd x)) eqn:Hsx; [reflexivity|].
    assert (0 < List.length (filter (fun x => negb (Executor.success_of (snd x))) xs)).
    { apply (filter_length_pos _ xs x Hx). now rewrite Hsx. }
    lia. }
  assert (Hfull : List.length rs = List.length (scripts res)).
  { destruct (Nat.eq_dec (List.length rs) (List.length (scripts res))) as [|Hneq];
      [assumption|].
    destruct Hlast as [_ [r [Hr Hfail]]]; [lia|].
    destruct (In_combine_last (PyDict.keys (scripts res)) rs r Hkeys Hr) as [k Hk].
    specialize (Hnofail (k, r) Hk). simpl in Hnofail. congruence. }
  assert (Hxs : List.length xs = List.length (scripts res)).
  { unfold xs. rewrite length_combine_le; assumption. }
  split; [exact Herr|]. split.
  { rewrite Hgen. destruct (scripts res); [contradiction | simpl; lia]. }
  split; [congruence|]. split.
  - pose proof (filter_partition_length
                  (fun x : string * Executor.Result => Executor.success_of (snd x)) xs).
    lia.
  - rewrite Hd. apply Forall_forall. intros d Hin.
    apply in_map_iff in Hin. destruct Hin as [[k [[ok out] err]] [<- Hx]].
    apply Hnofail in Hx. exact Hx.
Qed.

Lemma success_means_all_passed_witness :
  let res := test_documentation world_all_pass None false
                                ["docs/README.md"%string] 3 true None in
  scripts_executed res = 3 /\ scripts_passed res = scripts_generated res.
Proof.
  cbv zeta.
  destruct (success_means_all_passed world_all_pass None false
              ["docs/README.md"%string] 3 true None)
    as [_ [_ [He [Hp _]]]].
  - vm_compute. reflexivity.
  - split; [rewrite He; vm_compute; reflexivity | exact Hp].
Defined.

(** X13. A run that ends on a top-level error has executed nothing: no
    script is counted as executed, the details are empty, success is false,
    and the error is one of the four messages of the stages. *)
Theorem error_means_nothing_executed :
  forall (w : World) (work_dir : option string) (verbose : bool)
         (sources : list string) (max_iterations : nat)
         (stop_on_failure : bool) (custom_instructions : option string)
         (msg : string),
    let res := test_documentation w work_dir verbose sources max_iterations
                                  stop_on_failure custom_instructions in
    error res = Some msg ->
    scripts_executed res = 0
    /\ details res = []
    /\ success res = false
    /\ ((exists e, msg = ("Failed to fetch documentation: " ++ e)%string)
        \/ (exists e, msg = ("Failed to generate test scripts: " ++ e)%string)
        \/ msg = "No test scripts were generated"%string
        \/ (exists e, msg = ("Failed to execute scripts: " ++ e)%string)).
Proof.
  intros w work_dir verbose sources max_iterations stop_on_failure
         custom_instructions msg res Herr.
  pose proof (run_cases w work_dir verbose sources max_iterations stop_on_failure
                        custom_instructions) as Hcases.
  cbv zeta in Hcases. fold res in Hcases.
  destruct Hcases
    as [[m [Hm [Hkind [Hs [Hn [Hd _]]]]]]|[Hnone _]]; [|congruence].
  assert (m = msg) by congruence. subst m. auto.
Qed.

Lemma error_means_nothing_executed_witness :
  details (test_documentation world_fetch_fails None false
                              ["docs/README.md"%string] 3 false None) = [].
Proof.
  destruct (error_means_nothing_executed world_fetch_fails None false
              ["docs/README.md"%string] 3 false None
              "Failed to fetch documentation: Path does not exist: docs/README.md"%string)
    as [_ [Hd _]].
  - vm_compute. reflexivity.
  - exact Hd.
Defined.

(** X14. With [stop_on_failure] set, a run reports at most one failed
    script, and every detail but the last is a pass. *)
Theorem stop_on_failure_single_failure :
  forall (w : World) (work_dir : option string) (verbose : bool)
         (sources : list string) (max_iterations : nat)
         (custom_instructions : option string),
    let res := test_documentation w work_dir verbose sources max_iterations
                                  true custom_instructions in
    scripts_failed res <= 1
    /\ (forall (j : nat) (d : Detail),
           S j < List.length (details res) ->
           nth_error (details res) j = Some d -> passed d = true).
Proof.
  intros w work_dir verbose sources max_iterations custom_instructions res.
  pose proof (run_cases w work_dir verbose sources max_iterations true
                        custom_instructions) as Hcases.
  cbv zeta in Hcases. fold res in Hcases.
  destruct Hcases
    as [[msg [Hm [_ [_ [Hn [Hd _]]]]]]|[_ [_ [_ [rs Hrun]]]]].
  - assert (Hz : scripts_failed res = 0).
    { pose proof (result_counts w work_dir verbose sources max_iterations true
                                custom_instructions) as [Hc _].
      fold res in Hc. lia. }
    split; [lia|]. rewrite Hd. intros j d Hj. simpl in Hj. lia.
  - cbv zeta in Hrun.
    destruct Hrun as [Hlen [_ [_ [_ [Hf [Hd [_ [Hall _]]]]]]]].
    specialize (Hall eq_refl).
    set (xs := combine (PyDict.keys (scripts res)) rs) in *.
    assert (Hkeys : List.length rs <= List.length (PyDict.keys (scripts res))).
    { unfold PyDict.keys. now rewrite length_map. }
    assert (Hxs : List.length xs = List.length rs).
    { unfold xs. now apply length_combine_le. }
    assert (Hbut : forall j x, S j < List.length xs -> nth_error xs j = Some x ->
                               Executor.success_of (snd x) = true).
    { intros j [k r] Hj Hx. apply nth_error_combine in Hx. destruct Hx as [_ Hr].
      simpl. apply (Hall j r); [lia | exact Hr]. }
    split.
    + rewrite Hf. apply filter_at_most_last. intros j x Hj Hx.
      now rewrite (Hbut j x Hj Hx).
    + rewrite Hd, length_map. intros j d Hj Hn.
      rewrite nth_error_map in Hn.
      destruct (nth_error xs j) as [[k [[ok out] err]]|] eqn:Hx; [|discriminate].
      injection Hn as <-. apply (Hbut j _ Hj Hx).
Qed.

Lemma stop_on_failure_single_failure_witness :
  let res := test_documentation (world_of response_ordering env_second_fails)
                                None false ["docs/README.md"%string] 3 true None in
  scripts_failed res <= 1.
Proof.
  cbv zeta.
  exact (proj1 (stop_on_failure_single_failure
                  (world_of response_ordering env_second_fails)
                  None false ["docs/README.md"%string] 3 None)).
Defined.

(** X15. The details follow the order of the script set: their script
    names are the first [scripts_executed] names of [scripts]; a run never
    executes more scripts than were generated; and a run without
    [stop_on_failure] that reaches the executor executes all of them. *)
Theorem details_follow_scripts :
  forall (w : World) (work_dir : option string) (verbose : bool)
         (sources : list string) (max_iterations : nat)
         (stop_on_failure : bool) (custom_instructions : option string),
    let res := test_documentation w work_dir verbose sources max_iterations
                                  stop_on_failure custom_instructions in
    map script (details res)
    = firstn (scripts_executed res) (PyDict.keys (scripts res))
    /\ scripts_executed res <= scripts_generated res
    /\ (stop_on_failure = false -> error res = None ->
        scripts_executed res = scripts_generated res).
Proof.
  intros w work_dir verbose sources max_iterations stop_on_failure
         custom_instructions res.
  pose proof (run_cases w work_dir verbose sources max_iterations stop_on_failure
                        custom_instructions) as Hcases.
  cbv zeta in Hcases. fold res in Hcases.
  destruct Hcases
    as [[msg [Hm [_ [_ [Hn [Hd _]]]]]]|[_ [Hgen [_ [rs Hrun]]]]].
  - rewrite Hn, Hd. split; [reflexivity|]. split; [lia|]. congruence.
  - cbv zeta in Hrun.
    destruct Hrun as [Hlen [_ [Hn [_ [_ [Hd [_ [_ Hlast]]]]]]]].
    set (xs := combine (PyDict.keys (scripts res)) rs) in *.
    assert (Hkeys : List.length rs <= List.length (PyDict.keys (scripts res))).
    { unfold PyDict.keys. now rewrite length_map. }
    assert (Hxs : List.length xs = List.length rs).
    { unfold xs. now apply length_combine_le. }
    split; [|split].
    + rewrite Hd, Hn, Hxs, map_map.
      rewrite <- (keys_combine (PyDict.keys (scripts res)) rs Hkeys).
      fold xs. unfold PyDict.keys. apply map_ext.
      intros [k [[ok out] err]]. reflexivity.
    + lia.
    + intros Hstop _.
      destruct (Nat.eq_dec (List.length rs) (List.length (scripts res))) as [|Hneq];
        [lia|].
      destruct Hlast as [Hs _]; [lia | congruence].
Qed.

Lemma details_follow_scripts_witness :
  let res := test_documentation world_spawn_failure None false
                                ["docs/README.md"%string] 3 false None in
  scripts_executed res = scripts_generated res.
Proof.
  cbv zeta.
  apply (details_follow_scripts world_spawn_failure None false
           ["docs/README.md"%string] 3 false None).
  - reflexivity.
  - vm_compute. reflexivity.
Defined.

End OrchestratorExtras.

Section FormatDocs.
Import PyStr Orchestrator Examples.
Local Open Scope string_scope.

Lemma format_docs_cons (source content : string) (rest : list (string * string)) :
  _format_docs_for_ai ((source, content) :: rest)
  = (doc_header source ++ nl ++ content ++ nl ++ doc_rule)
    ++ match rest with
       | [] => ""
       | _ :: _ => nl ++ _format_docs_for_ai rest
       end.
Proof.
  unfold _format_docs_for_ai. cbn [flat_map fst snd app String.concat].
  destruct rest as [|[s c] rest].
  - cbn [flat_map String.concat]. now rewrite !string_app_assoc, string_app_nil_r.
  - cbn [flat_map app fst snd]. now rewrite !string_app_assoc.
Qed.

(** X16. The text [_format_docs_for_ai] builds holds every document in
    full: its header line with the source, an empty line, its content, and
    the closing rule of 80 equal signs; for no document it is empty. *)
Theorem format_docs_holds_every_document :
  _format_docs_for_ai [] = ""
  /\ forall (docs : list (string * string)) (source content : string),
      In (source, content) docs ->
      contains (("=== Documentation from: " ++ source ++ " ===" ++ nl)
                ++ nl ++ content ++ nl ++ (nl ++ repeat_char "=" 80 ++ nl))
               (_format_docs_for_ai docs) = true.
Proof.
  split; [reflexivity|].
  induction docs as [|[s c] docs IH]; intros source content Hin; [contradiction|].
  rewrite format_docs_cons. destruct Hin as [Heq|Hin].
  - injection Heq as -> ->. apply contains_here.
    apply (prefix_append (doc_header source ++ nl ++ content ++ nl ++ doc_rule)).
  - apply contains_append_r.
    destruct docs as [|d docs]; [contradiction|].
    apply contains_append_r. now apply IH.
Qed.

Lemma format_docs_holds_every_document_witness :
  contains ("=== Documentation from: b.md ===" ++ nl ++ nl ++ "Run it." ++ nl
            ++ nl ++ repeat_char "=" 80 ++ nl)
           (_format_docs_for_ai [("a.md", "Install it."); ("b.md", "Run it.")]) = true.
Proof.
  apply (proj2 format_docs_holds_every_document
               [("a.md", "Install it."); ("b.md", "Run it.")] "b.md" "Run it.").
  right. left. reflexivity.
Defined.

End FormatDocs.

(* ================================================================== *)
(** * Properties of the fetcher *)

Section DictMore.
Context {V : Type}.
Implicit Types (d : PyDict.dict V) (k : string) (v : V).

Lemma In_set k v d (kv : string * V) :
  In kv (PyDict.set k v d) -> kv = (k, v) \/ In kv d.
Proof.
  induction d as [|[k' v'] d IH]; simpl.
  - intros [<-|[]]. now left.
  - destruct (k' =? k)%string; simpl; intros [H|H]; auto.
    destruct (IH H); auto.
Qed.

Lemma keys_set k v d (k0 : string) :
  In k0 (PyDict.keys (PyDict.set k v d)) <-> k0 = k \/ In k0 (PyDict.keys d).
Proof.
  induction d as [|[k' v'] d IH]; simpl.
  - split; [intros [<-|[]]; now left | intros [->|[]]; now left].
  - destruct (String.eqb_spec k' k) as [->|Hne]; simpl.
    + split; [intros [<-|H]; auto | intros [->|[<-|H]]; auto].
    + rewrite IH. split; [intros [<-|[->|H]]; auto | intros [->|[<-|H]]; auto].
Qed.

Lemma NoDup_keys_set k v d :
  NoDup (PyDict.keys d) -> NoDup (PyDict.keys (PyDict.set k v d)).
Proof.
  intros Hnd. destruct (in_dec string_dec k (PyDict.keys d)) as [Hin|Hout].
  - now rewrite keys_set_present.
  - rewrite set_fresh by assumption. rewrite keys_app. simpl.
    apply NoDup_app; [exact Hnd | repeat constructor; intros [] |].
    intros x Hx [<-|[]]. contradiction.
Qed.

Lemma keys_update d2 : forall d1 (k0 : string),
  In k0 (PyDict.keys (PyDict.update d1 d2))
  <-> In k0 (PyDict.keys d1) \/ In k0 (PyDict.keys d2).
Proof.
  unfold PyDict.update.
  induction d2 as [|[k v] d2 IH]; intros d1 k0; simpl; [tauto|].
  rewrite IH, keys_set. intuition.
Qed.

Lemma NoDup_keys_update d2 : forall d1,
  NoDup (PyDict.keys d1) -> NoDup (PyDict.keys (PyDict.update d1 d2)).
Proof.
  unfold PyDict.update.
  induction d2 as [|[k v] d2 IH]; intros d1 H; simpl; [exact H|].
  apply IH. now apply NoDup_keys_set.
Qed.

End DictMore.

Section FetcherFacts.
Import PyStr Fetcher Examples.

Lemma fetch_loop_failure (e : Env) (sources : list string) :
  forall (all_docs : PyDict.dict string) (err : string),
    fetch_loop e sources all_docs = inl err <->
    exists pre s post,
      sources = pre ++ s :: post
      /\ (forall x, In x pre -> exists d, fetch e x = inr d)
      /\ fetch e s = inl err.
Proof.
  induction sources as [|s sources IH]; intros all_docs err; simpl.
  - split; [discriminate|]. intros [pre [s [post [H _]]]].
    destruct pre; discriminate.
  - destruct (fetch e s) as [m|d] eqn:Hs.
    + split.
      * intros H. injection H as ->. exists [], s, sources.
        split; [reflexivity|]. split; [intros x []|exact Hs].
      * intros [pre [s' [post [Heq [Hpre Hf]]]]].
        destruct pre as [|x pre]; simpl in Heq; injection Heq as <- _.
        -- congruence.
        -- destruct (Hpre s (or_introl eq_refl)) as [d Hd]. congruence.
    + rewrite IH. split.
      * intros [pre [s' [post [-> [Hpre Hf]]]]]. exists (s :: pre), s', post.
        split; [reflexivity|]. split; [|exact Hf].
        intros x [<-|Hx]; [eauto | auto].
      * intros [pre [s' [post [Heq [Hpre Hf]]]]].
        destruct pre as [|x pre]; simpl in Heq; injection Heq as <- Hrest.
        -- congruence.
        -- exists pre, s', post. split; [exact Hrest|].
           split; [|exact Hf]. intros y Hy. apply Hpre. now right.
Qed.

(** X17. [fetch_multiple] fails exactly when some source cannot be
    fetched, and then with the error of the first such source: no partial
    result is returned. *)
Theorem fetch_multiple_first_failure :
  forall (e : Env) (sources : list string) (err : string),
    fetch_multiple e sources = inl err <->
    exists pre s post,
      sources = pre ++ s :: post
      /\ (forall x, In x pre -> exists d, fetch e x = inr d)
      /\ fetch e s = inl err.
Proof. intros e sources err. apply fetch_loop_failure. Qed.

Lemma fetch_multiple_first_failure_witness :
  fetch_multiple env_docs_dir ["README.md"; "missing.md"; "docs"]%string
  = inl "Path does not exist: missing.md"%string.
Proof.
  apply fetch_multiple_first_failure.
  exists ["README.md"%string], "missing.md"%string, ["docs"%string].
  split; [reflexivity|]. split; [|reflexivity].
  intros x [<-|[]]. eexists. vm_compute. reflexivity.
Defined.

Lemma fetch_loop_success (e : Env) (sources : list string) :
  forall (all_docs docs : PyDict.dict string),
    fetch_loop e sources all_docs = inr docs ->
    (NoDup (PyDict.keys all_docs) -> NoDup (PyDict.keys docs))
    /\ (forall k, In k (PyDict.keys docs) <->
                  In k (PyDict.keys all_docs)
                  \/ exists s d, In s sources /\ fetch e s = inr d
                                 /\ In k (PyDict.keys d)).
Proof.
  induction sources as [|s sources IH]; intros all_docs docs H; simpl in H.
  - injection H as <-. split; [auto|]. intros k. split; [now left|].
    intros [Hk|[s [d [[] _]]]]. exact Hk.
  - destruct (fetch e s) as [m|d] eqn:Hs; [discriminate|].
    apply IH in H. destruct H as [Hnd Hkeys]. split.
    + intros H0. apply Hnd. now apply NoDup_keys_update.
    + intros k. rewrite Hkeys, keys_update. split.
      * intros [[Hk|Hk]|[s' [d' [Hin [Hf Hk]]]]].
        -- now left.
        -- right. exists s, d. split; [now left | auto].
        -- right. exists s', d'. split; [now right | auto].
      * intros [Hk|[s' [d' [[<-|Hin] [Hf Hk]]]]].
        -- left. now left.
        -- left. right. congruence.
        -- right. exists s', d'. auto.
Qed.

(** X18. When [fetch_multiple] succeeds, the identifiers of its result
    are exactly those of the documents of the single sources, each of them
    once; for no source the result is the empty mapping. *)
Theorem fetch_multiple_union :
  forall (e : Env) (sources : list string),
    fetch_multiple e [] = inr []
    /\ forall docs : PyDict.dict string,
        fetch_multiple e sources = inr docs ->
        NoDup (PyDict.keys docs)
        /\ (forall k, In k (PyDict.keys docs) <->
                      exists s d, In s sources /\ fetch e s = inr d
                                  /\ In k (PyDict.keys d)).
Proof.
  intros e sources. split; [reflexivity|]. intros docs H.
  apply fetch_loop_success in H. destruct H as [Hnd Hkeys]. split.
  - apply Hnd. constructor.
  - intros k. rewrite Hkeys. simpl. tauto.
Qed.

Lemma fetch_multiple_union_witness :
  NoDup (PyDict.keys [("README.md", "Read me."); ("docs/guide.MD", "Run make.")]%string).
Proof.
  apply (proj2 (fetch_multiple_union env_docs_dir ["README.md"; "docs"; "README.md"]%string)).
  vm_compute. reflexivity.
Defined.

(** *** Reading a directory *)

Lemma read_directory_loop_spec (e : Env) (entries : list Entry) :
  forall docs0 : PyDict.dict string,
    let docs := read_directory_loop e entries docs0 in
    (forall k v, In (k, v) docs ->
                 In (k, v) docs0
                 \/ exists entry, In entry entries /\ entry_path entry = k
                                  /\ readable_doc e entry v)
    /\ (forall k, In k (PyDict.keys docs0) -> In k (PyDict.keys docs))
    /\ (forall entry v, In entry entries -> readable_doc e entry v ->
                        In (entry_path entry) (PyDict.keys docs)).
Proof.
  induction entries as [|x entries IH]; intros docs0; cbn zeta.
  - simpl. repeat split; auto. intros entry v [].
  - cbn [read_directory_loop].
    destruct (entry_is_file x && in_list (lower (entry_suffix x)) doc_extensions)
      eqn:Hdoc.
    + apply andb_true_iff in Hdoc. destruct Hdoc as [Hfile Hext].
      apply in_list_iff in Hext. unfold _read_file.
      destruct (read_text e (entry_path x)) as [m|c] eqn:Hread.
      * destruct (IH docs0) as [H1 [H2 H3]]. split; [|split].
        -- intros k v Hin. destruct (H1 k v Hin) as [H|[en [Hen H]]]; [now left|].
           right. exists en. split; [now right | exact H].
        -- exact H2.
        -- intros entry v [<-|Hin] Hr.
           ++ destruct Hr as [_ [_ Hr]]. congruence.
           ++ eapply H3; eauto.
      * destruct (IH (PyDict.update docs0 [(entry_path x, c)])) as [H1 [H2 H3]].
        split; [|split].
        -- intros k v Hin. destruct (H1 k v Hin) as [H|[en [Hen H]]].
           ++ unfold PyDict.update in H. simpl in H. apply In_set in H.
              destruct H as [H|H]; [|now left].
              injection H as -> ->. right. exists x.
              split; [now left|]. split; [reflexivity|]. repeat split; auto.
           ++ right. exists en. split; [now right | exact H].
        -- intros k Hk. apply H2. apply keys_update. now left.
        -- intros entry v [<-|Hin] Hr.
           ++ apply H2. apply keys_update. right. now left.
           ++ eapply H3; eauto.
    + destruct (IH docs0) as [H1 [H2 H3]]. split; [|split].
      * intros k v Hin. destruct (H1 k v Hin) as [H|[en [Hen H]]]; [now left|].
        right. exists en. split; [now right | exact H].
      * exact H2.
      * intros entry v [<-|Hin] [Hf [Hx Hr]].
        -- apply in_list_iff in Hx. rewrite Hf, Hx in Hdoc. discriminate.
        -- eapply H3; [exact Hin|]. repeat split; eauto.
Qed.

End FetcherFacts.

Section ReadDirectory.
Import PyStr Fetcher Examples.

(** X19. [_read_directory] returns the content of every regular file of
    the tree that has a documentation extension, in any case, and can be
    read, under its path, and nothing else; a file that cannot be read is
    skipped. It fails exactly when there is no such file, with the message
    "No documentation files found in directory: <dir>", so a result is
    never empty. *)
Theorem read_directory_spec :
  forall (e : Env) (dir_path : string),
    (forall docs : PyDict.dict string,
        _read_directory e dir_path = inr docs ->
        docs <> []
        /\ (forall k v, In (k, v) docs ->
                        exists entry, In entry (rglob e dir_path)
                                      /\ entry_path entry = k
                                      /\ readable_doc e entry v)
        /\ (forall entry v, In entry (rglob e dir_path) ->
                            readable_doc e entry v ->
                            In (entry_path entry) (PyDict.keys docs)))
    /\ (forall err : string,
           _read_directory e dir_path = inl err ->
           err = ("No documentation files found in directory: " ++ dir_path)%string
           /\ forall entry v, In entry (rglob e dir_path) ->
                              ~ readable_doc e entry v).
Proof.
  intros e dir_path. unfold _read_directory.
  destruct (read_directory_loop_spec e (rglob e dir_path) []) as [H1 [_ H3]].
  destruct (read_directory_loop e (rglob e dir_path) []) as [|kv docs] eqn:Hloop.
  - split; [discriminate|]. intros err H. injection H as <-.
    split; [reflexivity|]. intros entry v Hin Hr. exact (H3 entry v Hin Hr).
  - split; [|discriminate]. intros d H. injection H as <-.
    split; [discriminate|]. split; [|exact H3].
    intros k v Hin. destruct (H1 k v Hin) as [[]|H]. exact H.
Qed.

Lemma read_directory_spec_witness :
  _read_directory env_docs_dir "docs" = inr [("docs/guide.MD", "Run make.")]%string
  /\ exists entry, In entry (rglob env_docs_dir "docs")
                   /\ entry_path entry = "docs/guide.MD"%string
                   /\ readable_doc env_docs_dir entry "Run make.".
Proof.
  split; [vm_compute; reflexivity|].
  destruct (proj1 (read_directory_spec env_docs_dir "docs")
                  [("docs/guide.MD", "Run make.")]%string) as [_ [H _]].
  - vm_compute. reflexivity.
  - apply H. now left.
Defined.

End ReadDirectory.

(* ================================================================== *)
(** * Properties of the provider client's set-up *)

Section AIClientFacts.
Import PyStr AIClient.

(** X20. [_parse_provider] reads the provider name without regard to
    case: it gives OPENAI, ANTHROPIC or GEMINI exactly for the names
    openai, anthropic and gemini in any case, and CUSTOM for every other
    name. *)
Theorem parse_provider_spec :
  forall name : string,
    (_parse_provider name = OPENAI <-> lower name = "openai"%string)
    /\ (_parse_provider name = ANTHROPIC <-> lower name = "anthropic"%string)
    /\ (_parse_provider name = GEMINI <-> lower name = "gemini"%string)
    /\ (_parse_provider name = CUSTOM <->
        ~ In (lower name) ["openai"; "anthropic"; "gemini"]%string)
    /\ _parse_provider (lower name) = _parse_provider name.
Proof.
  intros name. unfold _parse_provider. rewrite lower_idempotent.
  generalize (lower name) as t. intros t. cbn [members parse_loop value].
  destruct (String.eqb_spec "openai" t) as [<-|H1].
  { repeat split; try discriminate; try reflexivity; simpl; intuition discriminate. }
  destruct (String.eqb_spec "anthropic" t) as [<-|H2].
  { repeat split; try discriminate; try reflexivity; simpl; intuition discriminate. }
  destruct (String.eqb_spec "gemini" t) as [<-|H3].
  { repeat split; try discriminate; try reflexivity; simpl; intuition discriminate. }
  destruct (String.eqb_spec "custom" t) as [<-|H4];
    repeat split; try discriminate; try reflexivity; try congruence;
    simpl; intuition congruence.
Qed.

Lemma parse_provider_spec_witness : _parse_provider "OpenAI" = OPENAI.
Proof. apply parse_provider_spec. reflexivity. Defined.

(** X21. [__init__] fails exactly for a provider other than openai,
    anthropic and gemini that comes without an address or without a model:
    the missing address is reported first. Otherwise the client starts with
    an empty conversation, with the given address and model where they are
    given and the provider's own otherwise, Gemini having no fixed
    address. *)
Theorem init_spec :
  forall (key : string) (url : option string) (name : string)
         (model_name : option string) (seconds : nat),
    (forall msg : string,
        init key url name model_name seconds = inl msg <->
        _parse_provider name = CUSTOM
        /\ ((given url = None
             /\ msg = "api_url must be provided for custom provider"%string)
            \/ (given url <> None /\ given model_name = None
                /\ msg = "model must be provided for custom provider"%string)))
    /\ (forall c : AIClient,
           init key url name model_name seconds = inr c ->
           api_key c = key
           /\ provider c = _parse_provider name
           /\ timeout c = seconds
           /\ conversation_history c = []
           /\ (forall u, given url = Some u -> api_url c = Some u)
           /\ (forall m, given model_name = Some m -> model c = m)
           /\ (api_url c = None <-> given url = None /\ provider c = GEMINI)).
Proof.
  intros key url name model_name seconds. unfold init.
  destruct (given url) as [u|]; destruct (given model_name) as [m|];
    destruct (_parse_provider name); split.
  all: try (intros c H; try discriminate H; injection H as <-; cbn;
            repeat split; try congruence; try discriminate;
            try (intros [? ?]; discriminate)).
  all: intros msg; split.
  all: try (intros H; discriminate H).
  all: try (intros [Hc _]; discriminate Hc).
  all: try (intros H; injection H as <-; split; [reflexivity|];
            first [ left; split; reflexivity
                  | right; split; [discriminate|]; split; reflexivity ]).
  all: try (intros [_ [[H1 ->]|[H1 [H2 ->]]]];
            first [ reflexivity | discriminate | now elim H1 ]).
Qed.

Lemma init_spec_witness :
  init "k" None "my-llm" (Some "m1") 120
  = inl "api_url must be provided for custom provider"%string.
Proof.
  apply (proj1 (init_spec "k" None "my-llm" (Some "m1"%string) 120)).
  split; [reflexivity|]. left. split; reflexivity.
Defined.

End AIClientFacts.

(* ================================================================== *)
(** * Properties of the simple YAML reader *)

Section YamlFacts.
Import PyStr Config.
Local Open Scope string_scope.

Lemma yaml_step_total (st : PyDict.dict Value * option string) (raw_line : string) :
  list_key_holds_list st ->
  exists st', yaml_step (Some st) raw_line = Some st' /\ list_key_holds_list st'.
Proof.
  destruct st as [config cur]. intros Hinv. unfold yaml_step.
  destruct ((strip raw_line =? "") || startswith "#" (strip raw_line)).
  { eauto. }
  destruct (startswith "- " (strip raw_line)).
  { destruct (list_key cur) as [key|] eqn:Hk; [|eauto].
    destruct (Hinv key Hk) as [items Hget]. simpl in Hget. rewrite Hget.
    cbv zeta. rewrite Hget. eexists. split; [reflexivity|].
    intros k Hk'. simpl in Hk'. rewrite Hk in Hk'. injection Hk' as <-.
    simpl. rewrite get_set_same. eauto. }
  destruct (split_first ":" (strip raw_line)) as [[key value]|]; [|eauto].
  cbv zeta. destruct (strip value =? "").
  - eexists. split; [reflexivity|]. intros k Hk. simpl in Hk.
    assert (k = strip key) by (destruct (strip key); [discriminate | congruence]).
    subst k. simpl. rewrite get_set_same. eauto.
  - eexists. split; [reflexivity|]. intros k Hk. discriminate.
Qed.

Lemma yaml_fold_total (lines : list string) :
  forall st, list_key_holds_list st ->
             exists st', fold_left yaml_step lines (Some st) = Some st'
                         /\ list_key_holds_list st'.
Proof.
  induction lines as [|l lines IH]; intros st H; cbn [fold_left]; [eauto|].
  destruct (yaml_step_total st l H) as [st1 [-> H1]]. now apply IH.
Qed.

(** X22. [_parse_simple_yaml] never raises: the [append] of a list item
    always meets a list, because list items go to the key of the latest line
    [key:] only while no other key line has come since. *)
Theorem parse_simple_yaml_total :
  forall content : string,
    exists config, _parse_simple_yaml content = Some config.
Proof.
  intros content. unfold _parse_simple_yaml, yaml_state.
  edestruct (yaml_fold_total) as [[config cur] [Hfold _]];
    [|rewrite Hfold; eauto].
  intros key Hk. discriminate.
Qed.

Lemma split_snoc_line (content line : string) :
  all_chars (fun c => negb (c =? newline)%char) line = true ->
  split newline (content ++ nl ++ line) = (split newline content ++ [line])%list.
Proof.
  intros H. induction content as [|c s IH].
  - change (split newline (String newline line) = [""; line]).
    cbn [split]. rewrite Ascii.eqb_refl. now rewrite split_one_line.
  - change (split newline (String c (s ++ nl ++ line))
            = (split newline (String c s) ++ [line])%list).
    cbn [split]. rewrite IH. destruct (c =? newline)%char; [reflexivity|].
    destruct (split newline s) eqn:E; [now destruct (split_nonempty newline s)|].
    reflexivity.
Qed.

(** A last line of the file is one more round of the loop. *)
Lemma yaml_state_snoc (content line : string) :
  all_chars (fun c => negb (c =? newline)%char) line = true ->
  yaml_state (content ++ nl ++ line) = yaml_step (yaml_state content) line.
Proof.
  intros H. unfold yaml_state. rewrite split_snoc_line by exact H.
  rewrite fold_left_app. reflexivity.
Qed.

Lemma parse_state (content : string) (config : PyDict.dict Value) :
  _parse_simple_yaml content = Some config ->
  exists cur, yaml_state content = Some (config, cur).
Proof.
  unfold _parse_simple_yaml. destruct (yaml_state content) as [[c cur]|];
    [|discriminate].
  intros H. injection H as ->. eauto.
Qed.

Lemma all_chars_app (q : ascii -> bool) (a b : string) :
  all_chars q (a ++ b) = all_chars q a && all_chars q b.
Proof.
  induction a as [|c a IH]; simpl; [reflexivity|].
  now rewrite IH, andb_assoc.
Qed.

Lemma lstrip_by_app (p : ascii -> bool) (a b : string) :
  a <> "" -> lstrip_by p a = a -> lstrip_by p (a ++ b) = a ++ b.
Proof.
  intros Hne H. destruct (lstrip_by_head p a) as [E|[c [r [E Hc]]]];
    rewrite H in E; [contradiction|]. subst a. simpl. now rewrite Hc.
Qed.

Lemma rstrip_by_app (p : ascii -> bool) (a b : string) :
  b <> "" -> rstrip_by p b = b -> rstrip_by p (a ++ b) = a ++ b.
Proof.
  intros Hne H. induction a as [|c a IH]; [exact H|].
  change (rstrip_by p (String c (a ++ b)) = String c (a ++ b)).
  cbn [rstrip_by]. rewrite IH. destruct (a ++ b) eqn:E; [|reflexivity].
  destruct a; simpl in E; [contradiction | discriminate].
Qed.

Lemma plain_sides (x : string) :
  plain x ->
  x <> "" /\ lstrip_by is_space x = x /\ rstrip_by is_space x = x.
Proof.
  intros [Hne [Hs _]]. destruct (strip_by_fixed is_space x) as [Hl Hr].
  fold (strip x) in Hl, Hr. rewrite Hs in Hl, Hr. auto.
Qed.

Lemma split_first_app (sep : ascii) (a b : string) :
  all_chars (fun c => negb (c =? sep)%char) a = true ->
  split_first sep (a ++ String sep b) = Some (a, b).
Proof.
  induction a as [|c a IH]; simpl; intros H.
  - now rewrite Ascii.eqb_refl.
  - apply andb_true_iff in H. destruct H as [Hc Ha].
    apply negb_true_iff in Hc. now rewrite Hc, (IH Ha).
Qed.

(** What the loop sees of a line that starts with a plain key and a
    colon. *)
Lemma key_line (key rest : string) :
  plain_key key ->
  let line := key ++ String ":" rest in
  lstrip_by is_space line = line
  /\ (line =? "") = false
  /\ startswith "#" line = false
  /\ startswith "- " line = false
  /\ split_first ":" line = Some (key, rest)
  /\ strip key = key.
Proof.
  intros [Hp [Hcolon [Hhash Hdash]]] line. subst line.
  destruct (plain_sides key Hp) as [Hne [Hl _]].
  split; [now apply lstrip_by_app|].
  split; [destruct key; [contradiction | reflexivity]|].
  split.
  { destruct key as [|c r]; [contradiction|].
    unfold startswith in Hhash |- *. cbn [prefix append] in Hhash |- *.
    destruct (ascii_dec "#" c); [|reflexivity].
    destruct r; simpl in Hhash; discriminate. }
  split.
  { unfold startswith in Hdash |- *.
    destruct key as [|c1 [|c2 r]]; [contradiction| |];
      cbn [prefix append] in Hdash |- *;
      (destruct (ascii_dec "-" c1); [|reflexivity]).
    - destruct (ascii_dec " " ":"); [discriminate | reflexivity].
    - destruct (ascii_dec " " c2); [|reflexivity].
      destruct r; simpl in Hdash; discriminate. }
  split; [now apply split_first_app|].
  now destruct Hp as [_ [Hs _]].
Qed.

Lemma yaml_step_scalar (config : PyDict.dict Value) (cur : option string)
      (key value : string) :
  plain_key key -> plain value ->
  yaml_step (Some (config, cur)) (key ++ ": " ++ value)
  = Some (PyDict.set key (VStr (unquote value)) config, None).
Proof.
  intros Hk Hv. destruct (plain_sides value Hv) as [Hne [Hl Hr]].
  destruct (key_line key (String " " value) Hk)
    as [Hlk [Hempty [Hhash [Hdash [Hsplit Hkey]]]]].
  change (key ++ ": " ++ value) with (key ++ String ":" (String " " value)).
  assert (Hline : strip (key ++ String ":" (String " " value))
                  = key ++ String ":" (String " " value)).
  { unfold strip, strip_by. rewrite Hlk.
    replace (key ++ String ":" (String " " value))
      with ((key ++ ": ") ++ value) by apply string_app_assoc.
    now apply rstrip_by_app. }
  assert (Hvalue : strip (String " " value) = value).
  { unfold strip, strip_by. change (lstrip_by is_space (String " " value))
      with (lstrip_by is_space value). now rewrite Hl, Hr. }
  unfold yaml_step. cbv zeta. rewrite Hline, Hempty, Hhash. cbn [orb].
  rewrite Hdash, Hsplit, Hkey, Hvalue.
  destruct value; [contradiction | reflexivity].
Qed.

Lemma yaml_step_list_head (config : PyDict.dict Value) (cur : option string)
      (key : string) :
  plain_key key ->
  yaml_step (Some (config, cur)) (key ++ ":")
  = Some (PyDict.set key (VList []) config, Some key).
Proof.
  intros Hk.
  destruct (key_line key "" Hk) as [Hlk [Hempty [Hhash [Hdash [Hsplit Hkey]]]]].
  assert (Hline : strip (key ++ ":") = key ++ ":").
  { unfold strip, strip_by. rewrite Hlk.
    apply rstrip_by_app; [discriminate | reflexivity]. }
  unfold yaml_step. cbv zeta. rewrite Hline, Hempty, Hhash. cbn [orb].
  rewrite Hdash, Hsplit, Hkey. reflexivity.
Qed.

Lemma yaml_step_item (config : PyDict.dict Value) (key : string)
      (items : list Value) (x : string) :
  key <> "" -> plain x ->
  PyDict.get key config = Some (VList items) ->
  yaml_step (Some (config, Some key)) ("  - " ++ x)
  = Some (PyDict.set key (VList (items ++ [VStr x])) config, Some key).
Proof.
  intros Hkey Hx Hget. destruct (plain_sides x Hx) as [Hne [Hl Hr]].
  assert (Hline : strip ("  - " ++ x) = "- " ++ x).
  { unfold strip, strip_by.
    change (lstrip_by is_space ("  - " ++ x)) with ("- " ++ x).
    now apply rstrip_by_app. }
  assert (Hitem : strip (drop 2 ("- " ++ x)) = x).
  { change (drop 2 ("- " ++ x)) with x. now destruct Hx as [_ [Hs _]]. }
  unfold yaml_step. cbv zeta. rewrite Hline, Hitem.
  change (("- " ++ x =? "") || startswith "#" ("- " ++ x)) with false.
  change (startswith "- " ("- " ++ x)) with (prefix "" x).
  replace (prefix "" x) with true by (now destruct x).
  replace (list_key (Some key)) with (Some key)
    by (destruct key; [contradiction | reflexivity]).
  rewrite Hget. cbv beta iota. now rewrite Hget.
Qed.

Lemma set_set (k : string) (v1 v2 : Value) (d : PyDict.dict Value) :
  PyDict.set k v2 (PyDict.set k v1 d) = PyDict.set k v2 d.
Proof.
  induction d as [|[k' v'] d IH]; simpl.
  - now rewrite String.eqb_refl.
  - destruct (k' =? k) eqn:E; simpl.
    + now rewrite String.eqb_refl.
    + now rewrite E, IH.
Qed.

Lemma yaml_items_snoc (items : list string) (x : string) :
  yaml_items (items ++ [x]) = yaml_items items ++ nl ++ "  - " ++ x.
Proof.
  induction items as [|y items IH]; simpl.
  - now rewrite string_app_nil_r.
  - rewrite IH. now rewrite !string_app_assoc.
Qed.

Lemma plain_key_line (key : string) :
  plain_key key -> key <> ""
  /\ all_chars (fun c => negb (c =? newline)%char) key = true.
Proof. intros [[Hne [_ Hnl]] _]. auto. Qed.

(** X23. A line [key: value] at the end of a file sets [key] to the
    value, without its quotes if it stands between quotes, in the mapping
    read from the lines before it: a key set before is overwritten in its
    place, a new key comes last. *)
Theorem yaml_scalar_line :
  forall (content key value : string) (config : PyDict.dict Value),
    _parse_simple_yaml content = Some config ->
    plain_key key -> plain value ->
    _parse_simple_yaml (content ++ nl ++ key ++ ": " ++ value)
    = Some (PyDict.set key (VStr (unquote value)) config).
Proof.
  intros content key value config Hparse Hk Hv.
  destruct (parse_state content config Hparse) as [cur Hst].
  destruct (plain_key_line key Hk) as [_ Hknl].
  unfold _parse_simple_yaml. rewrite yaml_state_snoc.
  - rewrite Hst, yaml_step_scalar by assumption. reflexivity.
  - rewrite all_chars_app, Hknl.
    change (": " ++ value) with (String ":" (String " " value)).
    cbn [all_chars andb]. now destruct Hv as [_ [_ ->]].
Qed.

Lemma yaml_scalar_line_witness :
  _parse_simple_yaml ("provider: openai" ++ nl ++ "model" ++ ": " ++ "'gpt-4o'")
  = Some [("provider", VStr "openai"); ("model", VStr "gpt-4o")].
Proof.
  refine (yaml_scalar_line "provider: openai" "model" "'gpt-4o'"
                           [("provider", VStr "openai")] _ _ _).
  - reflexivity.
  - repeat split; try reflexivity; discriminate.
  - repeat split; try reflexivity; discriminate.
Defined.

Lemma endswith_app (a b : string) : endswith b (a ++ b) = true.
Proof.
  induction a as [|c a IH]; simpl.
  - destruct b; simpl; now rewrite ?String.eqb_refl, ?Ascii.eqb_refl.
  - rewrite IH. apply orb_true_r.
Qed.

Lemma drop_last_snoc (v : string) (c : ascii) : drop_last (v ++ String c "") = v.
Proof.
  induction v as [|a v IH]; [reflexivity|].
  change (drop_last (String a (v ++ String c "")) = String a v).
  cbn [drop_last]. rewrite IH. now destruct v.
Qed.

Lemma startswith_head (c : ascii) (s : string) :
  startswith (String c "") (String c s) = true.
Proof.
  unfold startswith. cbn [prefix].
  destruct (ascii_dec c c); [now destruct s | contradiction].
Qed.

(** X24. Removing the quotes: a value between two double quotes or
    between two single quotes is stored without them, whatever stands
    between them; a value that does not start with a quote is stored as it
    is. *)
Theorem unquote_spec :
  forall v : string,
    unquote (double_quote ++ v ++ double_quote) = v
    /\ unquote (single_quote ++ v ++ single_quote) = v
    /\ (startswith double_quote v = false ->
        startswith single_quote v = false -> unquote v = v).
Proof.
  intros v. split; [|split].
  - unfold unquote.
    replace (endswith double_quote (double_quote ++ v ++ double_quote)) with true
      by (symmetry; rewrite <- string_app_assoc; apply endswith_app).
    unfold double_quote at 1 2. cbn [append]. rewrite startswith_head.
    cbn [andb]. apply drop_last_snoc.
  - unfold unquote.
    change (startswith double_quote (single_quote ++ v ++ single_quote)) with false.
    cbn [andb].
    replace (endswith single_quote (single_quote ++ v ++ single_quote)) with true
      by (symmetry; rewrite <- string_app_assoc; apply endswith_app).
    unfold single_quote at 1 2. cbn [append]. rewrite startswith_head.
    cbn [andb]. apply drop_last_snoc.
  - intros Hd Hs. unfold unquote. now rewrite Hd, Hs.
Qed.

Lemma unquote_spec_witness : unquote "README.md" = "README.md".
Proof.
  refine (proj2 (proj2 (unquote_spec "README.md")) _ _); reflexivity.
Defined.

Lemma yaml_list_state (content key : string) (config : PyDict.dict Value) :
  _parse_simple_yaml content = Some config ->
  plain_key key ->
  forall items : list string,
    Forall plain items ->
    yaml_state (content ++ nl ++ key ++ ":" ++ yaml_items items)
    = Some (PyDict.set key (VList (map VStr items)) config, Some key).
Proof.
  intros Hparse Hk. destruct (parse_state content config Hparse) as [cur Hst].
  destruct (plain_key_line key Hk) as [Hkne Hknl].
  induction items as [|x items IH] using rev_ind; intros Hall.
  - cbn [yaml_items map]. rewrite string_app_nil_r.
    rewrite yaml_state_snoc.
    + rewrite Hst. now apply yaml_step_list_head.
    + rewrite all_chars_app, Hknl. reflexivity.
  - apply Forall_app in Hall. destruct Hall as [Hitems Hx].
    apply Forall_inv in Hx. rewrite yaml_items_snoc.
    replace (content ++ nl ++ key ++ ":" ++ yaml_items items ++ nl ++ "  - " ++ x)
      with ((content ++ nl ++ key ++ ":" ++ yaml_items items) ++ nl ++ "  - " ++ x)
      by (now rewrite !string_app_assoc).
    rewrite yaml_state_snoc.
    + rewrite (IH Hitems).
      rewrite (yaml_step_item _ key (map VStr items) x Hkne Hx)
        by apply get_set_same.
      now rewrite set_set, map_app.
    + change ("  - " ++ x) with (String " " (String " " (String "-" (String " " x)))).
      cbn [all_chars andb]. now destruct Hx as [_ [_ ->]].
Qed.

(** X25. A line [key:] followed by item lines [  - item] at the end of a
    file sets [key] to the list of the items, in their order, in the mapping
    read from the lines before; without item lines the list is empty. *)
Theorem yaml_list_section :
  forall (content key : string) (items : list string)
         (config : PyDict.dict Value),
    _parse_simple_yaml content = Some config ->
    plain_key key ->
    Forall plain items ->
    _parse_simple_yaml (content ++ nl ++ key ++ ":" ++ yaml_items items)
    = Some (PyDict.set key (VList (map VStr items)) config).
Proof.
  intros content key items config Hparse Hk Hall. unfold _parse_simple_yaml.
  now rewrite (yaml_list_state content key config Hparse Hk items Hall).
Qed.

Lemma yaml_list_section_witness :
  _parse_simple_yaml ("provider: openai" ++ nl ++ "docs" ++ ":"
                      ++ yaml_items ["README.md"; "docs/setup.md"])
  = Some [("provider", VStr "openai");
          ("docs", VList [VStr "README.md"; VStr "docs/setup.md"])].
Proof.
  refine (yaml_list_section "provider: openai" "docs"
                            ["README.md"; "docs/setup.md"]
                            [("provider", VStr "openai")] _ _ _).
  - reflexivity.
  - repeat split; try reflexivity; discriminate.
  - repeat (apply Forall_cons; [repeat split; try reflexivity; discriminate|]).
    apply Forall_nil.
Defined.

End YamlFacts.

(* ================================================================== *)
(** * Properties of the documentation sources of a configuration *)

Section GetDocsFacts.
Import PyStr Config.
Local Open Scope string_scope.

Lemma split_by_pieces (p : ascii -> bool) (s : string) :
  Forall (fun x => all_chars (fun c => negb (p c)) x = true) (split_by p s).
Proof.
  induction s as [|c s IH]; simpl; [repeat constructor|].
  destruct (p c) eqn:Hc; [constructor; [reflexivity | exact IH]|].
  destruct (split_by p s) as [|l ls].
  - repeat constructor. simpl. now rewrite Hc.
  - inversion IH as [|? ? Hl Hls]; subst. constructor; [|exact Hls].
    simpl. now rewrite Hc, Hl.
Qed.

Lemma rstrip_without (p : ascii -> bool) (x : string) :
  all_chars (fun c => negb (p c)) x = true -> rstrip_by p x = x.
Proof.
  induction x as [|c x IH]; [reflexivity|]. intros H. simpl in H.
  apply andb_true_iff in H. destruct H as [Hc Hx]. apply negb_true_iff in Hc.
  rewrite rstrip_by_cons by exact Hc. now rewrite (IH Hx).
Qed.

Lemma strip_without_space (x : string) :
  all_chars (fun c => negb (is_space c)) x = true -> strip x = x.
Proof.
  intros H. unfold strip, strip_by.
  replace (lstrip_by is_space x) with x; [now apply rstrip_without|].
  destruct x as [|c x]; [reflexivity|]. simpl in H |- *.
  apply andb_true_iff in H. destruct H as [Hc _]. apply negb_true_iff in Hc.
  now rewrite Hc.
Qed.

Lemma strip_strip (y : string) : strip (strip y) = strip y.
Proof.
  destruct (strip_by_fixed is_space y) as [Hl Hr]. fold (strip y) in Hl, Hr.
  unfold strip at 1, strip_by. now rewrite Hl, Hr.
Qed.

Lemma docs_of_pieces (l : list string) :
  Forall (fun x => all_chars (fun c => negb (is_space c)) x = true) l ->
  map strip (filter (fun s => negb (strip s =? ""))
                    (filter (fun x => negb (x =? "")) l))
  = filter (fun x => negb (x =? "")) l.
Proof.
  induction 1 as [|x l Hx Hl IH]; [reflexivity|]. cbn [filter].
  destruct (negb (x =? "")) eqn:Hne; [|exact IH].
  cbn [filter]. rewrite (strip_without_space x Hx), Hne. cbn [map].
  now rewrite (strip_without_space x Hx), IH.
Qed.

Lemma concat_split (sep : ascii) (s : string) :
  String.concat (String sep "") (split sep s) = s.
Proof.
  induction s as [|c s IH]; [reflexivity|]. cbn [split].
  destruct (split sep s) as [|l ls] eqn:Hs; [now destruct (split_nonempty sep s)|].
  destruct (Ascii.eqb_spec c sep) as [->|Hne].
  - cbn [String.concat]. cbn [String.concat] in IH. rewrite IH. reflexivity.
  - cbn [String.concat] in IH |- *. destruct ls; simpl; now rewrite <- IH.
Qed.

Lemma split_fields (sep : ascii) (s : string) :
  Forall (fun f => all_chars (fun c => negb (c =? sep)%char) f = true)
         (split sep s).
Proof.
  induction s as [|c s IH]; simpl; [repeat constructor|].
  destruct (c =? sep)%char eqn:Hc; [constructor; [reflexivity | exact IH]|].
  destruct (split sep s) as [|l ls].
  - repeat constructor. simpl. now rewrite Hc.
  - inversion IH as [|? ? Hl Hls]; subst. constructor; [|exact Hls].
    simpl. now rewrite Hc, Hl.
Qed.

(** X26. When the configuration holds a string under [docs], [get_docs]
    cuts it into its sources. A string with a comma is cut at its commas:
    the sources are its fields, that is the pieces without a comma that
    give the string back when joined by commas, each one trimmed, the empty
    ones left out, in their order. A string without a comma is cut at its
    runs of white space, as [split()] does. In both cases no source is
    empty or has white space around it. *)
Theorem get_docs_of_string :
  forall (config : PyDict.dict Value) (value : string),
    PyDict.get "docs" config = Some (VStr value) ->
    (forall x, In x (get_docs config) ->
               exists s, x = VStr s /\ s <> "" /\ strip s = s)
    /\ (contains "," value = false ->
        get_docs config = map VStr (split_ws value))
    /\ (contains "," value = true ->
        exists fields : list string,
          String.concat "," fields = value
          /\ Forall (fun f => all_chars (fun c => negb (c =? ",")%char) f = true)
                    fields
          /\ get_docs config
             = map VStr (filter (fun s => negb (s =? "")) (map strip fields))).
Proof.
  intros config value Hget.
  assert (Hdocs : get_docs config = map VStr (docs_of_string value)).
  { destruct config as [|kv config]; [discriminate|].
    unfold get_docs. cbn [get_docs_loop]. now rewrite Hget. }
  rewrite Hdocs. split; [|split].
  - intros x Hin. apply in_map_iff in Hin. destruct Hin as [s [<- Hs]].
    exists s. split; [reflexivity|].
    assert (Hpiece : exists y, s = strip y /\ negb (strip y =? "") = true).
    { unfold docs_of_string in Hs.
      destruct (contains "," value); apply in_map_iff in Hs;
        destruct Hs as [y [<- Hy]]; apply filter_In in Hy; destruct Hy; eauto. }
    destruct Hpiece as [y [-> Hy]]. split; [|apply strip_strip].
    intros E. rewrite E in Hy. discriminate.
  - intros Hcomma. unfold docs_of_string. rewrite Hcomma. unfold split_ws.
    now rewrite (docs_of_pieces _ (split_by_pieces is_space value)).
  - intros Hcomma. exists (split "," value).
    split; [apply concat_split|]. split; [apply split_fields|].
    unfold docs_of_string. rewrite Hcomma.
    now rewrite (filter_map_comm strip (fun x => negb (x =? ""))).
Qed.

Lemma get_docs_of_string_witness :
  get_docs [("docs", VStr "README.md  docs/setup.md")]
  = [VStr "README.md"; VStr "docs/setup.md"]
  /\ exists fields : list string,
      String.concat "," fields = "README.md, ,docs/setup.md"
      /\ get_docs [("docs", VStr "README.md, ,docs/setup.md")]
         = map VStr (filter (fun s => negb (s =? "")) (map strip fields)).
Proof.
  split.
  - refine (proj1 (proj2 (get_docs_of_string
                            [("docs", VStr "README.md  docs/setup.md")]
                            "README.md  docs/setup.md" _)) _);
      reflexivity.
  - destruct (proj2 (proj2 (get_docs_of_string
                              [("docs", VStr "README.md, ,docs/setup.md")]
                              "README.md, ,docs/setup.md" eq_refl)) eq_refl)
      as [fields [Hjoin [_ Hdocs]]].
    exists fields. split; [exact Hjoin | exact Hdocs].
Defined.

End GetDocsFacts.
